(** * calc-fold: the line calculator and its left-fold form

    A shallow embedding of the two variants of [calc.cpp] found in the
    repository:

    - module [Calc]    follows [src/calc.cpp] (brackets stripped by
      [delete_brackets], fold detected by [is_fold], tokens collected by
      [parse_number] into a vector);
    - module [Part000] follows the second variant (fold detected by the
      characters at positions 0 and 2, a separate [left_fold]).

    Doubles are the kernel's binary64 floats.  [std::fmod] and [std::pow]
    come from the C library and are taken as an interface ([Libm]).
    Everything written to [std::cerr] is recorded as a list of diagnostics
    returned next to the value. *)

From Stdlib Require Import PrimFloat Ascii String List Bool Arith Lia.
From Stdlib Require FloatOps FloatAxioms SpecFloat.
Import ListNotations.

Set Implicit Arguments.

(** ** Characters and lines *)

Definition str (s : string) : list ascii := list_ascii_of_string s.

(** [line[i]]: for [i = line.size()] the C++ library returns the null
    character; past that the read is undefined in C++ and is the null
    character here. *)
Definition char_at (line : list ascii) (i : nat) : ascii := nth i line zero.

Definition size (line : list ascii) : nat := length line.

(** [line.substr(pos, n)] for [pos <= line.size()]. *)
Definition substr (line : list ascii) (pos n : nat) : list ascii :=
  firstn n (skipn pos line).

(** [std::isspace] in the C locale: space, \t, \n, \v, \f, \r.  (A
    character with the high bit set is no white space here; handing one
    to [std::isspace] as a negative [char] is undefined in C++.) *)
Definition isspace (c : ascii) : bool :=
  let n := nat_of_ascii c in (n =? 32) || ((9 <=? n) && (n <=? 13)).

(** The ten [case '0': ... case '9':] labels. *)
Definition isdigit (c : ascii) : bool :=
  let n := nat_of_ascii c in (48 <=? n) && (n <=? 57).

(** [line[i] - '0'] converted to double. *)
Definition digit_value (c : ascii) : float :=
  nth (nat_of_ascii c - 48)
      [0; 1; 2; 3; 4; 5; 6; 7; 8; 9]%float 0%float.

(** ** Diagnostics written to std::cerr *)

Inductive diag : Type :=
| UnknownOperation            (* "Unknown operation <line>" *)
| ArgumentParsingError (at_pos : nat)  (* "Argument parsing error at <i>: ..." *)
| SuffixLeft                  (* "Argument isn't fully parsed, suffix left: ..." *)
| BadSqrtArgument             (* "Bad argument for SQRT: ..." *)
| BadDivision                 (* "Bad right argument for division: ..." *)
| BadRemainder                (* "Bad right argument for remainder: ..." *)
| NoArgumentBinary            (* "No argument for a binary operation" *)
| UnexpectedSuffixUnary       (* "Unexpected suffix for a unary operation: ..." *)
| WrongOperationLeftFold      (* "Wrong operation left fold" *)
| LeftConvolutionBinaryOnly   (* "Left convolutional is work only binary opertion" *)
| NoArguments                 (* "No arguments" *)
| WrongArguments.             (* "Wrong arguments" *)

(** A computation that writes diagnostics: the value and what was logged. *)
Definition W (A : Type) : Type := (A * list diag)%type.

Definition ret {A} (a : A) : W A := (a, []).

Definition bind {A B} (m : W A) (k : A -> W B) : W B :=
  let (a, d) := m in let (b, d') := k a in (b, d ++ d').

Definition tell (d : diag) : W unit := (tt, [d]).

Declare Scope w_scope.
Delimit Scope w_scope with W.
Notation "x <- m ;; k" := (bind m (fun x => k))
  (at level 61, m at next level, right associativity) : w_scope.
Notation "' p <- m ;; k" := (bind m (fun x => let p := x in k))
  (at level 61, p pattern, m at next level, right associativity) : w_scope.
Notation "m ;;; k" := (bind m (fun _ => k))
  (at level 61, right associativity) : w_scope.
Open Scope w_scope.

(** ** Operations *)

Definition max_decimal_digits : nat := 10.

Inductive Op : Type :=
| ERR | SET | ADD | SUB | MUL | DIV | REM | NEG | POW | SQRT.

Definition Op_eqb (a b : Op) : bool :=
  match a, b with
  | ERR, ERR | SET, SET | ADD, ADD | SUB, SUB | MUL, MUL
  | DIV, DIV | REM, REM | NEG, NEG | POW, POW | SQRT, SQRT => true
  | _, _ => false
  end.

Definition arity (op : Op) : nat :=
  match op with
  | ERR => 0
  | NEG => 1
  | SQRT => 1
  | SET => 2
  | ADD => 2
  | SUB => 2
  | MUL => 2
  | DIV => 2
  | REM => 2
  | POW => 2
  end.

(** The C library functions the calculator calls but does not define. *)
Class Libm : Type := {
  fmod : float -> float -> float;
  pow : float -> float -> float
}.

(** ** Code shared by the two variants *)

(** The [rollback] lambda of [parse_op]. *)
Definition rollback (i n : nat) : W (Op * nat) :=
  tell UnknownOperation ;;; ret (ERR, i - n).

(** The body of [parse_op]: the nested switches on [line[i++]]. *)
Definition parse_op_at (line : list ascii) (i : nat) : W (Op * nat) :=
  let c := char_at line i in
  let i := S i in
  if isdigit c then ret (SET, i - 1)
  else if (c =? "+")%char then ret (ADD, i)
  else if (c =? "-")%char then ret (SUB, i)
  else if (c =? "*")%char then ret (MUL, i)
  else if (c =? "/")%char then ret (DIV, i)
  else if (c =? "%")%char then ret (REM, i)
  else if (c =? "_")%char then ret (NEG, i)
  else if (c =? "^")%char then ret (POW, i)
  else if (c =? "S")%char then
    let c := char_at line i in
    let i := S i in
    if (c =? "Q")%char then
      let c := char_at line i in
      let i := S i in
      if (c =? "R")%char then
        let c := char_at line i in
        let i := S i in
        if (c =? "T")%char then ret (SQRT, i)
        else rollback i 4
      else rollback i 3
    else rollback i 2
  else rollback i 1.

(** [while (i < line.size() && std::isspace(line[i])) ++i;]
    walking the characters from position [i] on. *)
Fixpoint skip_ws_from (rest : list ascii) (i : nat) : nat :=
  match rest with
  | c :: rest' => if isspace c then skip_ws_from rest' (S i) else i
  | [] => i
  end.

Definition skip_ws (line : list ascii) (i : nat) : nat :=
  skip_ws_from (skipn i line) i.

(** The local variables of [parse_arg]. *)
Record arg_state : Type := mk_arg {
  a_res : float;
  a_count : nat;
  a_integer : bool;
  a_fraction : float;
  a_i : nat;
  a_good : bool
}.

(** One round of the [switch (line[i])] in [parse_arg]. *)
Definition arg_step (c : ascii) (st : arg_state) : arg_state :=
  if isdigit c then
    if a_integer st then
      mk_arg (a_res st * 10 + digit_value c) (S (a_count st)) true
             (a_fraction st) (S (a_i st)) (a_good st)
    else
      let fraction := (a_fraction st / 10)%float in
      mk_arg (a_res st + digit_value c * fraction) (S (a_count st)) false
             fraction (S (a_i st)) (a_good st)
  else if (c =? ".")%char then
    mk_arg (a_res st) (a_count st) false (a_fraction st) (S (a_i st)) (a_good st)
  else
    mk_arg (a_res st) (a_count st) (a_integer st) (a_fraction st) (a_i st) false.

(** [while (good && i < line.size() && count < max_decimal_digits)],
    [rest] being the characters from position [i] on. *)
Fixpoint parse_arg_loop (rest : list ascii) (st : arg_state) : arg_state :=
  match rest with
  | [] => st
  | c :: rest' =>
      if a_good st && (a_count st <? max_decimal_digits)
      then parse_arg_loop rest' (arg_step c st)
      else st
  end.

Definition unary (current : float) (op : Op) : W float :=
  match op with
  | NEG => ret (- current)%float
  | SQRT =>
      if PrimFloat.ltb 0 current then ret (PrimFloat.sqrt current)
      else tell BadSqrtArgument ;;; ret current
  | _ => ret current
  end.

(** [parse_number_length] of [src/calc.cpp], named [parse_number] in the
    second variant: the number of characters up to the next white space. *)
Fixpoint number_length_from (rest : list ascii) : nat :=
  match rest with
  | c :: rest' => if isspace c then 0 else S (number_length_from rest')
  | [] => 0
  end.

Definition parse_number_length (line : list ascii) (i : nat) : nat :=
  number_length_from (skipn i line).

(** ** The variant of [src/calc.cpp] *)

Module Calc.

(** The [for] loop of [delete_brackets]; [rest] holds the characters from
    position [i] on. *)
Fixpoint delete_brackets_scan (line rest : list ascii) (i : nat) : list ascii :=
  match rest with
  | [] => line
  | c :: rest' =>
      if (c =? ")")%char then
        substr line 1 (i - 1) ++ substr line (i + 1) (size line - i + 1)
      else if isspace c then line
      else delete_brackets_scan line rest' (S i)
  end.

Definition delete_brackets (line : list ascii) : list ascii :=
  if (char_at line 0 =? "(")%char then delete_brackets_scan line line 0
  else line.

Definition parse_op (line_raw : list ascii) (i : nat) : W (Op * nat) :=
  let line := delete_brackets line_raw in
  parse_op_at line i.

(** [good] comes in by reference and is only ever cleared. *)
Definition parse_arg (line : list ascii) (i : nat) (good : bool)
  : W (float * nat * bool) :=
  let st := parse_arg_loop (skipn i line) (mk_arg 0 0 true 1 i good) in
  let i := a_i st in
  if negb (a_good st) then
    tell (ArgumentParsingError i) ;;; ret (a_res st, i, false)
  else if i <? size line then
    tell SuffixLeft ;;; ret (a_res st, i, false)
  else ret (a_res st, i, true).

Section WithLibm.
Context {libm : Libm}.

Definition binary (op : Op) (left right : float) (good : bool)
  : W (float * bool) :=
  match op with
  | SET => ret (right, good)
  | ADD => ret (left + right, good)%float
  | SUB => ret (left - right, good)%float
  | MUL => ret (left * right, good)%float
  | DIV =>
      if negb (PrimFloat.eqb right 0) then ret (left / right, good)%float
      else tell BadDivision ;;; ret (left, false)
  | REM =>
      if negb (PrimFloat.eqb right 0) then ret (fmod left right, good)
      else tell BadRemainder ;;; ret (left, false)
  | POW => ret (pow left right, good)
  | _ => ret (left, good)
  end.

End WithLibm.

(** The [for (; i < line.size(); i++)] of [skip_brackets]. *)
Fixpoint skip_brackets_scan (rest : list ascii) (i old_i : nat) : nat :=
  match rest with
  | [] => old_i
  | c :: rest' =>
      if (c =? ")")%char then S i else skip_brackets_scan rest' (S i) old_i
  end.

Definition skip_brackets (line : list ascii) (i : nat) : nat :=
  let old_i := i in
  if (char_at line 0 =? "(")%char then skip_brackets_scan (skipn i line) i old_i
  else old_i.

Definition is_fold (line : list ascii) : bool :=
  if (char_at line 0 =? "(")%char
  then existsb (fun ch => (ch =? ")")%char) line
  else false.

(** The [while (i < line.size())] of [parse_number].  Every round moves
    [i] forward, so [line.size()] rounds are enough; [None] would mean
    that the rounds ran out with the loop still going. *)
Fixpoint parse_number_loop (rounds : nat) (line : list ascii) (i : nat)
  (numbers : list (list ascii)) : option (list (list ascii)) :=
  if i <? size line then
    match rounds with
    | 0 => None
    | S rounds' =>
        let i := skip_ws line i in
        let number_length := parse_number_length line i in
        let numbers :=
          if negb (number_length =? 0)
          then numbers ++ [substr line i number_length]
          else numbers in
        parse_number_loop rounds' line (i + number_length) numbers
    end
  else Some numbers.

Definition parse_number (line : list ascii) (i : nat)
  : option (W (list (list ascii))) :=
  match parse_number_loop (size line) line i [] with
  | None => None
  | Some numbers =>
      Some (match numbers with
            | [] => tell NoArgumentBinary ;;; ret numbers
            | _ => ret numbers
            end)
  end.

Section WithLibm.
Context {libm : Libm}.

(** The [for (const auto & str_number : numbers)] of [process_line], with
    its three [return current] exits. *)
Fixpoint fold_numbers (op : Op) (current : float) (line : list ascii)
  (numbers : list (list ascii)) (res : float) (i : nat) (good : bool)
  : W float :=
  match numbers with
  | [] => ret res
  | str_number :: numbers' =>
      if is_fold line then
        if Op_eqb op SET then
          tell WrongOperationLeftFold ;;; ret current
        else
          '(arg, i, good) <- parse_arg str_number 0 good ;;
          '(res, good) <- binary op res arg good ;;
          if negb good then ret current
          else fold_numbers op current line numbers' res i good
      else
        let i := skip_ws line i in
        let old_i := i in
        '(arg, i, good) <- parse_arg line i good ;;
        if i =? old_i then
          tell NoArgumentBinary ;;; ret current
        else
          '(res, good) <- binary op res arg good ;;
          if negb good then ret current
          else fold_numbers op current line numbers' res i good
  end.

(** [None] only if the tokenizer ran out of rounds, which never happens
    (see [Calc_diagnostic_keeps_accumulator]). *)
Definition process_line (current : float) (line : list ascii)
  : option (W float) :=
  let '((op, i), d_op) := parse_op line 0 in
  match arity op with
  | 2 =>
      let res := current in
      let i := skip_brackets line i in
      match parse_number line i with
      | None => None
      | Some (numbers, d_num) =>
          let (r, d) := fold_numbers op current line numbers res i true in
          Some (r, d_op ++ d_num ++ d)
      end
  | 1 =>
      if i <? size line then Some (current, d_op ++ [UnexpectedSuffixUnary])
      else let (r, d) := unary current op in Some (r, d_op ++ d)
  | _ => Some (current, d_op)
  end.

End WithLibm.

End Calc.

(** ** The second variant *)

Module Part000.

Definition parse_op (line : list ascii) (i : nat) : W (Op * nat) :=
  parse_op_at line i.

(** [good] is set to [true] on entry; a suffix left after ten digits is
    reported but leaves [good] as it is. *)
Definition parse_arg (line : list ascii) (i : nat) : W (float * nat * bool) :=
  let st := parse_arg_loop (skipn i line) (mk_arg 0 0 true 1 i true) in
  let i := a_i st in
  if negb (a_good st) then
    tell (ArgumentParsingError i) ;;; ret (a_res st, i, false)
  else if i <? size line then
    tell SuffixLeft ;;; ret (a_res st, i, true)
  else ret (a_res st, i, true).

Section WithLibm.
Context {libm : Libm}.

(** [good = true] first, cleared on a zero divisor. *)
Definition binary (op : Op) (left right : float) : W (float * bool) :=
  match op with
  | SET => ret (right, true)
  | ADD => ret (left + right, true)%float
  | SUB => ret (left - right, true)%float
  | MUL => ret (left * right, true)%float
  | DIV =>
      if negb (PrimFloat.eqb right 0) then ret (left / right, true)%float
      else tell BadDivision ;;; ret (left, false)
  | REM =>
      if negb (PrimFloat.eqb right 0) then ret (fmod left right, true)
      else tell BadRemainder ;;; ret (left, false)
  | POW => ret (pow left right, true)
  | _ => ret (left, true)
  end.

End WithLibm.

(** [while (i < line.size()) { i++; if (line[i] == ')') { i++; break; } }]:
    at most [line.size() - i] rounds, counted by [n]. *)
Fixpoint skip_brackets_loop (n : nat) (line : list ascii) (i : nat) : nat :=
  match n with
  | 0 => i
  | S n' =>
      let i := S i in
      if (char_at line i =? ")")%char then S i
      else skip_brackets_loop n' line i
  end.

Definition skip_brackets (line : list ascii) (i : nat) : nat :=
  skip_brackets_loop (size line - i) line i.

Definition parse_number (line : list ascii) (i : nat) : nat :=
  parse_number_length line i.

Section WithLibm.
Context {libm : Libm}.

(** The [while (i < line.size())] of [left_fold].  Every round consumes a
    token, so [line.size()] rounds are enough; [None] would mean that the
    rounds ran out with the loop still going. *)
Fixpoint left_fold_loop (rounds : nat) (op : Op) (old_current : float)
  (line : list ascii) (i : nat) (current : float) (log : list diag)
  : option (W float) :=
  if i <? size line then
    match rounds with
    | 0 => None
    | S rounds' =>
        let number_size := parse_number line i in
        let '(arg, pos, good, d_arg) := parse_arg (substr line i number_size) 0 in
        if negb good then
          Some (old_current, log ++ d_arg ++ [WrongArguments])
        else
          let '(current, good, d_bin) := binary op current arg in
          if negb good then Some (old_current, log ++ d_arg ++ d_bin)
          else
            let i := i + number_size in
            let i := skip_ws line i in
            left_fold_loop rounds' op old_current line i current
                           (log ++ d_arg ++ d_bin)
    end
  else Some (current, log).

Definition left_fold (current : float) (line : list ascii)
  : option (W float) :=
  let old_current := current in
  let i := 0 in
  let pos_binary_op := 1 in
  let '((op, _), d_op) := parse_op line pos_binary_op in
  if negb (arity op =? 2) || Op_eqb op SET then
    Some (current, d_op ++ [LeftConvolutionBinaryOnly])
  else
    let i := skip_brackets line i in
    let i := skip_ws line i in
    if i =? size line then Some (current, d_op ++ [NoArguments])
    else left_fold_loop (size line) op old_current line i current d_op.

(** The [else] branch of [process_line]. *)
Definition plain_line (current : float) (line : list ascii) : W float :=
  let '((op, i), d_op) := parse_op line 0 in
  match arity op with
  | 2 =>
      let i := skip_ws line i in
      let old_i := i in
      let '(arg, i, good, d_arg) := parse_arg line i in
      if i =? old_i then (current, d_op ++ d_arg ++ [NoArgumentBinary])
      else if i <? size line then (current, d_op ++ d_arg)
      else
        let '(r, _, d_bin) := binary op current arg in
        (r, d_op ++ d_arg ++ d_bin)
  | 1 =>
      if i <? size line then (current, d_op ++ [UnexpectedSuffixUnary])
      else let (r, d) := unary current op in (r, d_op ++ d)
  | _ => (current, d_op)
  end.

(** [(line[0] == '(') && (line[2] == ')')].  For the one-character line
    [(] the second test reads past the terminator, see [char_at]. *)
Definition fold_shape (line : list ascii) : bool :=
  (char_at line 0 =? "(")%char && (char_at line 2 =? ")")%char.

Definition process_line (current : float) (line : list ascii)
  : option (W float) :=
  if fold_shape line then left_fold current line
  else Some (plain_line current line).

End WithLibm.

End Part000.

(** ** What the claims speak of *)

Definition is_point (c : ascii) : bool := (c =? ".")%char.

(** A character a literal may hold: a digit or the decimal point. *)
Definition literal_char (c : ascii) : bool := isdigit c || is_point c.

Definition count_digits (s : list ascii) : nat := length (filter isdigit s).

(** The shape of the strings [parse_arg] reads to the end: digits and
    points only, at most ten digits, and nothing after the tenth digit. *)
Definition literal_shape (s : list ascii) : Prop :=
  forallb literal_char s = true /\
  (count_digits s < max_decimal_digits \/
   (count_digits s = max_decimal_digits /\ isdigit (last s zero) = true)).

(** The shape the specification gives: digits and at most one point, up
    to ten digits. *)
Definition spec_literal_shape (s : list ascii) : Prop :=
  forallb literal_char s = true /\
  length (filter is_point s) <= 1 /\
  count_digits s <= max_decimal_digits.

(** Multiply by ten and add, digit by digit. *)
Definition accumulate_integer (digits : list ascii) (r : float) : float :=
  fold_left (fun r c => (r * 10 + digit_value c)%float) digits r.

(** Divide the weight by ten and add the weighted digit, digit by digit. *)
Definition accumulate_fraction (digits : list ascii) (r weight : float)
  : float :=
  fst (fold_left
         (fun (rw : float * float) c =>
            let w := (snd rw / 10)%float in
            ((fst rw + digit_value c * w)%float, w))
         digits (r, weight)).

Fixpoint before_point (s : list ascii) : list ascii :=
  match s with
  | [] => []
  | c :: s' => if is_point c then [] else c :: before_point s'
  end.

Fixpoint after_point (s : list ascii) : list ascii :=
  match s with
  | [] => []
  | c :: s' => if is_point c then s' else after_point s'
  end.

(** The value of a literal in the specification's words: the digits before
    the first point as an integer part, the digits after it as a
    fractional part. *)
Definition literal_value_spec (s : list ascii) : float :=
  accumulate_fraction (filter isdigit (after_point s))
                      (accumulate_integer (before_point s) 0) 1.

(** What [parse_arg] of either variant leaves in its locals when started
    at the head of [s]. *)
Definition arg_final (s : list ascii) : arg_state :=
  parse_arg_loop s (mk_arg 0 0 true 1 0 true).

(** The value [parse_arg] returns for a token read from cursor zero. *)
Definition literal_value (s : list ascii) : float := a_res (arg_final s).

(** [parse_arg_loop] started in [st] reads all of [s] and keeps [good]. *)
Definition reads_all (s : list ascii) (st : arg_state) : Prop :=
  a_good (parse_arg_loop s st) = true /\
  a_i (parse_arg_loop s st) = a_i st + length s.

(** The white-space-delimited tokens of a string. *)
Fixpoint words (s : list ascii) : list (list ascii) :=
  match s with
  | [] => []
  | c :: s' =>
      if isspace c then words s'
      else
        match s' with
        | [] => [[c]]
        | d :: _ =>
            if isspace d then [c] :: words s'
            else
              match words s' with
              | w :: ws => (c :: w) :: ws
              | [] => [[c]]
              end
        end
  end.

(** The number of white-space characters a string starts with. *)
Fixpoint ws_prefix (s : list ascii) : nat :=
  match s with
  | c :: s' => if isspace c then S (ws_prefix s') else 0
  | [] => 0
  end.

(** A string that is empty or starts with a character satisfying [p]. *)
Definition starts_with (p : ascii -> bool) (s : list ascii) : Prop :=
  match s with
  | [] => True
  | c :: _ => p c = true
  end.

(** The arithmetic of a binary operation, apart from its zero checks. *)
Definition binop {libm : Libm} (op : Op) (left right : float) : float :=
  match op with
  | SET => right
  | ADD => (left + right)%float
  | SUB => (left - right)%float
  | MUL => (left * right)%float
  | DIV => (left / right)%float
  | REM => fmod left right
  | POW => pow left right
  | _ => left
  end.

(** Division and remainder need a right operand other than zero. *)
Definition step_ok (op : Op) (right : float) : bool :=
  match op with
  | DIV | REM => negb (PrimFloat.eqb right 0)
  | _ => true
  end.

(** A token of a fold line that is a literal and can be applied. *)
Definition valid_token (op : Op) (t : list ascii) : Prop :=
  literal_shape t /\ step_ok op (literal_value t) = true.

(** The operators a fold line may carry between its brackets. *)
Definition fold_op_of_char (c : ascii) : option Op :=
  if (c =? "+")%char then Some ADD
  else if (c =? "-")%char then Some SUB
  else if (c =? "*")%char then Some MUL
  else if (c =? "/")%char then Some DIV
  else if (c =? "%")%char then Some REM
  else if (c =? "^")%char then Some POW
  else None.

(** A fold line [(op) rest]. *)
Definition fold_line (opc : ascii) (rest : list ascii) : list ascii :=
  "("%char :: opc :: ")"%char :: rest.

(** An instance to run the evaluator with: the lines evaluated with it
    hold neither [%] nor [^], so neither function is ever called. *)
Definition sample_libm : Libm :=
  {| fmod := fun x _ => x; pow := fun x _ => x |}.

(** The rounds of the loop of [left_fold], seen over the list of tokens
    still to be read. *)
Fixpoint left_fold_tokens {libm : Libm} (op : Op) (old_current : float)
  (tokens : list (list ascii)) (current : float) (log : list diag)
  : W float :=
  match tokens with
  | [] => (current, log)
  | t :: tokens' =>
      let '(arg, pos, good, d_arg) := Part000.parse_arg t 0 in
      if negb good then (old_current, log ++ d_arg ++ [WrongArguments])
      else
        let '(current, good, d_bin) := Part000.binary op current arg in
        if negb good then (old_current, log ++ d_arg ++ d_bin)
        else left_fold_tokens op old_current tokens' current
                              (log ++ d_arg ++ d_bin)
  end.

(** A diagnostic other than [SuffixLeft]. *)
Definition hard_diagnostic (log : list diag) : Prop :=
  exists d, In d log /\ d <> SuffixLeft.

(** What a call of [parse_arg] hands back: the value, the cursor, the
    flag and what it logged. *)
Definition arg_value (r : W (float * nat * bool)) : float := fst (fst (fst r)).
Definition arg_cursor (r : W (float * nat * bool)) : nat := snd (fst (fst r)).
Definition arg_good (r : W (float * nat * bool)) : bool := snd (fst r).
Definition arg_log (r : W (float * nat * bool)) : list diag := snd r.

(** The text of an operation in a line; Set has none of its own. *)
Definition op_token (op : Op) : list ascii :=
  match op with
  | ADD => str "+"
  | SUB => str "-"
  | MUL => str "*"
  | DIV => str "/"
  | REM => str "%"
  | NEG => str "_"
  | POW => str "^"
  | SQRT => str "SQRT"
  | SET | ERR => []
  end.

(** Tokens written out with one space between them. *)
Fixpoint join_tokens (tokens : list (list ascii)) : list ascii :=
  match tokens with
  | [] => []
  | [t] => t
  | t :: tokens' => t ++ " "%char :: join_tokens tokens'
  end.

(** A token as the tokenizer cuts them: not empty, no white space. *)
Definition token_shape (t : list ascii) : Prop :=
  t <> [] /\ forallb (fun c => negb (isspace c)) t = true.

(** The value a call of [process_line] returns, without its log. *)
Definition value_of (r : option (W float)) : option float :=
  option_map fst r.

(** Neither a closing bracket nor white space: what [delete_brackets]
    walks over. *)
Definition bracket_inner_char (c : ascii) : bool :=
  negb (c =? ")")%char && negb (isspace c).

(** A diagnostic with its position counted from [k] characters earlier. *)
Definition shift_diag (k : nat) (d : diag) : diag :=
  match d with
  | ArgumentParsingError p => ArgumentParsingError (k + p)
  | _ => d
  end.

(** Whether [parse_arg], started at the head of [s], keeps [good] and
    reads [s] to its end. *)
Definition reads_literal (s : list ascii) : bool :=
  a_good (arg_final s) && (a_i (arg_final s) =? length s).

(** What a plain line with a binary operation comes to, [arg] being what
    follows the operator and the white space after it: the operation is
    applied when [arg] is one literal, not empty, and no zero divisor;
    otherwise the accumulator stays. *)
Definition plain_binary_value {libm : Libm} (op : Op) (current : float)
  (arg : list ascii) : float :=
  match arg with
  | [] => current
  | _ =>
      if reads_literal arg && step_ok op (literal_value arg)
      then binop op current (literal_value arg)
      else current
  end.

(** A token on which [parse_arg] stops at the cap of ten digits with
    [good] kept and characters left. *)
Definition leaves_suffix (t : list ascii) : bool :=
  a_good (arg_final t) && (a_i (arg_final t) <? length t).

(** Lines evaluated one after the other, each on the value the one before
    returned. *)
Definition run_lines (process : float -> list ascii -> option (W float))
  (lines : list (list ascii)) (current : float) : option float :=
  fold_left (fun acc line =>
               match acc with
               | Some a => value_of (process a line)
               | None => None
               end)
            lines (Some current).


(** The guard of the fold branch in [process_line] of [src/calc.cpp]: the
    operation that [parse_op] read takes two operands, and [is_fold] holds
    of the line. *)
Definition calc_fold_guard (line : list ascii) : bool :=
  (arity (fst (fst (Calc.parse_op line 0))) =? 2) && Calc.is_fold line.
(** ** Facts about characters *)

Ltac all_chars c :=
  destruct c as [[] [] [] [] [] [] [] []]; vm_compute; try reflexivity;
  try discriminate; auto.

Lemma isdigit_not_point c : isdigit c = true -> is_point c = false.
Proof. all_chars c. Qed.

Lemma isdigit_not_space c : isdigit c = true -> isspace c = false.
Proof. all_chars c. Qed.

Lemma point_not_space c : is_point c = true -> isspace c = false.
Proof. all_chars c. Qed.

Lemma literal_char_not_space c : literal_char c = true -> isspace c = false.
Proof. all_chars c. Qed.

Lemma is_point_eq c : is_point c = true -> c = "."%char.
Proof. unfold is_point. apply Ascii.eqb_eq. Qed.

Arguments isdigit : simpl never.
Arguments isspace : simpl never.
Arguments is_point : simpl never.
Arguments digit_value : simpl never.

(** ** The literal parser: cursor, digit count and flag *)

Section ArgLoop.

Lemma arg_step_digit c st :
  isdigit c = true ->
  a_count (arg_step c st) = S (a_count st) /\
  a_i (arg_step c st) = S (a_i st) /\
  a_good (arg_step c st) = a_good st.
Proof.
  intros Hd. unfold arg_step. rewrite Hd.
  destruct (a_integer st); simpl; auto.
Qed.

Lemma arg_step_point c st :
  isdigit c = false -> is_point c = true ->
  a_count (arg_step c st) = a_count st /\
  a_i (arg_step c st) = S (a_i st) /\
  a_good (arg_step c st) = a_good st.
Proof.
  intros Hd Hp. unfold arg_step. rewrite Hd.
  unfold is_point in Hp. rewrite Hp. simpl; auto.
Qed.

Lemma arg_step_other c st :
  literal_char c = false ->
  arg_step c st =
  mk_arg (a_res st) (a_count st) (a_integer st) (a_fraction st) (a_i st) false.
Proof.
  unfold literal_char, arg_step. intros H.
  apply orb_false_iff in H. destruct H as [Hd Hp].
  rewrite Hd. unfold is_point in Hp. rewrite Hp. reflexivity.
Qed.

Lemma parse_arg_loop_stopped rest st :
  a_good st = false -> parse_arg_loop rest st = st.
Proof. intros H. destruct rest; simpl; [|rewrite H]; reflexivity. Qed.

Lemma parse_arg_loop_capped rest st :
  max_decimal_digits <= a_count st -> parse_arg_loop rest st = st.
Proof.
  intros H. destruct rest; simpl; [reflexivity|].
  replace (a_count st <? max_decimal_digits) with false.
  - now rewrite andb_false_r.
  - symmetry. apply Nat.ltb_ge. exact H.
Qed.

(** The cursor only moves forward, by the characters read; the count is
    the number of digits among them and never passes the cap. *)
Lemma parse_arg_loop_cursor rest : forall st,
  a_count st <= max_decimal_digits ->
  let st' := parse_arg_loop rest st in
  exists k,
    a_i st' = a_i st + k /\ k <= length rest /\
    a_count st' = a_count st + count_digits (firstn k rest) /\
    a_count st' <= max_decimal_digits /\
    forallb literal_char (firstn k rest) = true.
Proof.
  induction rest as [|c rest IH]; intros st Hc; simpl.
  - exists 0. simpl. repeat split; auto; lia.
  - destruct (a_good st) eqn:Hg; simpl.
    2:{ exists 0. simpl. repeat split; auto; lia. }
    destruct (a_count st <? max_decimal_digits) eqn:Hlt.
    2:{ exists 0. simpl. repeat split; auto; lia. }
    apply Nat.ltb_lt in Hlt.
    destruct (literal_char c) eqn:Hl.
    + unfold literal_char in Hl.
      destruct (isdigit c) eqn:Hd.
      * destruct (arg_step_digit c st Hd) as (E1 & E2 & E3).
        destruct (IH (arg_step c st)) as (k & K1 & K2 & K3 & K4 & K5);
          [rewrite E1; lia|].
        exists (S k). unfold count_digits in *. simpl. rewrite Hd. simpl.
        unfold literal_char at 1. rewrite Hd. simpl.
        repeat split; auto; lia.
      * simpl in Hl.
        destruct (arg_step_point c st Hd Hl) as (E1 & E2 & E3).
        destruct (IH (arg_step c st)) as (k & K1 & K2 & K3 & K4 & K5);
          [rewrite E1; lia|].
        exists (S k). unfold count_digits in *. simpl. rewrite Hd.
        unfold literal_char at 1. rewrite Hd, Hl. simpl.
        repeat split; auto; lia.
    + rewrite (arg_step_other c st Hl).
      rewrite parse_arg_loop_stopped by reflexivity. simpl.
      exists 0. simpl. repeat split; auto; lia.
Qed.

End ArgLoop.

(** ** The literal parser: which strings are read to the end *)

Lemma reads_all_nil st : a_good st = true -> reads_all [] st.
Proof. intros H. split; simpl; [exact H | lia]. Qed.

Lemma arg_step_literal c st :
  literal_char c = true ->
  a_i (arg_step c st) = S (a_i st) /\
  a_good (arg_step c st) = a_good st /\
  a_count (arg_step c st) = (if isdigit c then S (a_count st) else a_count st).
Proof.
  unfold literal_char. intros H. destruct (isdigit c) eqn:Hd.
  - destruct (arg_step_digit c st Hd) as (E1 & E2 & E3). auto.
  - simpl in H. destruct (arg_step_point c st Hd H) as (E1 & E2 & E3). auto.
Qed.

Lemma reads_all_cons c r st :
  reads_all (c :: r) st <->
  a_good st = true /\ a_count st < max_decimal_digits /\
  literal_char c = true /\ reads_all r (arg_step c st).
Proof.
  unfold reads_all. simpl.
  destruct (a_good st) eqn:Hg; simpl.
  2:{ split; [intros [H _]; congruence | intros [H _]; discriminate]. }
  destruct (a_count st <? max_decimal_digits) eqn:Hlt.
  2:{ apply Nat.ltb_ge in Hlt. split; [intros [_ H]; lia | intros (_ & H & _); lia]. }
  apply Nat.ltb_lt in Hlt.
  destruct (literal_char c) eqn:Hl.
  - destruct (arg_step_literal c st Hl) as (E1 & E2 & E3). rewrite E1.
    split.
    + intros [G I]. repeat split; auto. lia.
    + intros (_ & _ & _ & G & I). split; auto. lia.
  - rewrite (arg_step_other c st Hl).
    rewrite parse_arg_loop_stopped by reflexivity. simpl.
    split; [intros [H _]; discriminate | intros (_ & _ & H & _); discriminate].
Qed.

Lemma last_digit_counts s :
  isdigit (last s zero) = true -> 1 <= count_digits s.
Proof.
  unfold count_digits. induction s as [|c r IH]; simpl.
  - vm_compute. discriminate.
  - destruct r as [|d r'].
    + intros H. rewrite H. simpl. lia.
    + intros H. specialize (IH H). destruct (isdigit c); simpl in *; lia.
Qed.

Lemma count_digits_cons c r :
  count_digits (c :: r) = (if isdigit c then 1 else 0) + count_digits r.
Proof. unfold count_digits. simpl. destruct (isdigit c); reflexivity. Qed.

(** Reading to the end, in closed form: only digits and points, and the
    digits read before together with those of [s] stay within the cap,
    reaching it only on the last character. *)
Lemma reads_all_shape s : forall st,
  a_good st = true -> a_count st <= max_decimal_digits ->
  (reads_all s st <->
   forallb literal_char s = true /\
   (s = [] \/ a_count st + count_digits s < max_decimal_digits \/
    (a_count st + count_digits s = max_decimal_digits /\
     isdigit (last s zero) = true))).
Proof.
  induction s as [|c r IH]; intros st Hg Hc.
  - split; [intros _; split; auto | intros _; apply reads_all_nil; exact Hg].
  - rewrite reads_all_cons. rewrite count_digits_cons.
    change (forallb literal_char (c :: r))
      with (literal_char c && forallb literal_char r).
    destruct (literal_char c) eqn:Hl; simpl andb.
    2:{ split; [intros (_ & _ & H & _); discriminate | intros [H _]; discriminate]. }
    destruct (arg_step_literal c st Hl) as (E1 & E2 & E3).
    destruct (Nat.lt_ge_cases (a_count st) max_decimal_digits) as [Hlt|Hge].
    + assert (Hc' : a_count (arg_step c st) <= max_decimal_digits)
        by (rewrite E3; destruct (isdigit c); lia).
      assert (Hg' : a_good (arg_step c st) = true) by congruence.
      rewrite (IH _ Hg' Hc'). rewrite E3.
      assert (Hlast : r <> [] -> last (c :: r) zero = last r zero)
        by (destruct r; [congruence | reflexivity]).
      destruct r as [|d r'].
      * simpl last. unfold count_digits at 1 2 3 4. simpl.
        destruct (isdigit c) eqn:Hd; split; intros H; repeat split; auto;
          try lia.
      * rewrite Hlast by discriminate.
        destruct (isdigit c) eqn:Hd.
        -- split.
           ++ intros (_ & _ & _ & Ha & Hn). split; [exact Ha|].
              destruct Hn as [Hn | [Hn | [Hn1 Hn2]]];
                [discriminate | right; left; lia
                | right; right; split; [lia | exact Hn2]].
           ++ intros (Ha & Hn). repeat split; auto.
              destruct Hn as [Hn | [Hn | [Hn1 Hn2]]];
                [discriminate | right; left; lia
                | right; right; split; [lia | exact Hn2]].
        -- split.
           ++ intros (_ & _ & _ & Ha & Hn). split; [exact Ha|].
              destruct Hn as [Hn | [Hn | [Hn1 Hn2]]];
                [discriminate | right; left; lia
                | right; right; split; [lia | exact Hn2]].
           ++ intros (Ha & Hn). repeat split; auto.
              destruct Hn as [Hn | [Hn | [Hn1 Hn2]]];
                [discriminate | right; left; lia
                | right; right; split; [lia | exact Hn2]].
    + split; [intros (_ & H & _); lia|].
      intros (_ & [H | [H | [H1 H2]]]); [discriminate | lia |].
      apply last_digit_counts in H2. rewrite count_digits_cons in H2.
      destruct (isdigit c); lia.
Qed.

Lemma reads_all_literal_shape s :
  reads_all s (mk_arg 0 0 true 1 0 true) <-> literal_shape s.
Proof.
  rewrite reads_all_shape by (simpl; auto; unfold max_decimal_digits; lia).
  unfold literal_shape. simpl a_count. rewrite !Nat.add_0_l.
  split; intros [Ha H]; (split; [exact Ha|]).
  - destruct H as [H | H]; [subst; left; vm_compute; lia | exact H].
  - right. exact H.
Qed.

(** ** The literal parser: the value read *)

Lemma accumulate_fraction_cons c ds r w :
  accumulate_fraction (c :: ds) r w =
  accumulate_fraction ds (r + digit_value c * (w / 10))%float (w / 10)%float.
Proof. reflexivity. Qed.

Lemma accumulate_integer_cons c ds r :
  accumulate_integer (c :: ds) r =
  accumulate_integer ds (r * 10 + digit_value c)%float.
Proof. reflexivity. Qed.

Lemma parse_arg_loop_cons_live c r st :
  a_good st = true -> a_count st < max_decimal_digits ->
  parse_arg_loop (c :: r) st = parse_arg_loop r (arg_step c st).
Proof.
  intros Hg Hc. simpl. rewrite Hg.
  apply Nat.ltb_lt in Hc. rewrite Hc. reflexivity.
Qed.

Lemma reads_all_value s : forall st,
  reads_all s st ->
  a_res (parse_arg_loop s st) =
  if a_integer st then
    accumulate_fraction (filter isdigit (after_point s))
      (accumulate_integer (before_point s) (a_res st)) (a_fraction st)
  else accumulate_fraction (filter isdigit s) (a_res st) (a_fraction st).
Proof.
  induction s as [|c r IH]; intros st H.
  - simpl. destruct (a_integer st); reflexivity.
  - apply reads_all_cons in H. destruct H as (Hg & Hc & Hl & Hr).
    rewrite parse_arg_loop_cons_live by assumption.
    rewrite (IH _ Hr). clear IH Hr.
    unfold literal_char in Hl. unfold arg_step.
    destruct (isdigit c) eqn:Hd.
    + pose proof (isdigit_not_point c Hd) as Hp.
      simpl. rewrite Hp, Hd.
      destruct (a_integer st); simpl; reflexivity.
    + simpl in Hl. unfold is_point in Hl. rewrite Hl.
      simpl. fold (is_point c). unfold is_point at 1. rewrite Hl, Hd.
      unfold is_point. rewrite Hl.
      destruct (a_integer st); simpl; reflexivity.
Qed.

Lemma literal_shape_value s :
  literal_shape s -> literal_value s = literal_value_spec s.
Proof.
  intros H. apply reads_all_literal_shape in H.
  unfold literal_value, arg_final. rewrite (reads_all_value H). reflexivity.
Qed.

(** A character that is neither digit nor point, met before the cap,
    stops the loop where it stands. *)
Lemma parse_arg_loop_bad_char s1 c s2 : forall st,
  a_good st = true ->
  forallb literal_char s1 = true ->
  a_count st + count_digits s1 < max_decimal_digits ->
  literal_char c = false ->
  a_good (parse_arg_loop (s1 ++ c :: s2) st) = false /\
  a_i (parse_arg_loop (s1 ++ c :: s2) st) = a_i st + length s1.
Proof.
  induction s1 as [|d s1 IH]; intros st Hg Ha Hc Hl.
  - simpl app. rewrite parse_arg_loop_cons_live; [|assumption|lia].
    rewrite (arg_step_other c st Hl).
    rewrite parse_arg_loop_stopped by reflexivity. simpl. split; [auto|lia].
  - simpl in Ha. apply andb_true_iff in Ha. destruct Ha as [Hd Ha].
    rewrite count_digits_cons in Hc.
    simpl app. rewrite parse_arg_loop_cons_live; [|assumption|lia].
    destruct (arg_step_literal d st Hd) as (E1 & E2 & E3).
    destruct (IH (arg_step d st)) as [G I]; auto; try congruence.
    + rewrite E3. destruct (isdigit d); lia.
    + split; [exact G|]. rewrite I, E1. simpl. lia.
Qed.

(** Moving the start cursor moves the end cursor and nothing else. *)
Lemma parse_arg_loop_shift s k : forall r n b f i g,
  parse_arg_loop s (mk_arg r n b f (i + k) g) =
  let st := parse_arg_loop s (mk_arg r n b f i g) in
  mk_arg (a_res st) (a_count st) (a_integer st) (a_fraction st)
         (a_i st + k) (a_good st).
Proof.
  induction s as [|c s IH]; intros; simpl.
  - reflexivity.
  - destruct g; simpl; [|reflexivity].
    destruct (n <? max_decimal_digits); [|reflexivity].
    unfold arg_step. simpl.
    destruct (isdigit c).
    + destruct b; apply (IH _ _ _ _ (S i)).
    + destruct (c =? ".")%char.
      * apply (IH _ _ _ _ (S i)).
      * rewrite !parse_arg_loop_stopped by reflexivity. reflexivity.
Qed.

(** ** [parse_arg] of the two variants on a whole token *)

Lemma arg_final_literal_shape s :
  literal_shape s <->
  a_good (arg_final s) = true /\ a_i (arg_final s) = length s.
Proof. rewrite <- reads_all_literal_shape. reflexivity. Qed.

Lemma arg_final_cursor_le s : a_i (arg_final s) <= length s.
Proof.
  unfold arg_final.
  destruct (@parse_arg_loop_cursor s (mk_arg 0 0 true 1 0 true))
    as (k & K1 & K2 & _); [simpl; unfold max_decimal_digits; lia|].
  rewrite K1. simpl. exact K2.
Qed.

Lemma Calc_parse_arg_literal s :
  literal_shape s ->
  Calc.parse_arg s 0 true = (literal_value s, length s, true, []).
Proof.
  intros H. apply arg_final_literal_shape in H. destruct H as [G I].
  unfold Calc.parse_arg. simpl skipn. fold (arg_final s).
  rewrite G, I. simpl. unfold size. rewrite Nat.ltb_irrefl. reflexivity.
Qed.

Lemma Calc_parse_arg_not_literal s :
  ~ literal_shape s ->
  exists v i d, Calc.parse_arg s 0 true = (v, i, false, [d]).
Proof.
  intros H. unfold Calc.parse_arg. simpl skipn. fold (arg_final s).
  destruct (a_good (arg_final s)) eqn:G; simpl.
  - destruct (a_i (arg_final s) <? size s) eqn:I.
    + eauto.
    + exfalso. apply H. apply arg_final_literal_shape.
      apply Nat.ltb_ge in I. pose proof (arg_final_cursor_le s).
      unfold size in I. split; [exact G | lia].
  - eauto.
Qed.

Lemma Part000_parse_arg_literal s :
  literal_shape s ->
  Part000.parse_arg s 0 = (literal_value s, length s, true, []).
Proof.
  intros H. apply arg_final_literal_shape in H. destruct H as [G I].
  unfold Part000.parse_arg. simpl skipn. fold (arg_final s).
  rewrite G, I. simpl. unfold size. rewrite Nat.ltb_irrefl. reflexivity.
Qed.

(** [parse_arg] on the tail of a line: the cursor is counted from the
    start of the line, the rest is as for the tail alone. *)
Lemma Calc_parse_arg_at_tail pre s :
  literal_shape s ->
  Calc.parse_arg (pre ++ s) (length pre) true =
  (literal_value s, length pre + length s, true, []).
Proof.
  intros H. apply arg_final_literal_shape in H. destruct H as [G I].
  unfold Calc.parse_arg.
  rewrite skipn_app, skipn_all, Nat.sub_diag. simpl app. simpl skipn.
  change (mk_arg 0 0 true 1 (length pre) true)
    with (mk_arg 0 0 true 1 (0 + length pre) true).
  rewrite (@parse_arg_loop_shift s (length pre) 0 0 true 1 0 true).
  fold (arg_final s). cbv zeta. simpl a_good. simpl a_i. simpl a_res.
  rewrite G, I. simpl negb. cbv iota.
  unfold size. rewrite length_app, (Nat.add_comm (length s)).
  rewrite Nat.ltb_irrefl. reflexivity.
Qed.

Lemma Part000_parse_arg_at_tail pre s :
  literal_shape s ->
  Part000.parse_arg (pre ++ s) (length pre) =
  (literal_value s, length pre + length s, true, []).
Proof.
  intros H. apply arg_final_literal_shape in H. destruct H as [G I].
  unfold Part000.parse_arg.
  rewrite skipn_app, skipn_all, Nat.sub_diag. simpl app. simpl skipn.
  change (mk_arg 0 0 true 1 (length pre) true)
    with (mk_arg 0 0 true 1 (0 + length pre) true).
  rewrite (@parse_arg_loop_shift s (length pre) 0 0 true 1 0 true).
  fold (arg_final s). cbv zeta. simpl a_good. simpl a_i. simpl a_res.
  rewrite G, I. simpl negb. cbv iota.
  unfold size. rewrite length_app, (Nat.add_comm (length s)).
  rewrite Nat.ltb_irrefl. reflexivity.
Qed.

(** ** White space and tokens *)

Lemma skip_ws_from_prefix s : forall i, skip_ws_from s i = i + ws_prefix s.
Proof.
  induction s as [|c s IH]; intros i; simpl.
  - lia.
  - destruct (isspace c); [rewrite IH|]; lia.
Qed.

Lemma skip_ws_eq line i : skip_ws line i = i + ws_prefix (skipn i line).
Proof. apply skip_ws_from_prefix. Qed.

Lemma ws_prefix_le s : ws_prefix s <= length s.
Proof. induction s as [|c s IH]; simpl; [|destruct (isspace c); simpl]; lia. Qed.

Lemma number_length_le s : number_length_from s <= length s.
Proof. induction s as [|c s IH]; simpl; [|destruct (isspace c); simpl]; lia. Qed.

Lemma words_skip_ws s : words (skipn (ws_prefix s) s) = words s.
Proof.
  induction s as [|c s IH]; simpl; [reflexivity|].
  destruct (isspace c) eqn:Hc; simpl; [exact IH | rewrite Hc; reflexivity].
Qed.

Lemma after_ws_starts_token s :
  starts_with (fun c => negb (isspace c)) (skipn (ws_prefix s) s).
Proof.
  induction s as [|c s IH]; simpl; [exact I|].
  destruct (isspace c) eqn:Hc; simpl; [exact IH | rewrite Hc; reflexivity].
Qed.

Lemma after_token_starts_ws s :
  starts_with isspace (skipn (number_length_from s) s).
Proof.
  induction s as [|c s IH]; simpl; [exact I|].
  destruct (isspace c) eqn:Hc; simpl; [exact Hc | exact IH].
Qed.

Lemma number_length_pos s :
  s <> [] -> starts_with (fun c => negb (isspace c)) s ->
  0 < number_length_from s.
Proof.
  destruct s as [|c s]; [congruence|]. simpl. intros _ H.
  apply negb_true_iff in H. rewrite H. lia.
Qed.

(** The first token and the tokens after it. *)
Lemma words_token s :
  s <> [] -> starts_with (fun c => negb (isspace c)) s ->
  words s =
  firstn (number_length_from s) s :: words (skipn (number_length_from s) s).
Proof.
  induction s as [|c s IH]; [congruence|]. intros _ H.
  simpl in H. apply negb_true_iff in H.
  cbn [words number_length_from]. rewrite H.
  cbn [firstn skipn].
  destruct s as [|d s'].
  - reflexivity.
  - destruct (isspace d) eqn:Hd.
    + cbn [number_length_from]. rewrite Hd. reflexivity.
    + rewrite IH; [reflexivity | discriminate |].
      simpl. rewrite Hd. reflexivity.
Qed.

Lemma words_nil_of_ws s : skipn (ws_prefix s) s = [] -> words s = [].
Proof. intros H. rewrite <- words_skip_ws, H. reflexivity. Qed.

Lemma token_has_no_space s :
  forallb (fun c => negb (isspace c)) (firstn (number_length_from s) s) = true.
Proof.
  induction s as [|c s IH]; simpl; [reflexivity|].
  destruct (isspace c) eqn:Hc; simpl; [reflexivity|].
  rewrite Hc. simpl. exact IH.
Qed.

(** A string without white space is its own single token. *)
Lemma number_length_no_space s :
  forallb (fun c => negb (isspace c)) s = true ->
  number_length_from s = length s.
Proof.
  induction s as [|c s IH]; simpl; [reflexivity|].
  intros H. apply andb_true_iff in H. destruct H as [Hc Hs].
  apply negb_true_iff in Hc. rewrite Hc. rewrite IH by assumption. reflexivity.
Qed.

Lemma ws_prefix_all_ws ws s :
  forallb isspace ws = true ->
  starts_with (fun c => negb (isspace c)) s ->
  ws_prefix (ws ++ s) = length ws.
Proof.
  induction ws as [|c ws IH]; simpl; intros Hw Hs.
  - destruct s as [|d s]; simpl; [reflexivity|].
    simpl in Hs. apply negb_true_iff in Hs. rewrite Hs. reflexivity.
  - apply andb_true_iff in Hw. destruct Hw as [Hc Hw].
    rewrite Hc. rewrite IH by assumption. reflexivity.
Qed.

Lemma words_single ws s :
  forallb isspace ws = true -> s <> [] ->
  forallb (fun c => negb (isspace c)) s = true ->
  words (ws ++ s) = [s].
Proof.
  intros Hw Hne Hs.
  assert (Hst : starts_with (fun c => negb (isspace c)) s).
  { destruct s; simpl in *; [exact I|].
    apply andb_true_iff in Hs. tauto. }
  rewrite <- words_skip_ws. rewrite ws_prefix_all_ws by assumption.
  rewrite skipn_app, skipn_all, Nat.sub_diag. simpl.
  rewrite words_token by assumption.
  rewrite number_length_no_space by assumption.
  rewrite firstn_all, skipn_all. reflexivity.
Qed.

Lemma literal_has_no_space s :
  forallb literal_char s = true ->
  forallb (fun c => negb (isspace c)) s = true.
Proof.
  induction s as [|c s IH]; simpl; [reflexivity|].
  intros H. apply andb_true_iff in H. destruct H as [Hc Hs].
  rewrite (literal_char_not_space c Hc). simpl. auto.
Qed.

(** ** The tokenizer of [src/calc.cpp] *)

Lemma skipn_add (line : list ascii) i k :
  skipn (i + k) line = skipn k (skipn i line).
Proof. rewrite skipn_skipn. f_equal. lia. Qed.

Lemma Calc_parse_number_loop_words rounds line : forall i numbers,
  size line - i <= rounds ->
  Calc.parse_number_loop rounds line i numbers =
  Some (numbers ++ words (skipn i line)).
Proof.
  unfold size.
  induction rounds as [|rounds IH]; intros i numbers Hr.
  - simpl. replace (i <? size line) with false
      by (symmetry; apply Nat.ltb_ge; unfold size; lia).
    rewrite skipn_all2 by lia. simpl. rewrite app_nil_r. reflexivity.
  - cbn [Calc.parse_number_loop].
    destruct (i <? size line) eqn:Hi.
    2:{ apply Nat.ltb_ge in Hi. unfold size in Hi.
        rewrite skipn_all2 by lia. simpl. rewrite app_nil_r. reflexivity. }
    apply Nat.ltb_lt in Hi. unfold size in Hi.
    rewrite skip_ws_eq. unfold parse_number_length, substr.
    set (s := skipn i line).
    assert (Hs : s <> []).
    { intros E. apply (f_equal (@length _)) in E. subst s.
      rewrite length_skipn in E. simpl in E. lia. }
    assert (Hlen : length s = length line - i) by (subst s; apply length_skipn).
    rewrite (skipn_add line i (ws_prefix s)). fold s.
    set (s1 := skipn (ws_prefix s) s).
    pose proof (after_ws_starts_token s) as Hst. fold s1 in Hst.
    pose proof (ws_prefix_le s) as Hws.
    pose proof (number_length_le s1) as Hnl.
    assert (Hlen1 : length s1 = length s - ws_prefix s)
      by (subst s1; apply length_skipn).
    destruct (number_length_from s1) as [|n] eqn:En.
    + simpl negb. cbv iota.
      assert (Es1 : s1 = []).
      { destruct s1 as [|c s1']; [reflexivity|]. exfalso.
        assert (0 < number_length_from (c :: s1'))
          by (apply number_length_pos; [discriminate | exact Hst]).
        lia. }
      rewrite IH.
      * rewrite Nat.add_0_r, (skipn_add line i (ws_prefix s)).
        fold s. fold s1. rewrite Es1. rewrite (words_nil_of_ws s) by exact Es1.
        reflexivity.
      * rewrite Es1 in Hlen1. simpl in Hlen1. lia.
    + simpl negb. cbv iota.
      assert (Hne1 : s1 <> []) by (intros E; rewrite E in En; discriminate).
      rewrite IH by lia.
      rewrite <- app_assoc. simpl app.
      rewrite <- (words_skip_ws s). fold s1.
      rewrite (words_token Hne1 Hst). rewrite En.
      do 3 f_equal.
      rewrite (skipn_add line (i + ws_prefix s) (S n)).
      rewrite (skipn_add line i (ws_prefix s)). reflexivity.
Qed.

Lemma Calc_parse_number_words line i :
  Calc.parse_number line i =
  Some (match words (skipn i line) with
        | [] => ([], [NoArgumentBinary])
        | ws => (ws, [])
        end).
Proof.
  unfold Calc.parse_number.
  rewrite Calc_parse_number_loop_words by lia. simpl app.
  destruct (words (skipn i line)); reflexivity.
Qed.

(** ** The binary operations *)

Section Binary.
Context {libm : Libm}.

Lemma Calc_binary_ok op l r g :
  step_ok op r = true -> Calc.binary op l r g = (binop op l r, g, []).
Proof. destruct op; simpl; intros H; try rewrite H; reflexivity. Qed.

Lemma Calc_binary_fail op l r g :
  step_ok op r = false ->
  Calc.binary op l r g =
  (l, false, [match op with DIV => BadDivision | _ => BadRemainder end]).
Proof. destruct op; simpl; intros H; try discriminate; rewrite H; reflexivity. Qed.

Lemma Part000_binary_ok op l r :
  step_ok op r = true -> Part000.binary op l r = (binop op l r, true, []).
Proof. destruct op; simpl; intros H; try rewrite H; reflexivity. Qed.

Lemma Part000_binary_fail op l r :
  step_ok op r = false ->
  Part000.binary op l r =
  (l, false, [match op with DIV => BadDivision | _ => BadRemainder end]).
Proof. destruct op; simpl; intros H; try discriminate; rewrite H; reflexivity. Qed.

End Binary.

(** ** Lines of the form [(op) rest] *)

Lemma fold_op_cases c op :
  fold_op_of_char c = Some op ->
  (c = "+"%char /\ op = ADD) \/ (c = "-"%char /\ op = SUB) \/
  (c = "*"%char /\ op = MUL) \/ (c = "/"%char /\ op = DIV) \/
  (c = "%"%char /\ op = REM) \/ (c = "^"%char /\ op = POW).
Proof.
  unfold fold_op_of_char.
  repeat match goal with
         | |- context [(c =? ?x)%char] =>
             let E := fresh "E" in
             destruct (c =? x)%char eqn:E;
             [apply Ascii.eqb_eq in E; intros H; inversion H; subst; tauto|]
         end.
  discriminate.
Qed.

Ltac fold_ops H :=
  apply fold_op_cases in H;
  destruct H as [[-> ->] | [[-> ->] | [[-> ->] | [[-> ->] | [[-> ->] | [-> ->]]]]]].

Lemma fold_op_binary c op :
  fold_op_of_char c = Some op -> arity op = 2 /\ Op_eqb op SET = false.
Proof. intros H. fold_ops H; split; reflexivity. Qed.

Lemma Calc_delete_brackets_fold_line opc rest op :
  fold_op_of_char opc = Some op ->
  Calc.delete_brackets (fold_line opc rest) = opc :: rest.
Proof.
  intros H. unfold Calc.delete_brackets, fold_line.
  assert (E : forall n, firstn (size ("("%char :: opc :: ")"%char :: rest) - 2 + n) rest = rest).
  { intros n. apply firstn_all2. unfold size. simpl. lia. }
  fold_ops H; cbn -[size firstn]; unfold substr; cbn -[size firstn];
    rewrite (E 1); reflexivity.
Qed.

Lemma Calc_parse_op_fold_line opc rest op :
  fold_op_of_char opc = Some op ->
  Calc.parse_op (fold_line opc rest) 0 = ((op, 1), []).
Proof.
  intros H. unfold Calc.parse_op.
  rewrite (Calc_delete_brackets_fold_line opc rest H).
  fold_ops H; reflexivity.
Qed.

Lemma Calc_skip_brackets_fold_line opc rest op :
  fold_op_of_char opc = Some op ->
  Calc.skip_brackets (fold_line opc rest) 1 = 3.
Proof. intros H. fold_ops H; reflexivity. Qed.

Lemma Calc_is_fold_fold_line opc rest op :
  fold_op_of_char opc = Some op ->
  Calc.is_fold (fold_line opc rest) = true.
Proof. intros H. fold_ops H; reflexivity. Qed.

(** ** The token loop of [src/calc.cpp] in fold mode *)

Section CalcFold.
Context {libm : Libm}.

Lemma Calc_fold_numbers_valid op current line tokens :
  Calc.is_fold line = true -> Op_eqb op SET = false ->
  Forall (valid_token op) tokens ->
  forall res i,
    Calc.fold_numbers op current line tokens res i true =
    (fold_left (fun acc t => binop op acc (literal_value t)) tokens res, []).
Proof.
  intros Hf Hs Hv. induction Hv as [|t ts [Hl Hok] _ IH]; intros res i.
  - reflexivity.
  - cbn [Calc.fold_numbers fold_left]. rewrite Hf, Hs.
    rewrite (Calc_parse_arg_literal Hl).
    unfold bind at 1. cbv beta iota zeta.
    rewrite (Calc_binary_ok _ _ _ _ Hok).
    unfold bind. cbv beta iota zeta. simpl negb. cbv iota.
    rewrite IH. reflexivity.
Qed.

(** What [parse_arg] reports: [good] stays exactly when the token has the
    shape of a literal, and then nothing is logged. *)
Lemma Calc_parse_arg_good s v i g d :
  Calc.parse_arg s 0 true = (v, i, g, d) ->
  (g = true -> literal_shape s /\ v = literal_value s /\ d = []) /\
  (g = false -> d <> []).
Proof.
  unfold Calc.parse_arg. simpl skipn. fold (arg_final s).
  destruct (a_good (arg_final s)) eqn:G; simpl.
  - destruct (a_i (arg_final s) <? size s) eqn:I; simpl; intros E;
      inversion E; subst; split; try discriminate.
    intros _. split; [|split; reflexivity].
    apply arg_final_literal_shape. apply Nat.ltb_ge in I.
    pose proof (arg_final_cursor_le s). unfold size in I. split; [exact G | lia].
  - intros E; inversion E; subst. split; discriminate.
Qed.

(** All or nothing: a token that is no literal, or a zero divisor, gives
    back the accumulator the line started from. *)
Lemma Calc_fold_numbers_invalid op current line tokens :
  Calc.is_fold line = true ->
  Exists (fun t => ~ valid_token op t) tokens ->
  forall res i, exists log,
    Calc.fold_numbers op current line tokens res i true = (current, log) /\
    log <> [].
Proof.
  intros Hf Hex. induction Hex as [t ts Hbad | t ts _ IH]; intros res i.
  - cbn [Calc.fold_numbers]. rewrite Hf.
    destruct (Op_eqb op SET); [eexists; split; [reflexivity | discriminate]|].
    destruct (Calc.parse_arg t 0 true) as [[[v j] g] d] eqn:E.
    destruct (Calc_parse_arg_good _ E) as [Hg Hb].
    unfold bind at 1. cbv beta iota zeta.
    destruct g.
    + destruct (Hg eq_refl) as (Hl & -> & ->).
      destruct (step_ok op (literal_value t)) eqn:Hok.
      * exfalso. apply Hbad. split; assumption.
      * rewrite (Calc_binary_fail _ _ _ _ Hok). unfold bind.
        cbv beta iota zeta. simpl.
        eexists; split; [reflexivity | discriminate].
    + specialize (Hb eq_refl).
      destruct (step_ok op v) eqn:Hok.
      * rewrite (Calc_binary_ok _ _ _ _ Hok). unfold bind.
        cbv beta iota zeta. simpl. rewrite app_nil_r.
        eexists; split; [reflexivity | exact Hb].
      * rewrite (Calc_binary_fail _ _ _ _ Hok). unfold bind.
        cbv beta iota zeta. simpl.
        eexists; split; [reflexivity|].
        intros Habs. apply app_eq_nil in Habs. destruct Habs; discriminate.
  - cbn [Calc.fold_numbers]. rewrite Hf.
    destruct (Op_eqb op SET); [eexists; split; [reflexivity | discriminate]|].
    destruct (Calc.parse_arg t 0 true) as [[[v j] g] d] eqn:E.
    destruct (Calc_parse_arg_good _ E) as [Hg Hb].
    unfold bind at 1. cbv beta iota zeta.
    destruct g.
    + destruct (Hg eq_refl) as (Hl & -> & ->).
      destruct (step_ok op (literal_value t)) eqn:Hok.
      * rewrite (Calc_binary_ok _ _ _ _ Hok). unfold bind at 1.
        cbv beta iota zeta. simpl negb. cbv iota.
        destruct (IH (binop op res (literal_value t)) j) as (log & -> & Hlog).
        simpl. eexists; split; [reflexivity | exact Hlog].
      * rewrite (Calc_binary_fail _ _ _ _ Hok). unfold bind.
        cbv beta iota zeta. simpl.
        eexists; split; [reflexivity | discriminate].
    + specialize (Hb eq_refl).
      destruct (step_ok op v) eqn:Hok.
      * rewrite (Calc_binary_ok _ _ _ _ Hok). unfold bind.
        cbv beta iota zeta. simpl. rewrite app_nil_r.
        eexists; split; [reflexivity | exact Hb].
      * rewrite (Calc_binary_fail _ _ _ _ Hok). unfold bind.
        cbv beta iota zeta. simpl.
        eexists; split; [reflexivity|].
        intros Habs. apply app_eq_nil in Habs. destruct Habs; discriminate.
Qed.

Lemma Calc_process_fold_line opc rest op current :
  fold_op_of_char opc = Some op ->
  Calc.process_line current (fold_line opc rest) =
  match words rest with
  | [] => Some (current, [NoArgumentBinary])
  | tokens =>
      let (r, d) := Calc.fold_numbers op current (fold_line opc rest)
                                      tokens current 3 true in
      Some (r, d)
  end.
Proof.
  intros H. unfold Calc.process_line.
  rewrite (Calc_parse_op_fold_line opc rest H).
  destruct (fold_op_binary opc H) as [-> _].
  rewrite (Calc_skip_brackets_fold_line opc rest H).
  rewrite Calc_parse_number_words.
  change (skipn 3 (fold_line opc rest)) with rest.
  destruct (words rest) as [|t ts]; [reflexivity|].
  cbv beta iota zeta.
  destruct (Calc.fold_numbers _ _ _ _ _ _ _). reflexivity.
Qed.

End CalcFold.

(** ** The loop of [left_fold] *)

Lemma words_nil_iff s : words s = [] <-> ws_prefix s = length s.
Proof.
  split; intros H.
  - pose proof (ws_prefix_le s) as Hle.
    destruct (skipn (ws_prefix s) s) as [|c s1] eqn:E.
    + apply (f_equal (@length _)) in E. rewrite length_skipn in E.
      simpl in E. lia.
    + exfalso. rewrite <- words_skip_ws in H.
      pose proof (after_ws_starts_token s) as Hst.
      rewrite words_token in H; [discriminate | rewrite E; discriminate | exact Hst].
  - apply words_nil_of_ws. rewrite H. apply skipn_all.
Qed.

Section Part000Fold.
Context {libm : Libm}.

Lemma Part000_left_fold_loop_tokens rounds op old line :
  forall i current log,
    size line - i <= rounds ->
    starts_with (fun c => negb (isspace c)) (skipn i line) ->
    Part000.left_fold_loop rounds op old line i current log =
    Some (left_fold_tokens op old (words (skipn i line)) current log).
Proof.
  unfold size.
  induction rounds as [|rounds IH]; intros i current log Hr Hst.
  - simpl. replace (i <? size line) with false
      by (symmetry; apply Nat.ltb_ge; unfold size; lia).
    rewrite skipn_all2 by lia. reflexivity.
  - cbn [Part000.left_fold_loop].
    destruct (i <? size line) eqn:Hi.
    2:{ apply Nat.ltb_ge in Hi. unfold size in Hi.
        rewrite skipn_all2 by lia. reflexivity. }
    apply Nat.ltb_lt in Hi. unfold size in Hi.
    unfold Part000.parse_number, parse_number_length, substr.
    set (s := skipn i line) in *.
    assert (Hs : s <> []).
    { intros E. apply (f_equal (@length _)) in E. subst s.
      rewrite length_skipn in E. simpl in E. lia. }
    assert (Hlen : length s = length line - i) by (subst s; apply length_skipn).
    pose proof (number_length_pos Hs Hst) as Hn.
    pose proof (number_length_le s) as Hnl.
    rewrite (words_token Hs Hst).
    cbn [left_fold_tokens].
    destruct (Part000.parse_arg (firstn (number_length_from s) s) 0)
      as [[[arg pos] good] d_arg].
    destruct good; simpl negb; cbv iota; [|reflexivity].
    destruct (Part000.binary op current arg) as [[current' good] d_bin].
    destruct good; simpl negb; cbv iota; [|reflexivity].
    rewrite skip_ws_eq.
    rewrite (skipn_add line i (number_length_from s)). fold s.
    set (s2 := skipn (number_length_from s) s).
    pose proof (ws_prefix_le s2) as Hws.
    rewrite IH.
    + rewrite (skipn_add line (i + number_length_from s) (ws_prefix s2)).
      rewrite (skipn_add line i (number_length_from s)). fold s. fold s2.
      rewrite words_skip_ws. reflexivity.
    + lia.
    + rewrite (skipn_add line (i + number_length_from s) (ws_prefix s2)).
      rewrite (skipn_add line i (number_length_from s)). fold s. fold s2.
      apply after_ws_starts_token.
Qed.

Lemma left_fold_tokens_valid op old tokens :
  Forall (valid_token op) tokens ->
  forall current log,
    left_fold_tokens op old tokens current log =
    (fold_left (fun acc t => binop op acc (literal_value t)) tokens current,
     log).
Proof.
  intros Hv. induction Hv as [|t ts [Hl Hok] _ IH]; intros current log.
  - reflexivity.
  - cbn [left_fold_tokens fold_left].
    rewrite (Part000_parse_arg_literal Hl). simpl negb. cbv iota.
    rewrite (Part000_binary_ok _ _ _ Hok). simpl negb. cbv iota.
    rewrite IH. simpl. rewrite app_nil_r. reflexivity.
Qed.

(** A token on which [parse_arg] clears [good], or a zero divisor, ends
    the fold with the accumulator the line started from. *)
Lemma left_fold_tokens_invalid op old tokens :
  Exists (fun t => arg_good (Part000.parse_arg t 0) = false \/
                   step_ok op (arg_value (Part000.parse_arg t 0)) = false)
         tokens ->
  forall current log, exists log',
    left_fold_tokens op old tokens current log = (old, log') /\ log' <> [].
Proof.
  assert (Hne : forall (l1 l2 : list diag) d, l1 ++ l2 ++ [d] <> []).
  { intros l1 l2 d E. apply app_eq_nil in E. destruct E as [_ E].
    apply app_eq_nil in E. destruct E; discriminate. }
  intros Hex. induction Hex as [t ts Hbad | t ts _ IH]; intros current log;
    cbn [left_fold_tokens];
    destruct (Part000.parse_arg t 0) as [[[v j] g] d] eqn:E;
    unfold arg_good, arg_value in *; simpl in *.
  - destruct g; simpl negb; cbv iota.
    + destruct Hbad as [Hbad | Hbad]; [discriminate|].
      rewrite (Part000_binary_fail _ _ _ Hbad). simpl negb. cbv iota.
      eexists. split; [reflexivity | apply Hne].
    + eexists. split; [reflexivity | apply Hne].
  - destruct g; simpl negb; cbv iota.
    + destruct (step_ok op v) eqn:Hok.
      * rewrite (Part000_binary_ok _ _ _ Hok). simpl negb. cbv iota.
        apply IH.
      * rewrite (Part000_binary_fail _ _ _ Hok). simpl negb. cbv iota.
        eexists. split; [reflexivity | apply Hne].
    + eexists. split; [reflexivity | apply Hne].
Qed.

Lemma Part000_process_fold_line opc rest op current :
  fold_op_of_char opc = Some op ->
  Part000.process_line current (fold_line opc rest) =
  match words rest with
  | [] => Some (current, [NoArguments])
  | tokens => Some (left_fold_tokens op current tokens current [])
  end.
Proof.
  intros H. unfold Part000.process_line.
  change (Part000.fold_shape (fold_line opc rest)) with true. cbv iota.
  unfold Part000.left_fold.
  assert (Hop : Part000.parse_op (fold_line opc rest) 1 = ((op, 2), []))
    by (fold_ops H; reflexivity).
  rewrite Hop. cbv beta iota zeta.
  destruct (fold_op_binary opc H) as [-> ->]. simpl negb. simpl orb. cbv iota.
  assert (Hsb : Part000.skip_brackets (fold_line opc rest) 0 = 3)
    by (fold_ops H; reflexivity).
  rewrite Hsb, skip_ws_eq.
  change (skipn 3 (fold_line opc rest)) with rest.
  change (size (fold_line opc rest)) with (3 + length rest).
  pose proof (ws_prefix_le rest) as Hle.
  destruct (words rest) as [|t ts] eqn:Ew.
  - apply words_nil_iff in Ew. rewrite Ew, Nat.eqb_refl. reflexivity.
  - assert (Hneq : ws_prefix rest <> length rest).
    { intros E. apply words_nil_iff in E. congruence. }
    replace (3 + ws_prefix rest =? 3 + length rest) with false
      by (symmetry; apply Nat.eqb_neq; lia).
    change (3 + length rest) with (size (fold_line opc rest)).
    rewrite Part000_left_fold_loop_tokens.
    + rewrite (skipn_add (fold_line opc rest) 3 (ws_prefix rest)).
      change (skipn 3 (fold_line opc rest)) with rest.
      rewrite words_skip_ws, Ew. reflexivity.
    + lia.
    + rewrite (skipn_add (fold_line opc rest) 3 (ws_prefix rest)).
      change (skipn 3 (fold_line opc rest)) with rest.
      apply after_ws_starts_token.
Qed.

End Part000Fold.

(** ** Plain lines with one argument *)

Lemma Calc_delete_brackets_plain line :
  (char_at line 0 =? "(")%char = false -> Calc.delete_brackets line = line.
Proof. intros H. unfold Calc.delete_brackets. rewrite H. reflexivity. Qed.

Section Plain.
Context {libm : Libm}.

(** An operator [pre] (empty for Set), white space, one literal. *)
Lemma Calc_process_plain_line current pre ws lit op :
  (char_at (pre ++ ws ++ lit) 0 =? "(")%char = false ->
  parse_op_at (pre ++ ws ++ lit) 0 = ((op, length pre), []) ->
  arity op = 2 ->
  forallb isspace ws = true -> literal_shape lit -> lit <> [] ->
  Calc.process_line current (pre ++ ws ++ lit) =
  Some (if step_ok op (literal_value lit)
        then (binop op current (literal_value lit), [])
        else (current,
              [match op with DIV => BadDivision | _ => BadRemainder end])).
Proof.
  intros H0 Hop Har Hws Hl Hne.
  assert (Hns : forallb (fun c => negb (isspace c)) lit = true)
    by (apply literal_has_no_space; apply Hl).
  assert (Hst : starts_with (fun c => negb (isspace c)) lit).
  { destruct lit; simpl in *; [exact I|].
    apply andb_true_iff in Hns. tauto. }
  unfold Calc.process_line, Calc.parse_op.
  rewrite (Calc_delete_brackets_plain _ H0), Hop, Har.
  unfold Calc.skip_brackets. rewrite H0.
  rewrite Calc_parse_number_words.
  rewrite skipn_app, skipn_all, Nat.sub_diag. simpl app. simpl skipn.
  rewrite (words_single ws Hws Hne Hns).
  cbn [Calc.fold_numbers].
  unfold Calc.is_fold. rewrite H0.
  rewrite skip_ws_eq.
  rewrite skipn_app, skipn_all, Nat.sub_diag. simpl app. simpl skipn.
  rewrite (ws_prefix_all_ws ws lit Hws Hst).
  rewrite app_assoc. rewrite <- length_app.
  rewrite (Calc_parse_arg_at_tail (pre ++ ws) Hl).
  unfold bind at 1. cbv beta iota zeta.
  replace (length (pre ++ ws) + length lit =? length (pre ++ ws)) with false
    by (symmetry; apply Nat.eqb_neq; destruct lit; [congruence | simpl; lia]).
  destruct (step_ok op (literal_value lit)) eqn:Hok.
  - rewrite (Calc_binary_ok _ _ _ _ Hok). reflexivity.
  - rewrite (Calc_binary_fail _ _ _ _ Hok). reflexivity.
Qed.

Lemma Part000_process_plain_line current pre ws lit op :
  (char_at (pre ++ ws ++ lit) 0 =? "(")%char = false ->
  parse_op_at (pre ++ ws ++ lit) 0 = ((op, length pre), []) ->
  arity op = 2 ->
  forallb isspace ws = true -> literal_shape lit -> lit <> [] ->
  Part000.process_line current (pre ++ ws ++ lit) =
  Some (if step_ok op (literal_value lit)
        then (binop op current (literal_value lit), [])
        else (current,
              [match op with DIV => BadDivision | _ => BadRemainder end])).
Proof.
  intros H0 Hop Har Hws Hl Hne.
  assert (Hns : forallb (fun c => negb (isspace c)) lit = true)
    by (apply literal_has_no_space; apply Hl).
  assert (Hst : starts_with (fun c => negb (isspace c)) lit).
  { destruct lit; simpl in *; [exact I|].
    apply andb_true_iff in Hns. tauto. }
  unfold Part000.process_line, Part000.fold_shape. rewrite H0. simpl andb.
  cbv iota. unfold Part000.plain_line, Part000.parse_op. rewrite Hop, Har.
  cbv beta iota zeta.
  rewrite skip_ws_eq.
  rewrite skipn_app, skipn_all, Nat.sub_diag. simpl app. simpl skipn.
  rewrite (ws_prefix_all_ws ws lit Hws Hst).
  rewrite app_assoc. rewrite <- length_app.
  rewrite (Part000_parse_arg_at_tail (pre ++ ws) Hl).
  replace (length (pre ++ ws) + length lit =? length (pre ++ ws)) with false
    by (symmetry; apply Nat.eqb_neq; destruct lit; [congruence | simpl; lia]).
  unfold size. rewrite (length_app (pre ++ ws) lit), Nat.ltb_irrefl.
  destruct (step_ok op (literal_value lit)) eqn:Hok.
  - rewrite (Part000_binary_ok _ _ _ Hok). reflexivity.
  - rewrite (Part000_binary_fail _ _ _ Hok). reflexivity.
Qed.

End Plain.

(** ** A diagnostic means an unchanged accumulator *)

Lemma parse_op_at_log line i op j d :
  parse_op_at line i = ((op, j), d) ->
  (op = ERR /\ d = [UnknownOperation]) \/ (op <> ERR /\ d = []).
Proof.
  unfold parse_op_at, rollback.
  repeat match goal with
         | |- context [if ?b then _ else _] => destruct b
         end;
    intros E; inversion E; subst;
    solve [left; split; reflexivity | right; split; [discriminate | reflexivity]].
Qed.

(** When the loop clears [good], the cursor stands on a character. *)
Lemma parse_arg_loop_bad_inside rest : forall st,
  a_good st = true -> a_good (parse_arg_loop rest st) = false ->
  a_i (parse_arg_loop rest st) < a_i st + length rest.
Proof.
  induction rest as [|c rest IH]; intros st Hg Hb; simpl in *.
  - congruence.
  - rewrite Hg in *. simpl in *.
    destruct (a_count st <? max_decimal_digits); [|congruence].
    destruct (literal_char c) eqn:Hl.
    + destruct (arg_step_literal c st Hl) as (E1 & E2 & E3).
      assert (Hg' : a_good (arg_step c st) = true) by congruence.
      specialize (IH _ Hg' Hb). lia.
    + rewrite (arg_step_other c st Hl) in *.
      rewrite parse_arg_loop_stopped in * by reflexivity. simpl. lia.
Qed.

Lemma Calc_parse_arg_log line i v j g d :
  Calc.parse_arg line i true = (v, j, g, d) -> g = true -> d = [].
Proof.
  unfold Calc.parse_arg.
  destruct (a_good _); simpl;
    [destruct (_ <? _); simpl|]; intros E; inversion E; subst;
    congruence.
Qed.

Lemma Part000_parse_arg_log line i v j g d :
  Part000.parse_arg line i = (v, j, g, d) ->
  (g = true -> d = [] \/ d = [SuffixLeft]) /\
  (size line <= j -> d = []).
Proof.
  unfold Part000.parse_arg.
  set (st := mk_arg 0 0 true 1 i true).
  destruct (a_good (parse_arg_loop (skipn i line) st)) eqn:G; simpl.
  - destruct (a_i (parse_arg_loop (skipn i line) st) <? size line) eqn:I;
      simpl; intros E; inversion E; subst; split; auto.
    apply Nat.ltb_lt in I. intros. lia.
  - intros E; inversion E; subst. split; [discriminate|].
    intros Hj.
    pose proof (parse_arg_loop_bad_inside (skipn i line) st eq_refl G) as Hin.
    rewrite length_skipn in Hin. simpl in Hin.
    destruct (skipn i line) as [|c rest] eqn:Es.
    + simpl in G. discriminate.
    + assert (i < length line).
      { destruct (Nat.lt_ge_cases i (length line)); [assumption|].
        rewrite skipn_all2 in Es by assumption. discriminate. }
      unfold size in Hj. lia.
Qed.

Section Diagnostics.
Context {libm : Libm}.

Lemma Calc_binary_log op l r g res g' d :
  Calc.binary op l r g = (res, g', d) ->
  (g' = true -> g = true /\ d = []) /\ (d <> [] -> res = l).
Proof.
  destruct (step_ok op r) eqn:Hok.
  - rewrite (Calc_binary_ok _ _ _ _ Hok). intros E; inversion E; subst.
    split; [auto | congruence].
  - rewrite (Calc_binary_fail _ _ _ _ Hok). intros E; inversion E; subst.
    split; [discriminate | reflexivity].
Qed.

Lemma Part000_binary_log op l r res g d :
  Part000.binary op l r = (res, g, d) ->
  (g = true -> d = []) /\ (d <> [] -> res = l).
Proof.
  destruct (step_ok op r) eqn:Hok.
  - rewrite (Part000_binary_ok _ _ _ Hok). intros E; inversion E; subst.
    split; [auto | congruence].
  - rewrite (Part000_binary_fail _ _ _ Hok). intros E; inversion E; subst.
    split; [discriminate | reflexivity].
Qed.

Lemma Calc_fold_numbers_log op current line tokens : forall res i r d,
  Calc.fold_numbers op current line tokens res i true = (r, d) ->
  d <> [] -> r = current.
Proof.
  induction tokens as [|t ts IH]; intros res i r d.
  - simpl. intros E; inversion E; subst. congruence.
  - cbn [Calc.fold_numbers].
    destruct (Calc.is_fold line).
    + destruct (Op_eqb op SET).
      { intros E; inversion E; subst. reflexivity. }
      destruct (Calc.parse_arg t 0 true) as [[[v j] g] d1] eqn:E1.
      unfold bind at 1. cbv beta iota zeta.
      destruct (Calc.binary op res v g) as [[res' g'] d2] eqn:E2.
      unfold bind at 1. cbv beta iota zeta.
      destruct g'; simpl negb; cbv iota.
      * destruct (Calc_binary_log _ _ _ _ E2) as [Hb _].
        destruct (Hb eq_refl) as [-> ->].
        rewrite (Calc_parse_arg_log _ _ E1 eq_refl).
        destruct (Calc.fold_numbers op current line ts res' j true)
          as [r' d'] eqn:E3.
        simpl. intros E; inversion E; subst. apply (IH _ _ _ _ E3).
      * intros E; inversion E; subst. reflexivity.
    + destruct (Calc.parse_arg line (skip_ws line i) true)
        as [[[v j] g] d1] eqn:E1.
      unfold bind at 1. cbv beta iota zeta.
      destruct (j =? skip_ws line i).
      { intros E; inversion E; subst. reflexivity. }
      destruct (Calc.binary op res v g) as [[res' g'] d2] eqn:E2.
      unfold bind at 1. cbv beta iota zeta.
      destruct g'; simpl negb; cbv iota.
      * destruct (Calc_binary_log _ _ _ _ E2) as [Hb _].
        destruct (Hb eq_refl) as [-> ->].
        rewrite (Calc_parse_arg_log _ _ E1 eq_refl).
        destruct (Calc.fold_numbers op current line ts res' j true)
          as [r' d'] eqn:E3.
        simpl. intros E; inversion E; subst. apply (IH _ _ _ _ E3).
      * intros E; inversion E; subst. reflexivity.
Qed.

Lemma unary_log current op r d :
  unary current op = (r, d) -> d <> [] -> r = current.
Proof.
  destruct op; simpl; try (intros E; inversion E; subst; congruence).
  destruct (PrimFloat.ltb 0 current); intros E; inversion E; subst; congruence.
Qed.

(** [src/calc.cpp]: every line is evaluated, and a line that logs
    anything gives back the accumulator it was given. *)
Lemma Calc_diagnostic_keeps_accumulator current line :
  exists r log,
    Calc.process_line current line = Some (r, log) /\
    (log <> [] -> r = current).
Proof.
  unfold Calc.process_line, Calc.parse_op.
  destruct (parse_op_at (Calc.delete_brackets line) 0) as [[op i] d_op] eqn:Eop.
  apply parse_op_at_log in Eop.
  destruct Eop as [[-> ->] | [Hop ->]].
  - simpl. eauto.
  - destruct (arity op) as [|[|[|n]]] eqn:Har; try solve [simpl; eauto].
    + destruct (i <? size line); [eauto|].
      destruct (unary current op) as [r d] eqn:Eu.
      exists r, d. split; [reflexivity|]. apply (unary_log _ _ Eu).
    + rewrite Calc_parse_number_words.
      destruct (words (skipn (Calc.skip_brackets line i) line)) as [|t ts].
      * simpl. eauto.
      * destruct (Calc.fold_numbers op current line (t :: ts) current
                    (Calc.skip_brackets line i) true) as [r d] eqn:Ef.
        exists r, d. split; [reflexivity|].
        apply (Calc_fold_numbers_log _ _ _ _ _ _ Ef).
Qed.

Lemma hard_diagnostic_app log d_arg :
  d_arg = [] \/ d_arg = [SuffixLeft] ->
  hard_diagnostic (log ++ d_arg ++ []) -> hard_diagnostic log.
Proof.
  intros Hd (d & Hin & Hne). exists d. split; [|exact Hne].
  rewrite app_nil_r in Hin. apply in_app_or in Hin.
  destruct Hin as [Hin | Hin]; [exact Hin|].
  destruct Hd as [-> | ->]; simpl in Hin; [tauto|].
  destruct Hin as [<- | []]. congruence.
Qed.

Lemma left_fold_tokens_log op old tokens : forall current log r log',
  left_fold_tokens op old tokens current log = (r, log') ->
  hard_diagnostic log' -> hard_diagnostic log \/ r = old.
Proof.
  induction tokens as [|t ts IH]; intros current log r log'.
  - simpl. intros E; inversion E; subst. auto.
  - cbn [left_fold_tokens].
    destruct (Part000.parse_arg t 0) as [[[v j] g] d1] eqn:E1.
    destruct g; simpl negb; cbv iota.
    2:{ intros E; inversion E; subst. auto. }
    destruct (Part000.binary op current v) as [[res' g'] d2] eqn:E2.
    destruct g'; simpl negb; cbv iota.
    2:{ intros E; inversion E; subst. auto. }
    destruct (Part000_binary_log _ _ _ E2) as [Hb _]. rewrite (Hb eq_refl).
    destruct (Part000_parse_arg_log _ _ E1) as [Ha _].
    intros E Hh. destruct (IH _ _ _ _ E Hh) as [Hh' | ->]; [|auto].
    left. apply (hard_diagnostic_app log (Ha eq_refl) Hh').
Qed.

Lemma Part000_plain_line_log current line r log :
  Part000.plain_line current line = (r, log) -> log <> [] -> r = current.
Proof.
  unfold Part000.plain_line, Part000.parse_op.
  destruct (parse_op_at line 0) as [[op i] d_op] eqn:Eop.
  apply parse_op_at_log in Eop.
  destruct Eop as [[-> ->] | [Hop ->]].
  - simpl. intros E; inversion E; subst. reflexivity.
  - destruct (arity op) as [|[|[|n]]] eqn:Har;
      try solve [intros E; inversion E; subst; reflexivity].
    + destruct (i <? size line);
        [intros E; inversion E; subst; reflexivity|].
      destruct (unary current op) as [r' d] eqn:Eu.
      simpl. intros E; inversion E; subst. apply (unary_log _ _ Eu).
    + destruct (Part000.parse_arg line (skip_ws line i))
        as [[[v j] g] d1] eqn:E1.
      destruct (j =? skip_ws line i);
        [intros E; inversion E; subst; reflexivity|].
      destruct (j <? size line) eqn:Hj;
        [intros E; inversion E; subst; reflexivity|].
      apply Nat.ltb_ge in Hj.
      destruct (Part000_parse_arg_log _ _ E1) as [_ Hd]. rewrite (Hd Hj).
      destruct (Part000.binary op current v) as [[res' g'] d2] eqn:E2.
      simpl. intros E; inversion E; subst.
      apply (Part000_binary_log _ _ _ E2).
Qed.

(** The second variant: every line is evaluated; a plain line that logs
    anything, and a fold line that logs anything but [SuffixLeft], give
    back the accumulator they were given. *)
Lemma Part000_diagnostic_keeps_accumulator current line :
  exists r log,
    Part000.process_line current line = Some (r, log) /\
    (hard_diagnostic log -> r = current) /\
    (Part000.fold_shape line = false -> log <> [] -> r = current).
Proof.
  unfold Part000.process_line.
  destruct (Part000.fold_shape line) eqn:Hsh.
  - unfold Part000.left_fold, Part000.parse_op.
    destruct (parse_op_at line 1) as [[op i] d_op] eqn:Eop.
    apply parse_op_at_log in Eop.
    destruct (negb (arity op =? 2) || Op_eqb op SET) eqn:Hbin.
    { exists current. eexists. repeat split; auto. }
    destruct Eop as [[-> ->] | [Hop ->]]; [discriminate|].
    destruct (skip_ws line (Part000.skip_brackets line 0) =? size line).
    { exists current. eexists. repeat split; auto. }
    rewrite Part000_left_fold_loop_tokens.
    + destruct (left_fold_tokens op current
                  (words (skipn (skip_ws line (Part000.skip_brackets line 0)) line))
                  current []) as [r log] eqn:Ef.
      exists r, log. split; [reflexivity|]. split; [|discriminate].
      intros Hh. destruct (left_fold_tokens_log _ _ _ _ _ Ef Hh) as [Hn | ->];
        [|reflexivity].
      destruct Hn as (d & [] & _).
    + lia.
    + rewrite skip_ws_eq, skipn_add. apply after_ws_starts_token.
  - destruct (Part000.plain_line current line) as [r log] eqn:Ep.
    exists r, log. split; [reflexivity|].
    split.
    + intros (d & Hin & _). apply (Part000_plain_line_log _ _ Ep).
      intros ->. exact Hin.
    + intros _. apply (Part000_plain_line_log _ _ Ep).
Qed.

End Diagnostics.

(** ** The projections of [parse_arg] *)

Lemma Calc_parse_arg_cursor s :
  arg_cursor (Calc.parse_arg s 0 true) = a_i (arg_final s).
Proof.
  unfold Calc.parse_arg. simpl skipn. fold (arg_final s).
  destruct (a_good (arg_final s)); simpl;
    [destruct (_ <? _)|]; reflexivity.
Qed.

Lemma Part000_parse_arg_cursor s :
  arg_cursor (Part000.parse_arg s 0) = a_i (arg_final s).
Proof.
  unfold Part000.parse_arg. simpl skipn. fold (arg_final s).
  destruct (a_good (arg_final s)); simpl;
    [destruct (_ <? _)|]; reflexivity.
Qed.

Lemma Calc_parse_arg_good_iff s :
  arg_good (Calc.parse_arg s 0 true) = true <-> literal_shape s.
Proof.
  split.
  - destruct (Calc.parse_arg s 0 true) as [[[v i] g] d] eqn:E.
    unfold arg_good. simpl. intros Hg. subst g.
    apply (Calc_parse_arg_good _ E). reflexivity.
  - intros H. rewrite (Calc_parse_arg_literal H). reflexivity.
Qed.

Lemma Part000_parse_arg_good_iff s :
  arg_good (Part000.parse_arg s 0) = true /\
  arg_cursor (Part000.parse_arg s 0) = length s <-> literal_shape s.
Proof.
  rewrite Part000_parse_arg_cursor. rewrite arg_final_literal_shape.
  unfold Part000.parse_arg. simpl skipn. fold (arg_final s).
  destruct (a_good (arg_final s)); simpl;
    [destruct (_ <? _)|]; simpl; tauto.
Qed.

Lemma count_digits_split k s :
  count_digits s = count_digits (firstn k s) + count_digits (skipn k s).
Proof.
  unfold count_digits. rewrite <- length_app, <- filter_app, firstn_skipn.
  reflexivity.
Qed.

Lemma float_neq (x y : float) :
  PrimFloat.eqb y y = true -> PrimFloat.eqb x y = false -> x <> y.
Proof. intros Hy Hxy E. subst. congruence. Qed.

(** ** The operator of a bracketed line *)

Lemma parse_op_at_no_fold_op line :
  (char_at line 2 =? ")")%char = true ->
  fold_op_of_char (char_at line 1) = None ->
  let op := fst (fst (parse_op_at line 1)) in
  negb (arity op =? 2) || Op_eqb op SET = true.
Proof.
  intros H2 Hnone. apply Ascii.eqb_eq in H2.
  unfold parse_op_at, fold_op_of_char in *. rewrite H2.
  destruct (isdigit (char_at line 1)); [reflexivity|].
  repeat match goal with
         | H : context [(char_at line 1 =? ?x)%char] |- _ =>
             destruct (char_at line 1 =? x)%char; [discriminate|]
         end.
  destruct (char_at line 1 =? "_")%char; [reflexivity|].
  destruct (char_at line 1 =? "S")%char; reflexivity.
Qed.

(** * The claims *)

(** C1, with the defect of the second variant.  Every line is evaluated, and
    in [src/calc.cpp] a line that logs any diagnostic gives back exactly
    the accumulator it was given.  In the second variant the same holds
    for every plain line, and for a fold line that logs anything but the
    "suffix left" diagnostic; a fold token that leaves a suffix is
    logged and folded all the same, so [(+) 12345678901] turns 0 into
    1234567890. *)
Theorem C1_diagnostic_means_unchanged_accumulator :
  (forall (libm : Libm) (current : float) (line : list ascii),
      exists r log,
        Calc.process_line current line = Some (r, log) /\
        (log <> [] -> r = current)) /\
  (forall (libm : Libm) (current : float) (line : list ascii),
      exists r log,
        Part000.process_line current line = Some (r, log) /\
        (hard_diagnostic log -> r = current) /\
        (Part000.fold_shape line = false -> log <> [] -> r = current)) /\
  (forall libm : Libm,
      Calc.process_line 0 (str "(+) 12345678901")
      = Some (0%float, [SuffixLeft]) /\
      Part000.process_line 0 (str "(+) 12345678901")
      = Some (1234567890%float, [SuffixLeft])) /\
  (1234567890 <> 0)%float.
Proof.
  split; [|split; [|split]].
  - intros libm current line. apply Calc_diagnostic_keeps_accumulator.
  - intros libm current line. apply Part000_diagnostic_keeps_accumulator.
  - intros libm. split; vm_compute; reflexivity.
  - apply float_neq; vm_compute; reflexivity.
Qed.

Lemma C1_witness :
  exists log,
    @Calc.process_line sample_libm 7 (str "/ 0") = Some (7%float, log) /\
    log <> [].
Proof.
  destruct (proj1 C1_diagnostic_means_unchanged_accumulator
              sample_libm 7%float (str "/ 0")) as (r & log & E & H).
  assert (Hlog : log <> []).
  { vm_compute in E. inversion E. discriminate. }
  exists log. rewrite E, (H Hlog). split; [reflexivity | exact Hlog].
Defined.

(** C2, with the defect of the second variant.  In [src/calc.cpp] a fold
    line is all or nothing: if one of its tokens is not a literal, or is
    a zero divisor, the line gives back the accumulator it started from,
    as [(+) 1 x 3] does.  The second variant does so when a token holds
    a bad character among its first ten digits or divides by zero, but
    reads a token that goes on after its tenth digit as the number made
    of the first ten digits: [(+) 1 1234567890xyz] turns 0 into
    1234567891. *)
Theorem C2_fold_all_or_nothing :
  (forall (libm : Libm) (current : float) (opc : ascii) (op : Op)
          (rest : list ascii),
      fold_op_of_char opc = Some op ->
      Exists (fun t => ~ valid_token op t) (words rest) ->
      exists log,
        Calc.process_line current (fold_line opc rest) = Some (current, log) /\
        log <> []) /\
  (forall (libm : Libm) (current : float) (opc : ascii) (op : Op)
          (rest : list ascii),
      fold_op_of_char opc = Some op ->
      Exists (fun t => arg_good (Part000.parse_arg t 0) = false \/
                       step_ok op (arg_value (Part000.parse_arg t 0)) = false)
             (words rest) ->
      exists log,
        Part000.process_line current (fold_line opc rest)
        = Some (current, log) /\
        log <> []) /\
  (forall libm : Libm,
      Calc.process_line 7 (str "(+) 1 x 3")
      = Some (7%float, [ArgumentParsingError 0]) /\
      Part000.process_line 7 (str "(+) 1 x 3")
      = Some (7%float, [ArgumentParsingError 0; WrongArguments]) /\
      Calc.process_line 8 (str "(/) 2 0") = Some (8%float, [BadDivision]) /\
      Part000.process_line 8 (str "(/) 2 0") = Some (8%float, [BadDivision])) /\
  (forall libm : Libm,
      Calc.process_line 0 (str "(+) 1 1234567890xyz")
      = Some (0%float, [SuffixLeft]) /\
      Part000.process_line 0 (str "(+) 1 1234567890xyz")
      = Some (1234567891%float, [SuffixLeft])) /\
  (1234567891 <> 0)%float.
Proof.
  split; [|split; [|split; [|split]]];
    [| | | |apply float_neq; vm_compute; reflexivity].
  - intros libm current opc op rest Hop Hex.
    rewrite (Calc_process_fold_line opc rest current Hop).
    destruct (words rest) as [|t ts] eqn:Ew; [inversion Hex|].
    destruct (@Calc_fold_numbers_invalid libm op current (fold_line opc rest)
                (t :: ts) (Calc_is_fold_fold_line opc rest Hop) Hex current 3)
      as (log & E & Hlog).
    rewrite E. exists log. split; [reflexivity | exact Hlog].
  - intros libm current opc op rest Hop Hex.
    rewrite (Part000_process_fold_line opc rest current Hop).
    destruct (words rest) as [|t ts] eqn:Ew; [inversion Hex|].
    destruct (@left_fold_tokens_invalid libm op current (t :: ts) Hex
                current []) as (log & E & Hlog).
    rewrite E. exists log. split; [reflexivity | exact Hlog].
  - intros libm. repeat split; vm_compute; reflexivity.
  - intros libm. repeat split; vm_compute; reflexivity.
Qed.

Lemma C2_witness :
  fold_op_of_char "+" = Some ADD /\
  Exists (fun t => ~ valid_token ADD t) (words (str " 1 x 3")) /\
  exists log,
    @Calc.process_line sample_libm 7 (fold_line "+" (str " 1 x 3"))
    = Some (7%float, log) /\ log <> [].
Proof.
  assert (Hop : fold_op_of_char "+" = Some ADD) by reflexivity.
  assert (Hex : Exists (fun t => ~ valid_token ADD t) (words (str " 1 x 3"))).
  { vm_compute words. apply Exists_cons_tl. apply Exists_cons_hd.
    intros [[H _] _]. vm_compute in H. discriminate. }
  split; [exact Hop|]. split; [exact Hex|].
  exact (proj1 C2_fold_all_or_nothing sample_libm 7%float "+"%char ADD
               (str " 1 x 3") Hop Hex).
Defined.



(** C4, as amended.  [parse_arg] of either variant reads to the end, with
    [good] kept, exactly the strings made of digits and points (any
    number of points) that hold at most ten digits and do not go on
    after the tenth digit.  The value is built by
    multiply-by-ten-and-add over the digits before the first point and
    by a weight divided by ten per digit after it, later points changing
    nothing.  A character that is neither a digit nor a point, met
    before ten digits were read, stops the parse at its position with
    [good] cleared. *)
Theorem C4_literal_grammar :
  (forall s : list ascii,
      literal_shape s <-> arg_good (Calc.parse_arg s 0 true) = true) /\
  (forall s : list ascii,
      literal_shape s <->
      arg_good (Part000.parse_arg s 0) = true /\
      arg_cursor (Part000.parse_arg s 0) = length s) /\
  (forall s : list ascii,
      literal_shape s ->
      Calc.parse_arg s 0 true = (literal_value_spec s, length s, true, []) /\
      Part000.parse_arg s 0 = (literal_value_spec s, length s, true, [])) /\
  (forall (s1 : list ascii) (c : ascii) (s2 : list ascii),
      forallb literal_char s1 = true ->
      count_digits s1 < max_decimal_digits ->
      literal_char c = false ->
      exists v,
        Calc.parse_arg (s1 ++ c :: s2) 0 true =
        (v, length s1, false, [ArgumentParsingError (length s1)]) /\
        Part000.parse_arg (s1 ++ c :: s2) 0 =
        (v, length s1, false, [ArgumentParsingError (length s1)])).
Proof.
  split; [|split; [|split]].
  - intros s. symmetry. apply Calc_parse_arg_good_iff.
  - intros s. symmetry. apply Part000_parse_arg_good_iff.
  - intros s H. rewrite <- (literal_shape_value H).
    split; [apply Calc_parse_arg_literal | apply Part000_parse_arg_literal];
      exact H.
  - intros s1 c s2 Ha Hc Hl.
    destruct (@parse_arg_loop_bad_char s1 c s2 (mk_arg 0 0 true 1 0 true))
      as [G I]; auto.
    fold (arg_final (s1 ++ c :: s2)) in G, I. simpl in I.
    exists (a_res (arg_final (s1 ++ c :: s2))).
    unfold Calc.parse_arg, Part000.parse_arg. simpl skipn.
    fold (arg_final (s1 ++ c :: s2)). rewrite G, I. split; reflexivity.
Qed.

Lemma C4_witness :
  literal_shape (str "12.5") /\
  Calc.parse_arg (str "12.5") 0 true = (12.5%float, 4, true, []) /\
  Part000.parse_arg (str "12.5") 0 = (12.5%float, 4, true, []).
Proof.
  assert (Hl : literal_shape (str "12.5")).
  { split; [reflexivity|]. left. vm_compute. repeat constructor. }
  split; [exact Hl|].
  exact (proj1 (proj2 (proj2 C4_literal_grammar)) (str "12.5") Hl).
Defined.

(** C4, against the specification's wording, both ways: [1.2.3], with its
    second point, is read to the end as a literal, and [1234567890.],
    ten digits and one point, is not. *)
Lemma C4_second_point_counterexample :
  (Calc.parse_arg (str "1.2.3") 0 true
   = ((1 + 2 * (1 / 10) + 3 * (1 / 10 / 10))%float, 5, true, []) /\
   Part000.parse_arg (str "1.2.3") 0
   = ((1 + 2 * (1 / 10) + 3 * (1 / 10 / 10))%float, 5, true, []) /\
   ~ spec_literal_shape (str "1.2.3")) /\
  (spec_literal_shape (str "1234567890.") /\
   Calc.parse_arg (str "1234567890.") 0 true
   = (1234567890%float, 10, false, [SuffixLeft]) /\
   Part000.parse_arg (str "1234567890.") 0
   = (1234567890%float, 10, true, [SuffixLeft])).
Proof.
  split; split; [| split | | split]; try (vm_compute; reflexivity).
  - intros (_ & H & _). vm_compute in H.
    apply Nat.le_ngt in H. apply H. repeat constructor.
  - split; [reflexivity|]. split; vm_compute; repeat constructor.
Qed.

(** C5, as amended.  There is no [SET] keyword: Set is the operation of a
    line that starts with a decimal digit, the cursor staying on that
    digit.  A line that is one literal starting with a digit gives the
    value of the literal, whatever the accumulator; the line [5] gives
    5.  A line that starts with the letters [SE], such as [SET 5], is an
    unknown operation and gives the accumulator back. *)
Theorem C5_digit_line_sets_the_accumulator :
  (forall (libm : Libm) (current : float) (lit : list ascii),
      isdigit (char_at lit 0) = true -> literal_shape lit ->
      parse_op_at lit 0 = ((SET, 0), []) /\
      Calc.parse_op lit 0 = ((SET, 0), []) /\
      Calc.process_line current lit = Some (literal_value lit, []) /\
      Part000.process_line current lit = Some (literal_value lit, [])) /\
  (forall (libm : Libm) (current : float),
      Calc.process_line current (str "5") = Some (5%float, []) /\
      Part000.process_line current (str "5") = Some (5%float, [])) /\
  (forall (libm : Libm) (current : float) (rest : list ascii),
      Calc.process_line current (str "SE" ++ rest)
      = Some (current, [UnknownOperation]) /\
      Part000.process_line current (str "SE" ++ rest)
      = Some (current, [UnknownOperation])).
Proof.
  split; [|split].
  - intros libm current lit Hd Hl.
    assert (Hop : parse_op_at lit 0 = ((SET, 0), []))
      by (unfold parse_op_at; rewrite Hd; reflexivity).
    assert (Hne : lit <> []) by (intros ->; vm_compute in Hd; discriminate).
    assert (H0 : (char_at lit 0 =? "(")%char = false).
    { destruct (char_at lit 0 =? "(")%char eqn:E; [|reflexivity].
      apply Ascii.eqb_eq in E. rewrite E in Hd. vm_compute in Hd.
      discriminate. }
    split; [exact Hop|]. split.
    { unfold Calc.parse_op. rewrite (Calc_delete_brackets_plain _ H0).
      exact Hop. }
    split.
    + apply (@Calc_process_plain_line libm current [] [] lit SET H0 Hop
               eq_refl eq_refl Hl Hne).
    + apply (@Part000_process_plain_line libm current [] [] lit SET H0 Hop
               eq_refl eq_refl Hl Hne).
  - intros libm current. split; reflexivity.
  - intros libm current rest. split; reflexivity.
Qed.

Lemma C5_witness :
  isdigit (char_at (str "5") 0) = true /\
  literal_shape (str "5") /\
  @Calc.process_line sample_libm 7 (str "5") = Some (5%float, []) /\
  @Part000.process_line sample_libm 7 (str "5") = Some (5%float, []).
Proof.
  assert (Hd : isdigit (char_at (str "5") 0) = true) by reflexivity.
  assert (Hl : literal_shape (str "5")).
  { split; [reflexivity|]. left. vm_compute. repeat constructor. }
  split; [exact Hd|]. split; [exact Hl|].
  destruct (proj1 C5_digit_line_sets_the_accumulator sample_libm 7%float
              (str "5") Hd Hl) as (_ & _ & C & P).
  split; [exact C | exact P].
Defined.

(** C5, against the specification's wording: the line [SET 5] starts with
    [S], is read as a broken [SQRT] and leaves the accumulator 7 as it
    is. *)
Lemma C5_SET_5_counterexample :
  (forall libm : Libm,
      Calc.process_line 7 (str "SET 5") = Some (7%float, [UnknownOperation])) /\
  (forall libm : Libm,
      Part000.process_line 7 (str "SET 5") = Some (7%float, [UnknownOperation])) /\
  (7 <> 5)%float.
Proof.
  repeat split; try (intros libm; vm_compute; reflexivity).
  apply float_neq; vm_compute; reflexivity.
Qed.

(** C6.  On a line made of [/] or [%], white space and one literal, a right
    operand equal to zero gives the accumulator back with the division
    or remainder diagnostic, and any other right operand gives [current
    / value], respectively [fmod current value], the C library's
    remainder with the accumulator as dividend. *)
Theorem C6_divide_and_remainder :
  forall (libm : Libm) (current : float) (ws lit : list ascii),
    forallb isspace ws = true -> literal_shape lit -> lit <> [] ->
    let right := literal_value lit in
    let divided :=
      if PrimFloat.eqb right 0 then (current, [BadDivision])
      else ((current / right)%float, []) in
    let remainder :=
      if PrimFloat.eqb right 0 then (current, [BadRemainder])
      else (fmod current right, []) in
    Calc.process_line current ("/"%char :: ws ++ lit) = Some divided /\
    Part000.process_line current ("/"%char :: ws ++ lit) = Some divided /\
    Calc.process_line current ("%"%char :: ws ++ lit) = Some remainder /\
    Part000.process_line current ("%"%char :: ws ++ lit) = Some remainder.
Proof.
  intros libm current ws lit Hws Hl Hne right divided remainder.
  subst divided remainder right.
  pose proof (@Calc_process_plain_line libm current ["/"%char] ws lit DIV
                eq_refl eq_refl eq_refl Hws Hl Hne) as C1.
  pose proof (@Part000_process_plain_line libm current ["/"%char] ws lit DIV
                eq_refl eq_refl eq_refl Hws Hl Hne) as P1.
  pose proof (@Calc_process_plain_line libm current ["%"%char] ws lit REM
                eq_refl eq_refl eq_refl Hws Hl Hne) as C2.
  pose proof (@Part000_process_plain_line libm current ["%"%char] ws lit REM
                eq_refl eq_refl eq_refl Hws Hl Hne) as P2.
  simpl app in *. simpl step_ok in *. simpl binop in *.
  rewrite C1, P1, C2, P2.
  destruct (PrimFloat.eqb (literal_value lit) 0); simpl; auto.
Qed.

Lemma C6_witness :
  forallb isspace (str " ") = true /\
  literal_shape (str "0") /\
  str "0" <> [] /\
  @Calc.process_line sample_libm 7 (str "/ 0") = Some (7%float, [BadDivision]) /\
  @Part000.process_line sample_libm 7 (str "/ 0") = Some (7%float, [BadDivision]).
Proof.
  assert (Hws : forallb isspace (str " ") = true) by reflexivity.
  assert (Hl : literal_shape (str "0")).
  { split; [reflexivity|]. left. vm_compute. repeat constructor. }
  assert (Hne : str "0" <> []) by discriminate.
  split; [exact Hws|]. split; [exact Hl|]. split; [exact Hne|].
  destruct (@C6_divide_and_remainder sample_libm 7%float (str " ") (str "0")
              Hws Hl Hne) as (C & P & _).
  split; [exact C | exact P].
Defined.

(** C7.  The line [SQRT] gives the square root of the accumulator when the
    accumulator is greater than zero, and otherwise gives the
    accumulator back with a diagnostic; 9 gives 3, -9 gives -9 and 0
    gives 0. *)
Theorem C7_sqrt_line :
  forall (libm : Libm) (current : float),
    let outcome :=
      if PrimFloat.ltb 0 current then (PrimFloat.sqrt current, [])
      else (current, [BadSqrtArgument]) in
    (Calc.process_line current (str "SQRT") = Some outcome /\
     Part000.process_line current (str "SQRT") = Some outcome) /\
    (Calc.process_line 9 (str "SQRT") = Some (3%float, []) /\
     Part000.process_line 9 (str "SQRT") = Some (3%float, [])) /\
    (Calc.process_line (-9) (str "SQRT") = Some ((-9)%float, [BadSqrtArgument]) /\
     Part000.process_line (-9) (str "SQRT") = Some ((-9)%float, [BadSqrtArgument])) /\
    (Calc.process_line 0 (str "SQRT") = Some (0%float, [BadSqrtArgument]) /\
     Part000.process_line 0 (str "SQRT") = Some (0%float, [BadSqrtArgument])).
Proof.
  intros libm current outcome. repeat split; try (vm_compute; reflexivity).
  - unfold outcome, Calc.process_line. simpl.
    destruct (PrimFloat.ltb 0 current); reflexivity.
  - unfold outcome, Part000.process_line, Part000.plain_line. simpl.
    destruct (PrimFloat.ltb 0 current); reflexivity.
Qed.

(** C8, as amended.  A unary line is valid exactly when nothing at all
    follows the operator: [_] alone negates the accumulator, whatever
    its value, [SQRT] alone applies the square root rule, and any
    character after the operator, white space included, gives the
    accumulator back with the "unexpected suffix" diagnostic. *)
Theorem C8_unary_line_takes_no_suffix :
  forall (libm : Libm) (current : float) (suffix : list ascii),
    let negated :=
      match suffix with
      | [] => ((- current)%float, [])
      | _ => (current, [UnexpectedSuffixUnary])
      end in
    let rooted :=
      match suffix with
      | [] => unary current SQRT
      | _ => (current, [UnexpectedSuffixUnary])
      end in
    Calc.process_line current ("_"%char :: suffix) = Some negated /\
    Part000.process_line current ("_"%char :: suffix) = Some negated /\
    Calc.process_line current (str "SQRT" ++ suffix) = Some rooted /\
    Part000.process_line current (str "SQRT" ++ suffix) = Some rooted.
Proof.
  intros libm current suffix negated rooted. subst negated rooted.
  destruct suffix as [|c suffix].
  - repeat split; try reflexivity.
    + unfold Calc.process_line. simpl.
      destruct (PrimFloat.ltb 0 current); reflexivity.
    + unfold Part000.process_line, Part000.plain_line. simpl.
      destruct (PrimFloat.ltb 0 current); reflexivity.
  - repeat split; reflexivity.
Qed.

(** C8, against the specification's wording: on the line [_ ], where only
    white space follows the operator, the accumulator 4 comes back as 4
    with a diagnostic, not negated. *)
Lemma C8_whitespace_suffix_counterexample :
  (forall libm : Libm,
      Calc.process_line 4 (str "_ ") = Some (4%float, [UnexpectedSuffixUnary])) /\
  (forall libm : Libm,
      Part000.process_line 4 (str "_ ") = Some (4%float, [UnexpectedSuffixUnary])) /\
  forallb isspace (str " ") = true /\
  (4 <> - 4)%float.
Proof.
  repeat split; try (intros libm; vm_compute; reflexivity).
  apply float_neq; vm_compute; reflexivity.
Qed.

(** C10.  In [parse_arg] the count that is held against the cap of ten is
    the number of digits among the characters read, a point moving the
    cursor without being counted.  So a string of digits and points with
    fewer than ten digits, or with ten digits the last of which ends the
    string, is read to its end, as is the eleven-character
    [12345.67890]; a string with more than ten digits is never read to
    its end, and the digits past the tenth are among the characters
    left.  Leading zeros and zeros after the point count like any digit. *)
Theorem C10_only_digits_count_toward_the_cap :
  (forall s : list ascii,
      let k := a_i (arg_final s) in
      arg_cursor (Calc.parse_arg s 0 true) = k /\
      arg_cursor (Part000.parse_arg s 0) = k /\
      k <= length s /\
      a_count (arg_final s) = count_digits (firstn k s) /\
      a_count (arg_final s) <= max_decimal_digits) /\
  (forall s : list ascii,
      forallb literal_char s = true ->
      count_digits s < max_decimal_digits \/
      (count_digits s = max_decimal_digits /\ isdigit (last s zero) = true) ->
      Calc.parse_arg s 0 true = (literal_value s, length s, true, []) /\
      Part000.parse_arg s 0 = (literal_value s, length s, true, [])) /\
  (forall s : list ascii,
      max_decimal_digits < count_digits s ->
      let k := a_i (arg_final s) in
      k < length s /\
      count_digits s - max_decimal_digits <= count_digits (skipn k s) /\
      arg_good (Calc.parse_arg s 0 true) = false /\
      arg_log (Part000.parse_arg s 0) <> []) /\
  (arg_cursor (Calc.parse_arg (str "12345.67890") 0 true) = 11 /\
   arg_good (Calc.parse_arg (str "12345.67890") 0 true) = true /\
   arg_cursor (Part000.parse_arg (str "12345.67890") 0) = 11 /\
   arg_good (Part000.parse_arg (str "12345.67890") 0) = true) /\
  (Calc.parse_arg (str "0000000001") 0 true = (1%float, 10, true, []) /\
   Calc.parse_arg (str "00000000001") 0 true = (0%float, 10, false, [SuffixLeft]) /\
   Part000.parse_arg (str "00000000001") 0 = (0%float, 10, true, [SuffixLeft]) /\
   arg_cursor (Calc.parse_arg (str "0.0000000001") 0 true) = 11 /\
   arg_log (Calc.parse_arg (str "0.0000000001") 0 true) = [SuffixLeft]).
Proof.
  split; [|split; [|split; [|split]]].
  - intros s k. subst k.
    destruct (@parse_arg_loop_cursor s (mk_arg 0 0 true 1 0 true))
      as (k & K1 & K2 & K3 & K4 & _); [simpl; unfold max_decimal_digits; lia|].
    fold (arg_final s) in *. simpl in K1, K3.
    rewrite Calc_parse_arg_cursor, Part000_parse_arg_cursor.
    rewrite K3 in K4. rewrite K1, K3. repeat split; auto.
  - intros s Ha Hc.
    assert (Hl : literal_shape s) by (split; assumption).
    split; [apply Calc_parse_arg_literal | apply Part000_parse_arg_literal];
      exact Hl.
  - intros s Hc k. subst k.
    destruct (@parse_arg_loop_cursor s (mk_arg 0 0 true 1 0 true))
      as (k & K1 & K2 & K3 & K4 & _); [simpl; unfold max_decimal_digits; lia|].
    fold (arg_final s) in *. simpl in K1, K3. rewrite K1.
    rewrite K3 in K4.
    pose proof (count_digits_split k s) as Hsplit.
    assert (Hk : k < length s).
    { destruct (Nat.lt_ge_cases k (length s)) as [H | H]; [exact H|].
      rewrite firstn_all2 in K4 by exact H. lia. }
    assert (Hnot : ~ literal_shape s).
    { intros [_ [H | [H _]]]; lia. }
    repeat split; try lia.
    + destruct (arg_good (Calc.parse_arg s 0 true)) eqn:G; [|reflexivity].
      apply Calc_parse_arg_good_iff in G. contradiction.
    + intros Hlog. apply Hnot. apply arg_final_literal_shape.
      unfold arg_log, Part000.parse_arg in Hlog. simpl skipn in Hlog.
      fold (arg_final s) in Hlog.
      destruct (a_good (arg_final s)); simpl in Hlog; [|discriminate].
      destruct (a_i (arg_final s) <? size s) eqn:I; simpl in Hlog;
        [discriminate|].
      apply Nat.ltb_ge in I. unfold size in I. lia.
  - repeat split; vm_compute; reflexivity.
  - repeat split; vm_compute; reflexivity.
Qed.

Lemma C10_witness :
  max_decimal_digits < count_digits (str "12345678901") /\
  a_i (arg_final (str "12345678901")) < length (str "12345678901") /\
  1 <= count_digits (skipn (a_i (arg_final (str "12345678901")))
                           (str "12345678901")).
Proof.
  assert (H : max_decimal_digits < count_digits (str "12345678901"))
    by (vm_compute; repeat constructor).
  split; [exact H|].
  destruct (proj1 (proj2 (proj2 C10_only_digits_count_toward_the_cap))
              (str "12345678901") H) as (K & D & _).
  split; [exact K | exact D].
Defined.

(** * Further properties *)

(** X1.  A fold line that carries a digit between its brackets asks for a
    fold of Set and is refused by both variants, whatever follows: the
    accumulator comes back with a diagnostic. *)
Theorem X1_fold_of_set_is_refused :
  forall (libm : Libm) (current : float) (d : ascii) (rest : list ascii),
    isdigit d = true ->
    (exists log,
        Calc.process_line current (fold_line d rest) = Some (current, log) /\
        log <> []) /\
    Part000.process_line current (fold_line d rest)
    = Some (current, [LeftConvolutionBinaryOnly]).
Proof.
  intros libm current d rest Hd.
  assert (Hb : (d =? ")")%char = false).
  { destruct (d =? ")")%char eqn:E; [|reflexivity].
    apply Ascii.eqb_eq in E. subst d. vm_compute in Hd. discriminate. }
  pose proof (isdigit_not_space d Hd) as Hs.
  split.
  - unfold Calc.process_line, Calc.parse_op.
    assert (Hdel : Calc.delete_brackets (fold_line d rest) = d :: rest).
    { unfold Calc.delete_brackets, fold_line. cbn -[size firstn isspace].
      change (isspace "(") with false. cbv iota. rewrite Hb, Hs.
      unfold substr. cbn -[size firstn].
      rewrite (@firstn_all2 _ _ rest); [reflexivity | unfold size; simpl; lia]. }
    rewrite Hdel. unfold parse_op_at. change (char_at (d :: rest) 0) with d.
    rewrite Hd. cbn [ret arity Nat.sub].
    assert (Hsk : Calc.skip_brackets (fold_line d rest) 0 = 3).
    { unfold Calc.skip_brackets, fold_line. cbn. rewrite Hb. reflexivity. }
    rewrite Hsk, Calc_parse_number_words.
    change (skipn 3 (fold_line d rest)) with rest.
    destruct (words rest) as [|t ts].
    + eexists. split; [reflexivity | discriminate].
    + cbn [Calc.fold_numbers].
      assert (Hf : Calc.is_fold (fold_line d rest) = true).
      { unfold Calc.is_fold, fold_line. cbn. rewrite Hb. reflexivity. }
      rewrite Hf. cbn. eexists. split; [reflexivity | discriminate].
  - unfold Part000.process_line.
    change (Part000.fold_shape (fold_line d rest)) with true. cbv iota.
    unfold Part000.left_fold, Part000.parse_op, parse_op_at.
    change (char_at (fold_line d rest) 1) with d. rewrite Hd. reflexivity.
Qed.

Lemma X1_witness :
  isdigit "5" = true /\
  @Part000.process_line sample_libm 7 (fold_line "5" (str " 1 2"))
  = Some (7%float, [LeftConvolutionBinaryOnly]).
Proof.
  assert (Hd : isdigit "5" = true) by reflexivity.
  split; [exact Hd|].
  exact (proj2 (@X1_fold_of_set_is_refused sample_libm 7%float "5"%char
                  (str " 1 2") Hd)).
Defined.

(** X2.  A plain line made of one of the operators [+ - * / % ^], white
    space and one literal applies the operator to the accumulator and
    the value of the literal, in both variants; only a zero divisor is
    refused. *)
Theorem X2_plain_binary_line :
  forall (libm : Libm) (current : float) (opc : ascii) (op : Op)
         (ws lit : list ascii),
    fold_op_of_char opc = Some op ->
    forallb isspace ws = true -> literal_shape lit -> lit <> [] ->
    let outcome :=
      if step_ok op (literal_value lit)
      then (binop op current (literal_value lit), [])
      else (current,
            [match op with DIV => BadDivision | _ => BadRemainder end]) in
    Calc.process_line current (opc :: ws ++ lit) = Some outcome /\
    Part000.process_line current (opc :: ws ++ lit) = Some outcome.
Proof.
  intros libm current opc op ws lit Hop Hws Hl Hne outcome. subst outcome.
  assert (H0 : (char_at ([opc] ++ ws ++ lit) 0 =? "(")%char = false)
    by (fold_ops Hop; reflexivity).
  assert (Hp : parse_op_at ([opc] ++ ws ++ lit) 0 = ((op, length [opc]), []))
    by (fold_ops Hop; reflexivity).
  assert (Ha : arity op = 2) by apply (fold_op_binary opc Hop).
  split.
  - apply (@Calc_process_plain_line libm current [opc] ws lit op
             H0 Hp Ha Hws Hl Hne).
  - apply (@Part000_process_plain_line libm current [opc] ws lit op
             H0 Hp Ha Hws Hl Hne).
Qed.

Lemma X2_witness :
  fold_op_of_char "+" = Some ADD /\
  forallb isspace (str " ") = true /\
  literal_shape (str "3") /\
  str "3" <> [] /\
  @Calc.process_line sample_libm 2 (str "+ 3") = Some (5%float, []) /\
  @Part000.process_line sample_libm 2 (str "+ 3") = Some (5%float, []).
Proof.
  assert (Hop : fold_op_of_char "+" = Some ADD) by reflexivity.
  assert (Hws : forallb isspace (str " ") = true) by reflexivity.
  assert (Hl : literal_shape (str "3")).
  { split; [reflexivity|]. left. vm_compute. repeat constructor. }
  assert (Hne : str "3" <> []) by discriminate.
  split; [exact Hop|]. split; [exact Hws|]. split; [exact Hl|].
  split; [exact Hne|].
  exact (@X2_plain_binary_line sample_libm 2%float "+"%char ADD (str " ")
           (str "3") Hop Hws Hl Hne).
Defined.

(** ** Further lines of the specification, evaluated *)

Section Examples.
Context {libm : Libm}.

Example add_3_to_2 :
  Calc.process_line 2 (str "+ 3") = Some (5%float, []) /\
  Part000.process_line 2 (str "+ 3") = Some (5%float, []).
Proof. split; vm_compute; reflexivity. Qed.

Example negate_4_and_back :
  Calc.process_line 4 (str "_") = Some ((-4)%float, []) /\
  Calc.process_line (-4) (str "_") = Some (4%float, []) /\
  Part000.process_line 4 (str "_") = Some ((-4)%float, []) /\
  Part000.process_line (-4) (str "_") = Some (4%float, []).
Proof. repeat split; vm_compute; reflexivity. Qed.

Example fold_of_set_is_refused :
  Calc.process_line 7 (str "(5) 1 2") = Some (7%float, [WrongOperationLeftFold]) /\
  Part000.process_line 7 (str "(5) 1 2")
  = Some (7%float, [LeftConvolutionBinaryOnly]).
Proof. split; vm_compute; reflexivity. Qed.

Example fold_without_tokens :
  Calc.process_line 7 (str "(+)  ") = Some (7%float, [NoArgumentBinary]) /\
  Part000.process_line 7 (str "(+)  ") = Some (7%float, [NoArguments]).
Proof. split; vm_compute; reflexivity. Qed.

Example trailing_space_after_argument :
  Calc.process_line 7 (str "+ 1 ") = Some (7%float, [ArgumentParsingError 3]) /\
  Part000.process_line 7 (str "+ 1 ")
  = Some (7%float, [ArgumentParsingError 3]).
Proof. split; vm_compute; reflexivity. Qed.

End Examples.

(** * More of the code: the operation recognizer *)

Lemma char_at_inside line i :
  char_at line i <> zero -> i < length line.
Proof.
  unfold char_at. intros H.
  destruct (Nat.lt_ge_cases i (length line)) as [Hlt | Hge]; [exact Hlt|].
  rewrite nth_overflow in H by exact Hge. congruence.
Qed.

Lemma skipn_char_at line i :
  i < length line -> skipn i line = char_at line i :: skipn (S i) line.
Proof.
  unfold char_at. revert i. induction line as [|c line IH]; intros i Hi.
  - simpl in Hi. lia.
  - destruct i as [|i]; [reflexivity|].
    simpl in Hi. simpl. apply IH. lia.
Qed.

Lemma char_at_app pre s k :
  char_at (pre ++ s) (length pre + k) = char_at s k.
Proof.
  unfold char_at. rewrite app_nth2 by lia. f_equal. lia.
Qed.

Lemma char_at_app_0 pre s :
  char_at (pre ++ s) (length pre) = char_at s 0.
Proof. rewrite <- (Nat.add_0_r (length pre)) at 1. apply char_at_app. Qed.

(** One recognized character at the cursor. *)
Lemma parse_op_at_one line i c :
  char_at line i = c -> c <> zero ->
  i < length line /\ firstn 1 (skipn i line) = [c].
Proof.
  intros Hc Hz.
  assert (Hi : i < length line) by (apply char_at_inside; congruence).
  split; [exact Hi|]. rewrite (skipn_char_at line Hi), Hc. reflexivity.
Qed.

Ltac op_one_char E0 line i :=
  let H := fresh "H" in
  let F := fresh "F" in
  let E := fresh "E" in
  apply Ascii.eqb_eq in E0;
  destruct (@parse_op_at_one line i _ E0) as [H F]; [discriminate|];
  intros E; inversion E; subst;
  split; [discriminate|]; split; [|discriminate]; intros _;
  split; [reflexivity|]; split; [simpl; lia|]; split; [simpl; lia | exact F].

Ltac op_rollback :=
  let E := fresh "E" in
  intros E; inversion E; subst;
  split; [intros _; split; [lia | reflexivity]|];
  split; [congruence | discriminate].

Lemma parse_op_at_sound :
  forall (line : list ascii) (i : nat) (op : Op) (j : nat) (d : list diag),
    parse_op_at line i = ((op, j), d) ->
    (op = ERR -> j = i /\ d = [UnknownOperation]) /\
    (op <> ERR ->
     d = [] /\
     j = i + length (op_token op) /\
     j <= length line /\
     firstn (length (op_token op)) (skipn i line) = op_token op) /\
    (op = SET -> isdigit (char_at line i) = true).
Proof.
  intros line i op j d. unfold parse_op_at, rollback.
  destruct (isdigit (char_at line i)) eqn:Hd.
  { intros E; inversion E; subst. simpl.
    split; [discriminate|]. split; [|reflexivity]. intros _.
    assert (Hi : i < length line).
    { apply char_at_inside. intros Hz. rewrite Hz in Hd.
      vm_compute in Hd. discriminate. }
    repeat split; lia. }
  destruct (char_at line i =? "+")%char eqn:E0; [op_one_char E0 line i|].
  clear E0.
  destruct (char_at line i =? "-")%char eqn:E0; [op_one_char E0 line i|].
  clear E0.
  destruct (char_at line i =? "*")%char eqn:E0; [op_one_char E0 line i|].
  clear E0.
  destruct (char_at line i =? "/")%char eqn:E0; [op_one_char E0 line i|].
  clear E0.
  destruct (char_at line i =? "%")%char eqn:E0; [op_one_char E0 line i|].
  clear E0.
  destruct (char_at line i =? "_")%char eqn:E0; [op_one_char E0 line i|].
  clear E0.
  destruct (char_at line i =? "^")%char eqn:E0; [op_one_char E0 line i|].
  clear E0.
  destruct (char_at line i =? "S")%char eqn:E0; [|op_rollback].
  destruct (char_at line (S i) =? "Q")%char eqn:E1; [|op_rollback].
  destruct (char_at line (S (S i)) =? "R")%char eqn:E2; [|op_rollback].
  destruct (char_at line (S (S (S i))) =? "T")%char eqn:E3; [|op_rollback].
  apply Ascii.eqb_eq in E0, E1, E2, E3.
  assert (H0 : i < length line) by (apply char_at_inside; rewrite E0; discriminate).
  assert (H1 : S i < length line) by (apply char_at_inside; rewrite E1; discriminate).
  assert (H2 : S (S i) < length line) by (apply char_at_inside; rewrite E2; discriminate).
  assert (H3 : S (S (S i)) < length line) by (apply char_at_inside; rewrite E3; discriminate).
  intros E; inversion E; subst. simpl.
  split; [discriminate|]. split; [|discriminate]. intros _.
  rewrite (skipn_char_at line H0), (skipn_char_at line H1),
    (skipn_char_at line H2), (skipn_char_at line H3), E0, E1, E2, E3.
  repeat split; lia.
Qed.

Lemma op_result_eq (op : Op) (a b : nat) (d : list diag) :
  a = b -> ((op, a), d) = ((op, b), d).
Proof. intros ->. reflexivity. Qed.

Lemma parse_op_at_token (pre rest : list ascii) (op : Op) :
  op <> ERR -> op <> SET ->
  parse_op_at (pre ++ op_token op ++ rest) (length pre) =
  ((op, length pre + length (op_token op)), []).
Proof.
  intros He Hs. unfold parse_op_at.
  replace (S (length pre)) with (length pre + 1) by lia.
  replace (S (length pre + 1)) with (length pre + 2) by lia.
  replace (S (length pre + 2)) with (length pre + 3) by lia.
  rewrite char_at_app_0, !char_at_app.
  destruct op; try congruence; simpl; apply op_result_eq; lia.
Qed.

Lemma parse_op_at_digit (pre rest : list ascii) (c : ascii) :
  isdigit c = true ->
  parse_op_at (pre ++ c :: rest) (length pre) = ((SET, length pre), []).
Proof.
  intros Hd. unfold parse_op_at.
  rewrite char_at_app_0. change (char_at (c :: rest) 0) with c.
  rewrite Hd. apply op_result_eq. lia.
Qed.

(** * More of the code: white space *)

Lemma ws_prefix_spaces s :
  forallb isspace (firstn (ws_prefix s) s) = true.
Proof.
  induction s as [|c s IH]; simpl; [reflexivity|].
  destruct (isspace c) eqn:Hc; simpl; [rewrite Hc; exact IH | reflexivity].
Qed.

Lemma ws_prefix_stops s :
  ws_prefix (skipn (ws_prefix s) s) = 0.
Proof.
  induction s as [|c s IH]; simpl; [reflexivity|].
  destruct (isspace c) eqn:Hc; simpl; [exact IH | rewrite Hc; reflexivity].
Qed.

(** X5.  [skip_ws] moves the cursor forward over white space only, never
    past the end of the line, and stops on the first character that is no
    white space; skipping again changes nothing. *)
Theorem X5_skip_ws :
  forall (line : list ascii) (i : nat),
    let j := skip_ws line i in
    i <= j /\
    (i <= size line -> j <= size line) /\
    forallb isspace (substr line i (j - i)) = true /\
    (j < size line -> isspace (char_at line j) = false) /\
    skip_ws line j = j.
Proof.
  intros line i j. subst j. rewrite skip_ws_eq.
  set (s := skipn i line).
  pose proof (ws_prefix_le s) as Hle.
  assert (Hlen : length s = length line - i) by (subst s; apply length_skipn).
  split; [lia|]. split; [unfold size; lia|]. split.
  - unfold substr. fold s.
    replace (i + ws_prefix s - i) with (ws_prefix s) by lia.
    apply ws_prefix_spaces.
  - split.
    + unfold size. intros Hj.
      pose proof (after_ws_starts_token s) as Hst.
      assert (E : skipn (ws_prefix s) s = skipn (i + ws_prefix s) line)
        by (subst s; rewrite skipn_add; reflexivity).
      rewrite E in Hst. rewrite (skipn_char_at line Hj) in Hst.
      simpl in Hst. apply negb_true_iff in Hst. exact Hst.
    + rewrite skip_ws_eq, skipn_add. fold s.
      rewrite ws_prefix_stops. lia.
Qed.

(** * More of the code: brackets *)

Lemma bracket_inner_char_iff c :
  bracket_inner_char c = true <->
  (c =? ")")%char = false /\ isspace c = false.
Proof.
  unfold bracket_inner_char. rewrite andb_true_iff, !negb_true_iff. tauto.
Qed.

Lemma delete_brackets_scan_inner line inner : forall tail i,
  forallb bracket_inner_char inner = true ->
  Calc.delete_brackets_scan line (inner ++ tail) i =
  Calc.delete_brackets_scan line tail (i + length inner).
Proof.
  induction inner as [|c inner IH]; intros tail i H; simpl.
  - f_equal. lia.
  - simpl in H. apply andb_true_iff in H. destruct H as [Hc H].
    apply bracket_inner_char_iff in Hc. destruct Hc as [-> ->].
    rewrite IH by exact H. f_equal. lia.
Qed.

Lemma skip_brackets_scan_inner inner : forall tail i old,
  forallb (fun c => negb (c =? ")")%char) inner = true ->
  Calc.skip_brackets_scan (inner ++ tail) i old =
  Calc.skip_brackets_scan tail (i + length inner) old.
Proof.
  induction inner as [|c inner IH]; intros tail i old H; simpl.
  - f_equal. lia.
  - simpl in H. apply andb_true_iff in H. destruct H as [Hc H].
    apply negb_true_iff in Hc. rewrite Hc.
    rewrite IH by exact H. f_equal. lia.
Qed.

Lemma bracket_inner_no_close inner :
  forallb bracket_inner_char inner = true ->
  forallb (fun c => negb (c =? ")")%char) inner = true.
Proof.
  induction inner as [|c inner IH]; simpl; [reflexivity|].
  intros H. apply andb_true_iff in H. destruct H as [Hc H].
  apply bracket_inner_char_iff in Hc. destruct Hc as [-> _].
  simpl. auto.
Qed.

Lemma firstn_app_exact (a b : list ascii) : firstn (length a) (a ++ b) = a.
Proof. induction a as [|c a IH]; simpl; [reflexivity | rewrite IH; reflexivity]. Qed.

Lemma skipn_app_exact (a b : list ascii) : skipn (length a) (a ++ b) = b.
Proof. induction a as [|c a IH]; simpl; [reflexivity | exact IH]. Qed.

Lemma Calc_delete_brackets_pair inner rest :
  forallb bracket_inner_char inner = true ->
  Calc.delete_brackets ("("%char :: inner ++ ")"%char :: rest) = inner ++ rest.
Proof.
  intros H. unfold Calc.delete_brackets.
  change (char_at ("("%char :: inner ++ ")"%char :: rest) 0) with "("%char.
  rewrite Ascii.eqb_refl.
  set (line := "("%char :: inner ++ ")"%char :: rest).
  change line with (("("%char :: inner) ++ ")"%char :: rest) at 2.
  rewrite delete_brackets_scan_inner by (simpl; exact H).
  cbn [Calc.delete_brackets_scan]. rewrite Ascii.eqb_refl.
  unfold substr.
  replace (skipn 1 line) with (inner ++ ")"%char :: rest) by reflexivity.
  replace (0 + length ("("%char :: inner) - 1) with (length inner)
    by (simpl; lia).
  rewrite firstn_app_exact. f_equal.
  replace (0 + length ("("%char :: inner) + 1)
    with (length (("("%char :: inner) ++ [")"%char]))
    by (rewrite length_app; simpl; lia).
  replace line with ((("("%char :: inner) ++ [")"%char]) ++ rest)
    by (unfold line; rewrite <- app_assoc; reflexivity).
  rewrite skipn_app_exact. apply firstn_all2.
  unfold size. rewrite !length_app. simpl. lia.
Qed.

Lemma Calc_delete_brackets_unchanged inner tail :
  forallb bracket_inner_char inner = true ->
  starts_with isspace tail ->
  Calc.delete_brackets ("("%char :: inner ++ tail) = "("%char :: inner ++ tail.
Proof.
  intros H Ht. unfold Calc.delete_brackets.
  change (char_at ("("%char :: inner ++ tail) 0) with "("%char.
  rewrite Ascii.eqb_refl.
  set (line := "("%char :: inner ++ tail).
  change line with (("("%char :: inner) ++ tail) at 2.
  rewrite delete_brackets_scan_inner by (simpl; exact H).
  destruct tail as [|c tail]; [reflexivity|].
  simpl in Ht. cbn [Calc.delete_brackets_scan]. rewrite Ht.
  destruct (c =? ")")%char eqn:E; [|reflexivity].
  apply Ascii.eqb_eq in E. subst c. vm_compute in Ht. discriminate.
Qed.

(** X6.  [delete_brackets] takes the first bracket pair away when the line
    starts with the opening bracket and the closing one comes before any
    white space, keeping what stood between them; in every other case
    (white space first, no closing bracket, no opening bracket at the
    start) the line comes back as it is. *)
Theorem X6_delete_brackets :
  (forall inner rest : list ascii,
      forallb bracket_inner_char inner = true ->
      Calc.delete_brackets ("("%char :: inner ++ ")"%char :: rest)
      = inner ++ rest) /\
  (forall (inner : list ascii) (c : ascii) (rest : list ascii),
      forallb bracket_inner_char inner = true -> isspace c = true ->
      Calc.delete_brackets ("("%char :: inner ++ c :: rest)
      = "("%char :: inner ++ c :: rest) /\
  (forall inner : list ascii,
      forallb bracket_inner_char inner = true ->
      Calc.delete_brackets ("("%char :: inner) = "("%char :: inner) /\
  (forall line : list ascii,
      char_at line 0 <> "("%char -> Calc.delete_brackets line = line).
Proof.
  split; [|split; [|split]].
  - intros inner rest H. apply Calc_delete_brackets_pair. exact H.
  - intros inner c rest H Hc. unfold Calc.delete_brackets.
    change (char_at ("("%char :: inner ++ c :: rest) 0) with "("%char.
    rewrite Ascii.eqb_refl.
    set (line := "("%char :: inner ++ c :: rest).
    change line with (("("%char :: inner) ++ c :: rest) at 2.
    rewrite delete_brackets_scan_inner by (simpl; exact H).
    cbn [Calc.delete_brackets_scan]. rewrite Hc.
    destruct (c =? ")")%char eqn:E; [|reflexivity].
    apply Ascii.eqb_eq in E. subst c. vm_compute in Hc. discriminate.
  - intros inner H. unfold Calc.delete_brackets.
    change (char_at ("("%char :: inner) 0) with "("%char.
    rewrite Ascii.eqb_refl.
    set (line := "("%char :: inner).
    rewrite <- (app_nil_r line) at 2. unfold line at 2.
    rewrite delete_brackets_scan_inner by (simpl; exact H). reflexivity.
  - intros line H. unfold Calc.delete_brackets.
    destruct (char_at line 0 =? "(")%char eqn:E; [|reflexivity].
    apply Ascii.eqb_eq in E. contradiction.
Qed.

Lemma X6_witness :
  forallb bracket_inner_char (str "+1") = true /\
  Calc.delete_brackets (str "(+1) 2 3") = str "+1 2 3".
Proof.
  assert (H : forallb bracket_inner_char (str "+1") = true) by reflexivity.
  split; [exact H|].
  exact (proj1 X6_delete_brackets (str "+1") (str " 2 3") H).
Defined.

(** ** The text in which [parse_op] reads *)

(** Every text splits into the characters [delete_brackets] walks over
    and a rest that is empty or starts with white space or with the
    closing bracket. *)
Lemma bracket_split (l : list ascii) :
  exists inner tail,
    l = inner ++ tail /\ forallb bracket_inner_char inner = true /\
    (starts_with isspace tail \/ exists rest, tail = ")"%char :: rest).
Proof.
  induction l as [|c l (inner & tail & -> & Hin & Ht)].
  - exists [], []. split; [reflexivity|]. split; [reflexivity|].
    left. exact I.
  - destruct (bracket_inner_char c) eqn:Hc.
    + exists (c :: inner), tail. split; [reflexivity|].
      split; [simpl; rewrite Hc; exact Hin | exact Ht].
    + exists [], (c :: inner ++ tail).
      split; [reflexivity|]. split; [reflexivity|].
      unfold bracket_inner_char in Hc. apply andb_false_iff in Hc.
      destruct Hc as [Hc | Hc]; apply negb_false_iff in Hc.
      * right. apply Ascii.eqb_eq in Hc. subst c. eexists. reflexivity.
      * left. exact Hc.
Qed.

Lemma line_open_bracket (line : list ascii) :
  char_at line 0 = "("%char -> exists l, line = "("%char :: l.
Proof.
  destruct line as [|c l]; unfold char_at; simpl; [discriminate|].
  intros ->. exists l. reflexivity.
Qed.

Lemma Calc_delete_brackets_cases (line : list ascii) :
  Calc.delete_brackets line = line \/
  exists inner rest,
    line = "("%char :: inner ++ ")"%char :: rest /\
    forallb bracket_inner_char inner = true /\
    Calc.delete_brackets line = inner ++ rest.
Proof.
  destruct (char_at line 0 =? "(")%char eqn:E.
  - apply Ascii.eqb_eq in E. destruct (line_open_bracket line E) as [l ->].
    destruct (bracket_split l) as (inner & tail & -> & Hin & [Ht | [rest ->]]).
    + left. apply Calc_delete_brackets_unchanged; assumption.
    + right. exists inner, rest. split; [reflexivity|].
      split; [exact Hin|]. apply Calc_delete_brackets_pair. exact Hin.
  - left. apply Calc_delete_brackets_plain. exact E.
Qed.

Lemma Calc_delete_brackets_length (line : list ascii) :
  length (Calc.delete_brackets line) <= length line.
Proof.
  destruct (Calc_delete_brackets_cases line)
    as [E | (inner & rest & E1 & _ & E2)].
  - rewrite E. lia.
  - rewrite E2, E1. simpl. rewrite !length_app. simpl. lia.
Qed.

(** X3.  What [parse_op] hands back.  The [parse_op] of the second
    variant reads in the line itself; that of [src/calc.cpp] reads in the
    line without its first bracket pair ([delete_brackets]), which is the
    line itself when the line does not start with the opening bracket,
    and never longer than the line.  In the text read: on failure the
    cursor is where it was and one "unknown operation" diagnostic is
    logged; on success nothing is logged, the cursor has moved over
    exactly the text of the operation (no character for Set, which needs
    a digit under the cursor, four for [SQRT], one otherwise) and still
    lies within the text.  So on [(+) 1] the cursor that [src/calc.cpp]
    gets back is 1, counted in [+ 1]. *)
Theorem X3_parse_op_cursor :
  forall (line text : list ascii) (i : nat) (op : Op) (j : nat)
         (d : list diag),
    (text = line /\ Part000.parse_op line i = ((op, j), d)) \/
    (text = Calc.delete_brackets line /\
     Calc.parse_op line i = ((op, j), d)) ->
    (op = ERR -> j = i /\ d = [UnknownOperation]) /\
    (op <> ERR ->
     d = [] /\
     j = i + length (op_token op) /\
     j <= length text /\
     firstn (length (op_token op)) (skipn i text) = op_token op) /\
    (op = SET -> isdigit (char_at text i) = true) /\
    length text <= length line /\
    (char_at line 0 <> "("%char -> text = line).
Proof.
  intros line text i op j d H.
  assert (Hread : parse_op_at text i = ((op, j), d)).
  { destruct H as [[-> H] | [-> H]]; exact H. }
  destruct (parse_op_at_sound text i Hread) as (He & Hs & Hd).
  split; [exact He|]. split; [exact Hs|]. split; [exact Hd|].
  destruct H as [[-> _] | [-> _]].
  - split; [lia | reflexivity].
  - split; [apply Calc_delete_brackets_length|].
    intros H0. apply Calc_delete_brackets_plain.
    destruct (char_at line 0 =? "(")%char eqn:E; [|reflexivity].
    apply Ascii.eqb_eq in E. contradiction.
Qed.

Lemma X3_witness :
  Calc.parse_op (str "(SQRT) 9") 0 = ((SQRT, 4), []) /\
  Calc.delete_brackets (str "(SQRT) 9") = str "SQRT 9" /\
  4 <= length (str "SQRT 9") /\
  firstn 4 (skipn 0 (str "SQRT 9")) = str "SQRT".
Proof.
  assert (E : Calc.parse_op (str "(SQRT) 9") 0 = ((SQRT, 4), []))
    by reflexivity.
  assert (T : str "SQRT 9" = Calc.delete_brackets (str "(SQRT) 9"))
    by reflexivity.
  split; [exact E|]. split; [symmetry; exact T|].
  destruct (@X3_parse_op_cursor (str "(SQRT) 9") (str "SQRT 9") 0 SQRT 4 []
              (or_intror (conj T E))) as (_ & H & _).
  destruct H as (_ & _ & Hj & Hf); [discriminate|].
  split; [exact Hj | exact Hf].
Defined.

Lemma op_token_inner (op : Op) :
  forallb bracket_inner_char (op_token op) = true.
Proof. destruct op; reflexivity. Qed.

(** X4.  Reading back what was written.  In the second variant, wherever
    the text of an operation stands in a line, [parse_op] started there
    returns that operation and the cursor just after it; started on a
    digit it returns Set and leaves the cursor on the digit.  The
    [parse_op] of [src/calc.cpp] does the same on every line that does
    not start with the opening bracket.  On a line with a bracket pair it
    reads what the second variant reads in the line without the pair; so
    from the start of [(op junk) rest] it returns the operation that
    follows the opening bracket, with the length of its text as the
    cursor. *)
Theorem X4_parse_op_reads_its_tokens :
  (forall (pre rest : list ascii) (op : Op),
      op <> ERR -> op <> SET ->
      let line := pre ++ op_token op ++ rest in
      let read := ((op, length pre + length (op_token op)), @nil diag) in
      Part000.parse_op line (length pre) = read /\
      (char_at line 0 <> "("%char -> Calc.parse_op line (length pre) = read)) /\
  (forall (pre rest : list ascii) (c : ascii),
      isdigit c = true ->
      let line := pre ++ c :: rest in
      Part000.parse_op line (length pre) = ((SET, length pre), []) /\
      (char_at line 0 <> "("%char ->
       Calc.parse_op line (length pre) = ((SET, length pre), []))) /\
  (forall (inner rest : list ascii) (i : nat),
      forallb bracket_inner_char inner = true ->
      Calc.parse_op ("("%char :: inner ++ ")"%char :: rest) i
      = Part000.parse_op (inner ++ rest) i) /\
  (forall (junk rest : list ascii) (op : Op),
      op <> ERR -> op <> SET ->
      forallb bracket_inner_char junk = true ->
      Calc.parse_op ("("%char :: (op_token op ++ junk) ++ ")"%char :: rest) 0
      = ((op, length (op_token op)), [])).
Proof.
  assert (Hplain : forall line i,
             char_at line 0 <> "("%char ->
             Calc.parse_op line i = parse_op_at line i).
  { intros line i H0. unfold Calc.parse_op.
    rewrite Calc_delete_brackets_plain; [reflexivity|].
    destruct (char_at line 0 =? "(")%char eqn:E; [|reflexivity].
    apply Ascii.eqb_eq in E. contradiction. }
  split; [|split; [|split]].
  - intros pre rest op He Hs line read. unfold Part000.parse_op.
    split; [|intros H0; rewrite (Hplain _ _ H0)];
      apply parse_op_at_token; assumption.
  - intros pre rest c Hd line. unfold Part000.parse_op.
    split; [|intros H0; rewrite (Hplain _ _ H0)];
      apply parse_op_at_digit; assumption.
  - intros inner rest i Hin. unfold Calc.parse_op, Part000.parse_op.
    rewrite (Calc_delete_brackets_pair inner rest Hin). reflexivity.
  - intros junk rest op He Hs Hj. unfold Calc.parse_op.
    rewrite Calc_delete_brackets_pair
      by (rewrite forallb_app, op_token_inner; exact Hj).
    rewrite <- app_assoc.
    apply (parse_op_at_token [] (junk ++ rest) He Hs).
Qed.

Lemma X4_witness :
  SQRT <> ERR /\ SQRT <> SET /\
  Part000.parse_op (str "ab" ++ op_token SQRT ++ str " 9") 2
  = ((SQRT, 6), []) /\
  Calc.parse_op (str "ab" ++ op_token SQRT ++ str " 9") 2 = ((SQRT, 6), []).
Proof.
  assert (He : SQRT <> ERR) by discriminate.
  assert (Hs : SQRT <> SET) by discriminate.
  split; [exact He|]. split; [exact Hs|].
  destruct (proj1 X4_parse_op_reads_its_tokens (str "ab") (str " 9") SQRT
                  He Hs) as [P C].
  split; [exact P|]. apply C. discriminate.
Defined.

Lemma Part000_skip_brackets_loop_inner inner : forall pre c rest n,
  forallb (fun c => negb (c =? ")")%char) inner = true ->
  length inner + 1 <= n ->
  Part000.skip_brackets_loop n (pre ++ c :: inner ++ ")"%char :: rest)
                             (length pre)
  = length pre + length inner + 2.
Proof.
  induction inner as [|d inner IH]; intros pre c rest n H Hn.
  - destruct n as [|n]; [simpl in Hn; lia|].
    cbn [Part000.skip_brackets_loop].
    replace (S (length pre)) with (length pre + 1) by lia.
    rewrite char_at_app. simpl. lia.
  - destruct n as [|n]; [simpl in Hn; lia|].
    cbn [Part000.skip_brackets_loop].
    replace (S (length pre)) with (length pre + 1) at 1 by lia.
    rewrite char_at_app.
    simpl in H. apply andb_true_iff in H. destruct H as [Hd H].
    apply negb_true_iff in Hd.
    change (char_at (c :: (d :: inner) ++ ")"%char :: rest) 1) with d.
    rewrite Hd.
    replace (pre ++ c :: (d :: inner) ++ ")"%char :: rest)
      with ((pre ++ [c]) ++ d :: inner ++ ")"%char :: rest)
      by (rewrite <- app_assoc; reflexivity).
    replace (S (length pre)) with (length (pre ++ [c]))
      by (rewrite length_app; simpl; lia).
    rewrite IH; [|exact H | simpl in Hn; lia].
    rewrite length_app. simpl. lia.
Qed.

Lemma Calc_skip_brackets_pair inner rest i :
  forallb (fun c => negb (c =? ")")%char) inner = true ->
  i <= S (length inner) ->
  Calc.skip_brackets ("("%char :: inner ++ ")"%char :: rest) i
  = length inner + 2.
Proof.
  intros H Hi. set (line := "("%char :: inner ++ ")"%char :: rest).
  unfold Calc.skip_brackets.
  change (char_at line 0) with "("%char. rewrite Ascii.eqb_refl.
  pose proof (firstn_skipn i ("("%char :: inner)) as Hsplit.
  assert (Hlen : length (firstn i ("("%char :: inner)) = i)
    by (rewrite length_firstn; simpl; lia).
  assert (Hrest : forallb (fun c => negb (c =? ")")%char)
                          (skipn i ("("%char :: inner)) = true).
  { assert (Hall : forallb (fun c => negb (c =? ")")%char)
                           ("("%char :: inner) = true)
      by (simpl; exact H).
    rewrite <- Hsplit in Hall. rewrite forallb_app in Hall.
    apply andb_true_iff in Hall. tauto. }
  replace (skipn i line)
    with (skipn i ("("%char :: inner) ++ ")"%char :: rest).
  2:{ unfold line.
      change ("("%char :: inner ++ ")"%char :: rest)
        with (("("%char :: inner) ++ ")"%char :: rest).
      rewrite skipn_app.
      replace (i - length ("("%char :: inner)) with 0 by (simpl; lia).
      reflexivity. }
  rewrite skip_brackets_scan_inner by exact Hrest.
  cbn [Calc.skip_brackets_scan]. rewrite Ascii.eqb_refl.
  rewrite length_skipn. simpl length. lia.
Qed.

Lemma Calc_skip_brackets_from pre inner rest :
  char_at (pre ++ inner ++ ")"%char :: rest) 0 = "("%char ->
  forallb (fun c => negb (c =? ")")%char) inner = true ->
  Calc.skip_brackets (pre ++ inner ++ ")"%char :: rest) (length pre)
  = length pre + length inner + 1.
Proof.
  intros H0 H. unfold Calc.skip_brackets. rewrite H0, Ascii.eqb_refl.
  rewrite skipn_app_exact, skip_brackets_scan_inner by exact H.
  cbn [Calc.skip_brackets_scan]. rewrite Ascii.eqb_refl. lia.
Qed.

(** X7.  Where the bracket skippers stop.  In [src/calc.cpp], on a line
    that starts with the opening bracket, [skip_brackets] returns the
    position just after the first closing bracket at or after its cursor:
    started at or before the first closing bracket of the line, the
    position just after that bracket, so that the characters from there
    on are what follows the bracket pair; started further on, the
    position after a later closing bracket.  On a line without the
    opening bracket at its start, or with no closing bracket from the
    cursor on, it returns the cursor it was given.  The
    [skip_brackets] of the second variant, started at 0, never looks at
    the first character and returns the position just after the first
    closing bracket behind it, or the end of the line when there is
    none. *)
Theorem X7_skip_brackets :
  (forall (inner rest : list ascii) (i : nat),
      forallb (fun c => negb (c =? ")")%char) inner = true ->
      i <= S (length inner) ->
      let line := "("%char :: inner ++ ")"%char :: rest in
      Calc.skip_brackets line i = length inner + 2 /\
      skipn (Calc.skip_brackets line i) line = rest) /\
  (forall pre inner rest : list ascii,
      forallb (fun c => negb (c =? ")")%char) inner = true ->
      let line := pre ++ inner ++ ")"%char :: rest in
      char_at line 0 = "("%char ->
      Calc.skip_brackets line (length pre) = length pre + length inner + 1 /\
      skipn (Calc.skip_brackets line (length pre)) line = rest) /\
  (forall (line : list ascii) (i : nat),
      char_at line 0 <> "("%char \/
      forallb (fun c => negb (c =? ")")%char) (skipn i line) = true ->
      Calc.skip_brackets line i = i) /\
  (forall (c : ascii) (inner rest : list ascii),
      forallb (fun c => negb (c =? ")")%char) inner = true ->
      let line := c :: inner ++ ")"%char :: rest in
      Part000.skip_brackets line 0 = length inner + 2 /\
      skipn (Part000.skip_brackets line 0) line = rest) /\
  (forall (c : ascii) (inner : list ascii),
      forallb (fun c => negb (c =? ")")%char) inner = true ->
      Part000.skip_brackets (c :: inner) 0 = size (c :: inner)).
Proof.
  split; [|split; [|split; [|split]]].
  2:{ intros pre inner rest H line H0.
      assert (E : Calc.skip_brackets line (length pre)
                  = length pre + length inner + 1)
        by (apply Calc_skip_brackets_from; assumption).
      split; [exact E|]. rewrite E. unfold line.
      replace (length pre + length inner + 1)
        with (length ((pre ++ inner) ++ [")"%char]))
        by (rewrite !length_app; simpl; lia).
      replace (pre ++ inner ++ ")"%char :: rest)
        with (((pre ++ inner) ++ [")"%char]) ++ rest)
        by (rewrite <- !app_assoc; reflexivity).
      apply skipn_app_exact. }
  - intros inner rest i H Hi line.
    assert (E : Calc.skip_brackets line i = length inner + 2)
      by (apply Calc_skip_brackets_pair; assumption).
    split; [exact E|]. rewrite E. unfold line.
    replace (length inner + 2)
      with (length (("("%char :: inner) ++ [")"%char]))
      by (rewrite length_app; simpl; lia).
    replace ("("%char :: inner ++ ")"%char :: rest)
      with ((("("%char :: inner) ++ [")"%char]) ++ rest)
      by (rewrite <- app_assoc; reflexivity).
    apply skipn_app_exact.
  - intros line i [H | H]; unfold Calc.skip_brackets.
    + destruct (char_at line 0 =? "(")%char eqn:E; [|reflexivity].
      apply Ascii.eqb_eq in E. contradiction.
    + destruct (char_at line 0 =? "(")%char; [|reflexivity].
      rewrite <- (app_nil_r (skipn i line)).
      rewrite skip_brackets_scan_inner by exact H. reflexivity.
  - intros c inner rest H line.
    assert (E : Part000.skip_brackets line 0 = length inner + 2).
    { unfold Part000.skip_brackets, line.
      apply (Part000_skip_brackets_loop_inner inner [] c rest); [exact H|].
      unfold size. simpl. rewrite length_app. simpl. lia. }
    split; [exact E|]. rewrite E. unfold line.
    replace (length inner + 2) with (length ((c :: inner) ++ [")"%char]))
      by (rewrite length_app; simpl; lia).
    replace (c :: inner ++ ")"%char :: rest)
      with (((c :: inner) ++ [")"%char]) ++ rest)
      by (rewrite <- app_assoc; reflexivity).
    apply skipn_app_exact.
  - intros c inner H. unfold Part000.skip_brackets, size.
    rewrite Nat.sub_0_r.
    assert (G : forall inner pre c n,
               forallb (fun c => negb (c =? ")")%char) inner = true ->
               n = S (length inner) ->
               Part000.skip_brackets_loop n (pre ++ c :: inner) (length pre)
               = length pre + S (length inner)).
    { clear. induction inner as [|d inner IH]; intros pre c n H ->.
      - cbn [length Part000.skip_brackets_loop].
        replace (S (length pre)) with (length pre + 1) by lia.
        rewrite char_at_app. simpl. lia.
      - cbn [Part000.skip_brackets_loop].
        replace (S (length pre)) with (length pre + 1) at 1 by lia.
        rewrite char_at_app.
        simpl in H. apply andb_true_iff in H. destruct H as [Hd H].
        apply negb_true_iff in Hd.
        change (char_at (c :: d :: inner) 1) with d. rewrite Hd.
        replace (pre ++ c :: d :: inner) with ((pre ++ [c]) ++ d :: inner)
          by (rewrite <- app_assoc; reflexivity).
        replace (S (length pre)) with (length (pre ++ [c]))
          by (rewrite length_app; simpl; lia).
        rewrite (IH (pre ++ [c]) d (length (d :: inner)) H eq_refl).
        rewrite length_app. simpl. lia. }
    apply (G inner [] c (length (c :: inner)) H eq_refl).
Qed.

Lemma X7_witness :
  forallb (fun c => negb (c =? ")")%char) (str "+1") = true /\
  1 <= S (length (str "+1")) /\
  Calc.skip_brackets (str "(+1) 2 3") 1 = 4 /\
  skipn (Calc.skip_brackets (str "(+1) 2 3") 1) (str "(+1) 2 3") = str " 2 3" /\
  Calc.skip_brackets (str "(a)b)c") 3 = 5.
Proof.
  assert (H : forallb (fun c => negb (c =? ")")%char) (str "+1") = true)
    by reflexivity.
  assert (Hi : 1 <= S (length (str "+1"))) by (simpl; lia).
  split; [exact H|]. split; [exact Hi|].
  destruct (proj1 X7_skip_brackets (str "+1") (str " 2 3") 1 H Hi) as [A B].
  split; [exact A|]. split; [exact B|].
  exact (proj1 (proj1 (proj2 X7_skip_brackets) (str "(a)") (str "b") (str "c")
                      eq_refl eq_refl)).
Defined.

(** * More of the code: what stands between the brackets *)


Section BracketText.
Context {libm : Libm}.

(** In the fold branch the loop uses neither the line nor the cursor. *)
Lemma Calc_fold_numbers_fold_branch op current line line' tokens :
  Calc.is_fold line = true -> Calc.is_fold line' = true ->
  forall res i i' good,
    Calc.fold_numbers op current line tokens res i good =
    Calc.fold_numbers op current line' tokens res i' good.
Proof.
  intros Hf Hf'. induction tokens as [|t ts IH]; intros res i i' good.
  - reflexivity.
  - cbn [Calc.fold_numbers]. rewrite Hf, Hf'.
    destruct (Op_eqb op SET); [reflexivity|].
    destruct (Calc.parse_arg t 0 good) as [[[v j] g] d].
    unfold bind. cbv beta iota zeta.
    destruct (Calc.binary op res v g) as [[res' g'] d2].
    destruct (negb g'); [reflexivity|].
    rewrite (IH res' j j g'). reflexivity.
Qed.

Lemma Calc_is_fold_pair inner rest :
  Calc.is_fold ("("%char :: inner ++ ")"%char :: rest) = true.
Proof.
  unfold Calc.is_fold.
  change (char_at ("("%char :: inner ++ ")"%char :: rest) 0) with "("%char.
  rewrite Ascii.eqb_refl. apply existsb_exists.
  exists ")"%char. split; [|reflexivity].
  right. apply in_or_app. right. left. reflexivity.
Qed.


End BracketText.


(** * More of the code: the tokenizer *)

Lemma words_shape s : Forall token_shape (words s).
Proof.
  induction s as [|c s IH]; [constructor|].
  cbn [words]. destruct (isspace c) eqn:Hc; [exact IH|].
  assert (H1 : token_shape [c]).
  { split; [discriminate|]. simpl. rewrite Hc. reflexivity. }
  destruct s as [|d s']; [constructor; [exact H1 | constructor]|].
  destruct (isspace d); [constructor; [exact H1 | exact IH]|].
  destruct (words (d :: s')) as [|w ws];
    [constructor; [exact H1 | constructor]|].
  inversion IH as [|? ? [Hw1 Hw2] Hws]; subst.
  constructor; [|exact Hws].
  split; [discriminate|]. simpl. rewrite Hc. exact Hw2.
Qed.

Lemma words_concat s :
  concat (words s) = filter (fun c => negb (isspace c)) s.
Proof.
  induction s as [|c s IH]; [reflexivity|].
  cbn [words filter]. destruct (isspace c) eqn:Hc; simpl negb; cbv iota;
    [exact IH|].
  destruct s as [|d s']; [reflexivity|].
  destruct (isspace d) eqn:Hd.
  - cbn [concat app]. rewrite IH. reflexivity.
  - destruct (words (d :: s')) as [|w ws].
    + rewrite <- IH. reflexivity.
    + rewrite <- IH. reflexivity.
Qed.

Lemma words_starts_token s :
  s <> [] -> starts_with (fun c => negb (isspace c)) s -> words s <> [].
Proof. intros H1 H2. rewrite (words_token H1 H2). discriminate. Qed.

Lemma words_app_space a : forall sp b,
  isspace sp = true -> words (a ++ sp :: b) = words a ++ words b.
Proof.
  induction a as [|c a IH]; intros sp b Hsp.
  - simpl. rewrite Hsp. reflexivity.
  - destruct a as [|d a'].
    + simpl. rewrite Hsp. destruct (isspace c); reflexivity.
    + specialize (IH sp b Hsp).
      change ((c :: d :: a') ++ sp :: b) with (c :: d :: (a' ++ sp :: b)).
      change ((d :: a') ++ sp :: b) with (d :: (a' ++ sp :: b)) in IH.
      cbn [words] in *.
      destruct (isspace c) eqn:Hc; [exact IH|].
      destruct (isspace d) eqn:Hd.
      * rewrite IH. reflexivity.
      * cbn [words] in IH. rewrite IH.
        assert (Hne : words (d :: a') <> []).
        { apply words_starts_token; [discriminate|]. simpl. rewrite Hd.
          reflexivity. }
        cbn [words] in Hne. rewrite Hd in Hne.
        destruct a' as [|e a''].
        -- reflexivity.
        -- destruct (isspace e); [reflexivity|].
           destruct (words (e :: a'')) as [|w ws]; reflexivity.
Qed.

Lemma words_one t : token_shape t -> words t = [t].
Proof.
  intros [Hne Hns]. apply (words_single [] eq_refl Hne Hns).
Qed.

Lemma words_join tokens :
  Forall token_shape tokens -> words (join_tokens tokens) = tokens.
Proof.
  induction 1 as [|t ts Ht Hts IH]; [reflexivity|].
  destruct ts as [|t' ts'].
  - simpl. apply words_one. exact Ht.
  - change (join_tokens (t :: t' :: ts'))
      with (t ++ " "%char :: join_tokens (t' :: ts')).
    rewrite words_app_space by reflexivity.
    rewrite IH, (words_one Ht). reflexivity.
Qed.

(** X9.  The tokenizer of [src/calc.cpp] always ends, and its tokens are
    the pieces of the line from the cursor on that white space separates:
    none is empty, none holds white space, joined they give the
    characters that are no white space, in order.  The "no argument"
    diagnostic is logged exactly when there is no token.  Tokens written
    out with a space between them are read back as they were.  The
    [parse_number] of the second variant returns the length of the token
    that starts at the cursor. *)
Theorem X9_tokenizer :
  (forall (line : list ascii) (i : nat),
      exists tokens log,
        Calc.parse_number line i = Some (tokens, log) /\
        Forall token_shape tokens /\
        concat tokens = filter (fun c => negb (isspace c)) (skipn i line) /\
        (tokens = [] -> log = [NoArgumentBinary]) /\
        (tokens <> [] -> log = [])) /\
  (forall (pre : list ascii) (tokens : list (list ascii)),
      Forall token_shape tokens ->
      Calc.parse_number (pre ++ join_tokens tokens) (length pre)
      = Some (tokens, match tokens with
                      | [] => [NoArgumentBinary]
                      | _ => []
                      end)) /\
  (forall pre t rest : list ascii,
      token_shape t -> starts_with isspace rest ->
      Part000.parse_number (pre ++ t ++ rest) (length pre) = length t /\
      substr (pre ++ t ++ rest) (length pre)
             (Part000.parse_number (pre ++ t ++ rest) (length pre)) = t).
Proof.
  split; [|split].
  - intros line i. rewrite Calc_parse_number_words.
    pose proof (words_shape (skipn i line)) as Hs.
    pose proof (words_concat (skipn i line)) as Hc.
    destruct (words (skipn i line)) as [|t ts].
    + exists [], [NoArgumentBinary]. repeat split; auto. congruence.
    + exists (t :: ts), []. repeat split; auto. discriminate.
  - intros pre tokens H. rewrite Calc_parse_number_words.
    rewrite skipn_app_exact, (words_join H).
    destruct tokens; reflexivity.
  - intros pre t rest [Hne Hns] Hrest.
    unfold Part000.parse_number, parse_number_length, substr.
    rewrite skipn_app_exact.
    assert (E : number_length_from (t ++ rest) = length t).
    { clear Hne. induction t as [|c t IH]; simpl.
      - destruct rest as [|d rest]; [reflexivity|].
        simpl in Hrest. simpl. rewrite Hrest. reflexivity.
      - simpl in Hns. apply andb_true_iff in Hns. destruct Hns as [Hc Hns].
        apply negb_true_iff in Hc. rewrite Hc. rewrite IH by exact Hns.
        reflexivity. }
    rewrite E. split; [reflexivity | apply firstn_app_exact].
Qed.

Lemma X9_witness :
  Forall token_shape [str "1"; str "x"; str "3"] /\
  Calc.parse_number (str "(+) " ++ join_tokens [str "1"; str "x"; str "3"])
                    (length (str "(+) "))
  = Some ([str "1"; str "x"; str "3"], []).
Proof.
  assert (H : Forall token_shape [str "1"; str "x"; str "3"]).
  { repeat constructor; discriminate. }
  split; [exact H|].
  exact (proj1 (proj2 X9_tokenizer) (str "(+) ") _ H).
Defined.

(** * More of the code: the literal parser in place *)

Lemma ltb_shift a b k : (a + k <? k + b) = (a <? b).
Proof.
  destruct (a <? b) eqn:E.
  - apply Nat.ltb_lt in E. apply Nat.ltb_lt. lia.
  - apply Nat.ltb_ge in E. apply Nat.ltb_ge. lia.
Qed.

Lemma Calc_parse_arg_shift pre s good :
  let r := Calc.parse_arg s 0 good in
  Calc.parse_arg (pre ++ s) (length pre) good =
  (arg_value r, length pre + arg_cursor r, arg_good r,
   map (shift_diag (length pre)) (arg_log r)).
Proof.
  assert (Hsz : size (pre ++ s) = length pre + size s)
    by (unfold size; apply length_app).
  cbv zeta.
  unfold Calc.parse_arg. rewrite skipn_app_exact. simpl skipn.
  change (mk_arg 0 0 true 1 (length pre) good)
    with (mk_arg 0 0 true 1 (0 + length pre) good).
  rewrite (@parse_arg_loop_shift s (length pre) 0 0 true 1 0 good).
  cbv zeta. set (st := parse_arg_loop s (mk_arg 0 0 true 1 0 good)).
  simpl a_good. simpl a_i. simpl a_res. rewrite Hsz, ltb_shift.
  rewrite (Nat.add_comm (a_i st) (length pre)).
  destruct (a_good st); simpl negb; cbv iota;
    [destruct (a_i st <? size s)|]; reflexivity.
Qed.

Lemma Part000_parse_arg_shift pre s :
  let r := Part000.parse_arg s 0 in
  Part000.parse_arg (pre ++ s) (length pre) =
  (arg_value r, length pre + arg_cursor r, arg_good r,
   map (shift_diag (length pre)) (arg_log r)).
Proof.
  assert (Hsz : size (pre ++ s) = length pre + size s)
    by (unfold size; apply length_app).
  cbv zeta.
  unfold Part000.parse_arg. rewrite skipn_app_exact. simpl skipn.
  change (mk_arg 0 0 true 1 (length pre) true)
    with (mk_arg 0 0 true 1 (0 + length pre) true).
  rewrite (@parse_arg_loop_shift s (length pre) 0 0 true 1 0 true).
  cbv zeta. set (st := parse_arg_loop s (mk_arg 0 0 true 1 0 true)).
  simpl a_good. simpl a_i. simpl a_res. rewrite Hsz, ltb_shift.
  rewrite (Nat.add_comm (a_i st) (length pre)).
  destruct (a_good st); simpl negb; cbv iota;
    [destruct (a_i st <? size s)|]; reflexivity.
Qed.

(** X10.  [parse_arg] looks at nothing before its cursor: started in the
    middle of a line it returns the value and the flag it returns for the
    rest of the line taken alone, the cursor and the position in the
    diagnostic being counted from the start of the line.  So a token is
    read the same in place (plain lines) and cut out (fold lines). *)
Theorem X10_parse_arg_in_place :
  forall (pre s : list ascii) (good : bool),
    (let r := Calc.parse_arg s 0 good in
     Calc.parse_arg (pre ++ s) (length pre) good =
     (arg_value r, length pre + arg_cursor r, arg_good r,
      map (shift_diag (length pre)) (arg_log r))) /\
    (let r := Part000.parse_arg s 0 in
     Part000.parse_arg (pre ++ s) (length pre) =
     (arg_value r, length pre + arg_cursor r, arg_good r,
      map (shift_diag (length pre)) (arg_log r))).
Proof.
  intros pre s good. split;
    [apply Calc_parse_arg_shift | apply Part000_parse_arg_shift].
Qed.

(** * More of the code: past the tenth digit *)

Lemma parse_arg_loop_app p : forall st tail,
  reads_all p st ->
  parse_arg_loop (p ++ tail) st = parse_arg_loop tail (parse_arg_loop p st).
Proof.
  induction p as [|c p IH]; intros st tail H; [reflexivity|].
  apply reads_all_cons in H. destruct H as (Hg & Hc & _ & Hr).
  change ((c :: p) ++ tail) with (c :: (p ++ tail)).
  rewrite !parse_arg_loop_cons_live by assumption.
  apply IH. exact Hr.
Qed.

Lemma reads_all_count p st :
  reads_all p st -> a_count st <= max_decimal_digits ->
  a_count (parse_arg_loop p st) = a_count st + count_digits p.
Proof.
  intros [_ Hi] Hc.
  destruct (@parse_arg_loop_cursor p st Hc) as (k & K1 & K2 & K3 & _).
  assert (k = length p) by lia. subst k.
  rewrite firstn_all in K3. exact K3.
Qed.

Lemma parse_arg_loop_past_cap p tail :
  literal_shape p -> count_digits p = max_decimal_digits ->
  parse_arg_loop (p ++ tail) (mk_arg 0 0 true 1 0 true) = arg_final p.
Proof.
  intros Hl Hc. apply reads_all_literal_shape in Hl.
  rewrite (parse_arg_loop_app tail Hl). fold (arg_final p).
  apply parse_arg_loop_capped. unfold arg_final.
  rewrite (reads_all_count Hl); simpl; unfold max_decimal_digits in *; lia.
Qed.

Lemma Calc_parse_arg_past_cap p tail :
  literal_shape p -> count_digits p = max_decimal_digits -> tail <> [] ->
  Calc.parse_arg (p ++ tail) 0 true
  = (literal_value p, length p, false, [SuffixLeft]).
Proof.
  intros Hl Hc Ht. unfold Calc.parse_arg. simpl skipn.
  rewrite (parse_arg_loop_past_cap tail Hl Hc).
  apply arg_final_literal_shape in Hl. destruct Hl as [G I].
  rewrite G, I. simpl negb. cbv iota.
  replace (length p <? size (p ++ tail)) with true; [reflexivity|].
  symmetry. apply Nat.ltb_lt. unfold size. rewrite length_app.
  destruct tail; [congruence | simpl; lia].
Qed.

Lemma Part000_parse_arg_past_cap p tail :
  literal_shape p -> count_digits p = max_decimal_digits -> tail <> [] ->
  Part000.parse_arg (p ++ tail) 0
  = (literal_value p, length p, true, [SuffixLeft]).
Proof.
  intros Hl Hc Ht. unfold Part000.parse_arg. simpl skipn.
  rewrite (parse_arg_loop_past_cap tail Hl Hc).
  apply arg_final_literal_shape in Hl. destruct Hl as [G I].
  rewrite G, I. simpl negb. cbv iota.
  replace (length p <? size (p ++ tail)) with true; [reflexivity|].
  symmetry. apply Nat.ltb_lt. unfold size. rewrite length_app.
  destruct tail; [congruence | simpl; lia].
Qed.

(** X11.  After the tenth digit [parse_arg] reads nothing more: a string
    that goes on after a literal of ten digits gives the value of that
    literal, the cursor after it and the "suffix left" diagnostic,
    whatever the rest is.  [src/calc.cpp] clears [good] there and the
    second variant leaves it set; so on a fold line with such a token
    [src/calc.cpp] gives the accumulator back while the [left_fold] of
    the second variant folds the first ten digits in. *)
Theorem X11_past_the_tenth_digit :
  (forall p tail : list ascii,
      literal_shape p -> count_digits p = max_decimal_digits -> tail <> [] ->
      Calc.parse_arg (p ++ tail) 0 true
      = (literal_value p, length p, false, [SuffixLeft]) /\
      Part000.parse_arg (p ++ tail) 0
      = (literal_value p, length p, true, [SuffixLeft])) /\
  (forall (libm : Libm) (current : float) (opc : ascii) (op : Op)
          (p tail : list ascii),
      fold_op_of_char opc = Some op ->
      literal_shape p -> count_digits p = max_decimal_digits ->
      token_shape tail ->
      step_ok op (literal_value p) = true ->
      Calc.process_line current (fold_line opc (" "%char :: p ++ tail))
      = Some (current, [SuffixLeft]) /\
      Part000.process_line current (fold_line opc (" "%char :: p ++ tail))
      = Some (binop op current (literal_value p), [SuffixLeft])).
Proof.
  split.
  - intros p tail Hl Hc Ht. split;
      [apply Calc_parse_arg_past_cap | apply Part000_parse_arg_past_cap];
      assumption.
  - intros libm current opc op p tail Hop Hl Hc [Hne Hns] Hok.
    assert (Hw : words (" "%char :: p ++ tail) = [p ++ tail]).
    { apply (words_single [" "%char] (s := p ++ tail)); [reflexivity| |].
      - destruct p; [destruct tail; [congruence | discriminate] | discriminate].
      - rewrite forallb_app, Hns, andb_true_r.
        apply literal_has_no_space. apply Hl. }
    split.
    + rewrite (Calc_process_fold_line opc _ current Hop), Hw.
      cbn [Calc.fold_numbers].
      rewrite (Calc_is_fold_fold_line opc _ Hop).
      destruct (fold_op_binary opc Hop) as [_ ->].
      rewrite (Calc_parse_arg_past_cap Hl Hc Hne).
      unfold bind at 1. cbv beta iota zeta.
      rewrite (Calc_binary_ok _ _ _ _ Hok). reflexivity.
    + rewrite (Part000_process_fold_line opc _ current Hop), Hw.
      cbn [left_fold_tokens].
      rewrite (Part000_parse_arg_past_cap Hl Hc Hne). simpl negb. cbv iota.
      rewrite (Part000_binary_ok _ _ _ Hok). reflexivity.
Qed.

Lemma X11_witness :
  literal_shape (str "1234567890") /\
  count_digits (str "1234567890") = max_decimal_digits /\
  str "xyz" <> [] /\
  Calc.parse_arg (str "1234567890xyz") 0 true
  = (1234567890%float, 10, false, [SuffixLeft]) /\
  Part000.parse_arg (str "1234567890xyz") 0
  = (1234567890%float, 10, true, [SuffixLeft]).
Proof.
  assert (Hl : literal_shape (str "1234567890")).
  { split; [reflexivity|]. right. split; reflexivity. }
  assert (Hc : count_digits (str "1234567890") = max_decimal_digits)
    by reflexivity.
  assert (Ht : str "xyz" <> []) by discriminate.
  split; [exact Hl|]. split; [exact Hc|]. split; [exact Ht|].
  exact (proj1 X11_past_the_tenth_digit (str "1234567890") (str "xyz")
               Hl Hc Ht).
Defined.

(** * More of the code: plain lines with a binary operation, in full *)

Lemma reads_literal_iff s : reads_literal s = true <-> literal_shape s.
Proof.
  unfold reads_literal. rewrite andb_true_iff, Nat.eqb_eq.
  symmetry. apply arg_final_literal_shape.
Qed.

Lemma line_split_at (line : list ascii) i :
  i <= length line ->
  line = firstn i line ++ skipn i line /\ length (firstn i line) = i.
Proof.
  intros H. split; [symmetry; apply firstn_skipn|].
  rewrite length_firstn. lia.
Qed.

Lemma arg_after_ws s :
  let arg := skipn (ws_prefix s) s in
  words s = words arg /\ (words arg = [] -> arg = []).
Proof.
  cbv zeta. split; [symmetry; apply words_skip_ws|].
  intros H. destruct (skipn (ws_prefix s) s) as [|c r] eqn:E; [reflexivity|].
  exfalso. revert H. apply words_starts_token; [discriminate|].
  rewrite <- E. apply after_ws_starts_token.
Qed.

Lemma Calc_parse_arg_0 s :
  Calc.parse_arg s 0 true =
  (a_res (arg_final s), a_i (arg_final s), reads_literal s,
   arg_log (Calc.parse_arg s 0 true)).
Proof.
  pose proof (arg_final_cursor_le s) as Hle.
  unfold reads_literal, arg_log, Calc.parse_arg. simpl skipn.
  fold (arg_final s). unfold size.
  destruct (a_good (arg_final s)); simpl; [|reflexivity].
  destruct (a_i (arg_final s) <? length s) eqn:E; simpl.
  - apply Nat.ltb_lt in E.
    replace (a_i (arg_final s) =? length s) with false
      by (symmetry; apply Nat.eqb_neq; lia). reflexivity.
  - apply Nat.ltb_ge in E.
    replace (a_i (arg_final s) =? length s) with true
      by (symmetry; apply Nat.eqb_eq; lia). reflexivity.
Qed.

Lemma Part000_parse_arg_0 s :
  Part000.parse_arg s 0 =
  (a_res (arg_final s), a_i (arg_final s), a_good (arg_final s),
   arg_log (Part000.parse_arg s 0)).
Proof.
  unfold arg_log, Part000.parse_arg. simpl skipn. fold (arg_final s).
  destruct (a_good (arg_final s)); simpl; [|reflexivity].
  destruct (a_i (arg_final s) <? size s); reflexivity.
Qed.

Lemma arg_final_bad_inside s :
  a_good (arg_final s) = false -> a_i (arg_final s) < length s.
Proof.
  intros H.
  apply (parse_arg_loop_bad_inside s (mk_arg 0 0 true 1 0 true) eq_refl H).
Qed.

Section PlainBinary.
Context {libm : Libm}.

Lemma Calc_plain_binary_value current line op i d_op :
  (char_at line 0 =? "(")%char = false ->
  parse_op_at line 0 = ((op, i), d_op) ->
  arity op = 2 ->
  value_of (Calc.process_line current line) =
  Some (plain_binary_value op current (skipn (skip_ws line i) line)).
Proof.
  intros H0 Hop Har.
  assert (Hne : op <> ERR) by (intros ->; discriminate).
  destruct (parse_op_at_sound line 0 Hop) as (_ & Hs & _).
  destruct (Hs Hne) as (_ & _ & Hi & _). clear Hs.
  unfold Calc.process_line, Calc.parse_op.
  rewrite (Calc_delete_brackets_plain _ H0), Hop, Har.
  unfold Calc.skip_brackets. rewrite H0.
  rewrite Calc_parse_number_words.
  rewrite skip_ws_eq, skipn_add.
  set (s := skipn i line).
  destruct (arg_after_ws s) as [Hw Hnil]. cbv zeta in Hw, Hnil.
  set (arg := skipn (ws_prefix s) s) in *.
  rewrite Hw.
  destruct (words arg) as [|t ts] eqn:Ew.
  { rewrite (Hnil eq_refl). reflexivity. }
  cbv beta iota zeta. cbn [Calc.fold_numbers].
  unfold Calc.is_fold. rewrite H0.
  rewrite skip_ws_eq. fold s.
  assert (Hlen : length s = length line - i) by (subst s; apply length_skipn).
  pose proof (ws_prefix_le s) as Hws.
  destruct (@line_split_at line (i + ws_prefix s)) as [Hsplit Hpre]; [lia|].
  assert (Earg : skipn (i + ws_prefix s) line = arg)
    by (subst arg s; apply skipn_add).
  rewrite Earg in Hsplit.
  set (pre := firstn (i + ws_prefix s) line) in *.
  replace (Calc.parse_arg line (i + ws_prefix s) true)
    with (Calc.parse_arg (pre ++ arg) (length pre) true)
    by (rewrite <- Hsplit, Hpre; reflexivity).
  rewrite Calc_parse_arg_shift. cbv zeta.
  rewrite Calc_parse_arg_0.
  unfold arg_value, arg_cursor, arg_good. simpl fst. simpl snd.
  rewrite Hpre.
  unfold bind at 1. cbv beta iota zeta.
  assert (Hargne : arg <> []) by (intros E; rewrite E in Ew; discriminate).
  unfold plain_binary_value, literal_value.
  destruct arg as [|a0 arg'] eqn:Ea; [congruence|]. rewrite <- Ea in *.
  destruct (a_i (arg_final arg)) as [|j] eqn:Ej.
  { rewrite Nat.add_0_r, Nat.eqb_refl.
    unfold reads_literal. rewrite Ej.
    replace (0 =? length arg) with false
      by (rewrite Ea; reflexivity).
    rewrite andb_false_r. reflexivity. }
  replace (i + ws_prefix s + S j =? i + ws_prefix s) with false
    by (symmetry; apply Nat.eqb_neq; lia).
  destruct (reads_literal arg) eqn:Hr.
  - assert (Hl : literal_shape arg) by (apply reads_literal_iff; exact Hr).
    assert (Hone : words arg = [arg]).
    { apply words_one. split; [exact Hargne|].
      apply literal_has_no_space. apply Hl. }
    rewrite Hone in Ew. inversion Ew; subst t ts.
    destruct (step_ok op (a_res (arg_final arg))) eqn:Hok.
    + rewrite (Calc_binary_ok _ _ _ _ Hok). reflexivity.
    + rewrite (Calc_binary_fail _ _ _ _ Hok). reflexivity.
  - simpl andb. cbv iota.
    destruct (step_ok op (a_res (arg_final arg))) eqn:Hok.
    + rewrite (Calc_binary_ok _ _ _ _ Hok). reflexivity.
    + rewrite (Calc_binary_fail _ _ _ _ Hok). reflexivity.
Qed.

Lemma Part000_plain_binary_value current line op i d_op :
  (char_at line 0 =? "(")%char = false ->
  parse_op_at line 0 = ((op, i), d_op) ->
  arity op = 2 ->
  value_of (Part000.process_line current line) =
  Some (plain_binary_value op current (skipn (skip_ws line i) line)).
Proof.
  intros H0 Hop Har.
  assert (Hne : op <> ERR) by (intros ->; discriminate).
  destruct (parse_op_at_sound line 0 Hop) as (_ & Hs & _).
  destruct (Hs Hne) as (_ & _ & Hi & _). clear Hs.
  unfold Part000.process_line, Part000.fold_shape. rewrite H0. simpl andb.
  cbv iota. unfold Part000.plain_line, Part000.parse_op. rewrite Hop, Har.
  cbv beta iota zeta.
  rewrite skip_ws_eq.
  set (s := skipn i line).
  assert (Hlen : length s = length line - i) by (subst s; apply length_skipn).
  pose proof (ws_prefix_le s) as Hws.
  destruct (@line_split_at line (i + ws_prefix s)) as [Hsplit Hpre]; [lia|].
  set (arg := skipn (i + ws_prefix s) line) in *.
  set (pre := firstn (i + ws_prefix s) line) in *.
  replace (Part000.parse_arg line (i + ws_prefix s))
    with (Part000.parse_arg (pre ++ arg) (length pre))
    by (rewrite <- Hsplit, Hpre; reflexivity).
  rewrite Part000_parse_arg_shift. cbv zeta.
  rewrite Part000_parse_arg_0.
  unfold arg_value, arg_cursor, arg_good. simpl fst. simpl snd.
  rewrite Hpre.
  assert (Hsz : size line = i + ws_prefix s + length arg).
  { unfold size. rewrite Hsplit at 1. rewrite length_app, Hpre. reflexivity. }
  rewrite Hsz.
  pose proof (arg_final_cursor_le arg) as Hcur.
  unfold plain_binary_value, literal_value, reads_literal.
  destruct (a_i (arg_final arg)) as [|j] eqn:Ej.
  { rewrite Nat.add_0_r, Nat.eqb_refl.
    destruct arg as [|a0 arg']; [reflexivity|].
    replace (0 =? length (a0 :: arg')) with false by reflexivity.
    rewrite andb_false_r. reflexivity. }
  replace (i + ws_prefix s + S j =? i + ws_prefix s) with false
    by (symmetry; apply Nat.eqb_neq; lia).
  destruct arg as [|a0 arg'] eqn:Ea; [simpl in Hcur; lia|].
  rewrite <- Ea in *.
  destruct (S j =? length arg) eqn:Efull.
  - apply Nat.eqb_eq in Efull.
    replace (i + ws_prefix s + S j <? i + ws_prefix s + length arg)
      with false by (symmetry; apply Nat.ltb_ge; lia).
    destruct (a_good (arg_final arg)) eqn:G.
    + simpl andb.
      destruct (step_ok op (a_res (arg_final arg))) eqn:Hok.
      * rewrite (Part000_binary_ok _ _ _ Hok). reflexivity.
      * rewrite (Part000_binary_fail _ _ _ Hok). reflexivity.
    + pose proof (arg_final_bad_inside arg G). lia.
  - apply Nat.eqb_neq in Efull.
    replace (i + ws_prefix s + S j <? i + ws_prefix s + length arg)
      with true by (symmetry; apply Nat.ltb_lt; lia).
    rewrite andb_false_r. reflexivity.
Qed.

End PlainBinary.

(** X12.  A plain line with a binary operation, in full.  After one of
    the operators [+ - * / % ^], or from the start of a line that begins
    with a digit (Set), white space is skipped and the rest of the line
    must be one literal: then the operation is applied to the
    accumulator and the value of the literal, unless it divides by zero.
    In every other case (nothing left, a character that belongs to no
    literal, more than ten digits, white space or anything else after
    the literal) the accumulator comes back unchanged.  Both variants
    return the same value. *)
Theorem X12_plain_binary_line_in_full :
  (forall (libm : Libm) (current : float) (opc : ascii) (op : Op)
          (tail : list ascii),
      fold_op_of_char opc = Some op ->
      let arg := skipn (ws_prefix tail) tail in
      value_of (Calc.process_line current (opc :: tail))
      = Some (plain_binary_value op current arg) /\
      value_of (Part000.process_line current (opc :: tail))
      = Some (plain_binary_value op current arg) /\
      (arg = [] \/ ~ literal_shape arg ->
       plain_binary_value op current arg = current) /\
      (arg <> [] -> literal_shape arg ->
       plain_binary_value op current arg
       = if step_ok op (literal_value arg)
         then binop op current (literal_value arg)
         else current)) /\
  (forall (libm : Libm) (current : float) (line : list ascii),
      isdigit (char_at line 0) = true ->
      value_of (Calc.process_line current line)
      = Some (plain_binary_value SET current line) /\
      value_of (Part000.process_line current line)
      = Some (plain_binary_value SET current line) /\
      (~ literal_shape line ->
       plain_binary_value SET current line = current) /\
      (literal_shape line ->
       plain_binary_value SET current line = literal_value line)).
Proof.
  assert (Hread : forall (libm : Libm) op current arg,
             arg <> [] -> literal_shape arg ->
             plain_binary_value op current arg
             = if step_ok op (literal_value arg)
               then binop op current (literal_value arg)
               else current).
  { intros libm op current arg Hne H.
    unfold plain_binary_value. destruct arg; [congruence|].
    apply reads_literal_iff in H. rewrite H. reflexivity. }
  assert (Hrefuse : forall (libm : Libm) op current arg,
             arg = [] \/ ~ literal_shape arg ->
             plain_binary_value op current arg = current).
  { intros libm op current arg [-> | H]; [reflexivity|].
    unfold plain_binary_value. destruct arg; [reflexivity|].
    destruct (reads_literal (a :: arg)) eqn:E; [|reflexivity].
    apply reads_literal_iff in E. contradiction. }
  split.
  - intros libm current opc op tail Hop arg.
    assert (H0 : (char_at (opc :: tail) 0 =? "(")%char = false)
      by (fold_ops Hop; reflexivity).
    assert (Hp : parse_op_at (opc :: tail) 0 = ((op, 1), []))
      by (fold_ops Hop; reflexivity).
    assert (Ha : arity op = 2) by apply (fold_op_binary opc Hop).
    assert (Earg : skipn (skip_ws (opc :: tail) 1) (opc :: tail) = arg).
    { rewrite skip_ws_eq, skipn_add. reflexivity. }
    rewrite (Calc_plain_binary_value current (opc :: tail) H0 Hp Ha).
    rewrite (Part000_plain_binary_value current (opc :: tail) H0 Hp Ha).
    rewrite Earg. repeat split; [apply Hrefuse | apply Hread].
  - intros libm current line Hd.
    assert (H0 : (char_at line 0 =? "(")%char = false).
    { destruct (char_at line 0 =? "(")%char eqn:E; [|reflexivity].
      apply Ascii.eqb_eq in E. rewrite E in Hd. vm_compute in Hd.
      discriminate. }
    assert (Hp : parse_op_at line 0 = ((SET, 0), []))
      by (unfold parse_op_at; rewrite Hd; reflexivity).
    assert (Earg : skipn (skip_ws line 0) line = line).
    { rewrite skip_ws_eq. simpl skipn.
      destruct line as [|c line]; [reflexivity|].
      change (char_at (c :: line) 0) with c in Hd. simpl ws_prefix.
      rewrite (isdigit_not_space c Hd). reflexivity. }
    rewrite (Calc_plain_binary_value current line H0 Hp eq_refl).
    rewrite (Part000_plain_binary_value current line H0 Hp eq_refl).
    rewrite Earg. repeat split.
    + intros H. apply Hrefuse. right. exact H.
    + intros H. rewrite (Hread libm SET current line); [reflexivity| |exact H].
      intros ->. vm_compute in Hd. discriminate.
Qed.

Lemma X12_witness :
  fold_op_of_char "+" = Some ADD /\
  value_of (@Calc.process_line sample_libm 2 (str "+ 1 ")) = Some 2%float /\
  value_of (@Part000.process_line sample_libm 2 (str "+ 1 ")) = Some 2%float.
Proof.
  assert (Hop : fold_op_of_char "+" = Some ADD) by reflexivity.
  split; [exact Hop|].
  destruct (proj1 X12_plain_binary_line_in_full sample_libm 2%float
              "+"%char ADD (str " 1 ") Hop) as (C & P & _ & _).
  split; [exact C | exact P].
Defined.

(** X13.  On every line that does not start with the opening bracket the
    two variants return the same value (their diagnostics may differ). *)
Theorem X13_variants_agree_on_plain_lines :
  forall (libm : Libm) (current : float) (line : list ascii),
    char_at line 0 <> "("%char ->
    value_of (Calc.process_line current line)
    = value_of (Part000.process_line current line).
Proof.
  intros libm current line H.
  assert (H0 : (char_at line 0 =? "(")%char = false).
  { destruct (char_at line 0 =? "(")%char eqn:E; [|reflexivity].
    apply Ascii.eqb_eq in E. contradiction. }
  destruct (parse_op_at line 0) as [[op i] d_op] eqn:Hop.
  destruct (arity op) as [|[|[|n]]] eqn:Har.
  - unfold Calc.process_line, Calc.parse_op, Part000.process_line,
      Part000.fold_shape, Part000.plain_line, Part000.parse_op.
    rewrite (Calc_delete_brackets_plain _ H0), H0, Hop, Har. reflexivity.
  - unfold Calc.process_line, Calc.parse_op, Part000.process_line,
      Part000.fold_shape, Part000.plain_line, Part000.parse_op.
    rewrite (Calc_delete_brackets_plain _ H0), H0, Hop, Har. simpl andb.
    cbv iota. destruct (i <? size line); [reflexivity|].
    destruct (unary current op). reflexivity.
  - rewrite (Calc_plain_binary_value current line H0 Hop Har).
    rewrite (Part000_plain_binary_value current line H0 Hop Har).
    reflexivity.
  - destruct op; discriminate.
Qed.

Lemma X13_witness :
  char_at (str "/ 0x") 0 <> "("%char /\
  value_of (@Calc.process_line sample_libm 7 (str "/ 0x"))
  = value_of (@Part000.process_line sample_libm 7 (str "/ 0x")).
Proof.
  assert (H : char_at (str "/ 0x") 0 <> "("%char) by discriminate.
  split; [exact H|].
  exact (@X13_variants_agree_on_plain_lines sample_libm 7%float
           (str "/ 0x") H).
Defined.

(** * More of the code: the two variants on fold lines *)

Section FoldAgreement.
Context {libm : Libm}.

Lemma fold_loops_agree op old line tokens :
  Calc.is_fold line = true -> Op_eqb op SET = false ->
  Forall (fun t => leaves_suffix t = false) tokens ->
  forall res i log,
    fst (Calc.fold_numbers op old line tokens res i true)
    = fst (left_fold_tokens op old tokens res log).
Proof.
  intros Hf Hs Hall. induction Hall as [|t ts Ht _ IH]; intros res i log.
  - reflexivity.
  - cbn [Calc.fold_numbers left_fold_tokens]. rewrite Hf, Hs.
    rewrite Calc_parse_arg_0, Part000_parse_arg_0.
    unfold bind at 1. cbv beta iota zeta.
    unfold leaves_suffix in Ht. unfold reads_literal.
    pose proof (arg_final_cursor_le t) as Hle.
    destruct (a_good (arg_final t)) eqn:G; simpl andb in *; simpl negb;
      cbv iota.
    + apply Nat.ltb_ge in Ht.
      replace (a_i (arg_final t) =? length t) with true
        by (symmetry; apply Nat.eqb_eq; lia).
      destruct (step_ok op (a_res (arg_final t))) eqn:Hok.
      * rewrite (Calc_binary_ok _ _ _ _ Hok), (Part000_binary_ok _ _ _ Hok).
        unfold bind at 1. cbv beta iota zeta. simpl negb. cbv iota.
        destruct (Calc.fold_numbers op old line ts
                    (binop op res (a_res (arg_final t)))
                    (a_i (arg_final t)) true) as [r d] eqn:E.
        simpl fst. rewrite <- (IH _ (a_i (arg_final t)) _), E. reflexivity.
      * rewrite (Calc_binary_fail _ _ _ _ Hok),
          (Part000_binary_fail _ _ _ Hok). reflexivity.
    + destruct (step_ok op (a_res (arg_final t))) eqn:Hok.
      * rewrite (Calc_binary_ok _ _ _ _ Hok). reflexivity.
      * rewrite (Calc_binary_fail _ _ _ _ Hok). reflexivity.
Qed.

End FoldAgreement.

(** X14.  On a fold line [(op) rest] the two variants return the same
    value unless one of the tokens makes [parse_arg] stop at the cap of
    ten digits with characters left: that is the only way in which their
    folds differ. *)
Theorem X14_variants_agree_on_fold_lines :
  forall (libm : Libm) (current : float) (opc : ascii) (op : Op)
         (rest : list ascii),
    fold_op_of_char opc = Some op ->
    Forall (fun t => leaves_suffix t = false) (words rest) ->
    value_of (Calc.process_line current (fold_line opc rest))
    = value_of (Part000.process_line current (fold_line opc rest)).
Proof.
  intros libm current opc op rest Hop Hall.
  rewrite (Calc_process_fold_line opc rest current Hop).
  rewrite (Part000_process_fold_line opc rest current Hop).
  destruct (words rest) as [|t ts] eqn:Ew; [reflexivity|].
  pose proof (@fold_loops_agree libm op current (fold_line opc rest) (t :: ts)
                (Calc_is_fold_fold_line opc rest Hop)
                (proj2 (fold_op_binary opc Hop)) Hall current 3 []) as E.
  destruct (Calc.fold_numbers op current (fold_line opc rest) (t :: ts)
              current 3 true) as [r d].
  destruct (left_fold_tokens op current (t :: ts) current []) as [r' d'].
  simpl in E. subst r'. reflexivity.
Qed.

Lemma X14_witness :
  fold_op_of_char "/" = Some DIV /\
  Forall (fun t => leaves_suffix t = false) (words (str " 2 x 0")) /\
  value_of (@Calc.process_line sample_libm 8 (str "(/) 2 x 0"))
  = value_of (@Part000.process_line sample_libm 8 (str "(/) 2 x 0")).
Proof.
  assert (Hop : fold_op_of_char "/" = Some DIV) by reflexivity.
  assert (Hall : Forall (fun t => leaves_suffix t = false)
                        (words (str " 2 x 0"))).
  { vm_compute words. repeat constructor. }
  split; [exact Hop|]. split; [exact Hall|].
  exact (@X14_variants_agree_on_fold_lines sample_libm 8%float "/"%char DIV
           (str " 2 x 0") Hop Hall).
Defined.

(** * More of the code: a fold and its plain lines *)

Section FoldAsLines.
Context {libm : Libm}.

Lemma run_plain_lines (process : float -> list ascii -> option (W float))
  (opc : ascii) (op : Op) (tokens : list (list ascii)) :
  (forall a t, literal_shape t -> t <> [] ->
               step_ok op (literal_value t) = true ->
               process a (opc :: " "%char :: t)
               = Some (binop op a (literal_value t), [])) ->
  Forall (valid_token op) tokens -> Forall token_shape tokens ->
  forall current,
    run_lines process (map (fun t => opc :: " "%char :: t) tokens) current
    = Some (fold_left (fun acc t => binop op acc (literal_value t))
                      tokens current).
Proof.
  intros Hp Hv Hs. unfold run_lines.
  induction Hv as [|t ts [Hl Hok] _ IH]; intros current; [reflexivity|].
  inversion Hs as [|? ? [Hne _] Hs']; subst.
  cbn [map fold_left]. rewrite (Hp current t Hl Hne Hok).
  simpl value_of. apply (IH Hs').
Qed.

End FoldAsLines.

(** X15.  A fold line whose tokens are all literals that can be applied
    gives what its tokens give as plain lines, one after the other:
    [(op) t1 ... tn] from an accumulator is [op t1], then [op t2] on the
    result, and so on, in both variants. *)
Theorem X15_fold_line_is_its_plain_lines :
  forall (libm : Libm) (current : float) (opc : ascii) (op : Op)
         (rest : list ascii),
    fold_op_of_char opc = Some op ->
    Forall (valid_token op) (words rest) ->
    let lines := map (fun t => opc :: " "%char :: t) (words rest) in
    value_of (Calc.process_line current (fold_line opc rest))
    = run_lines Calc.process_line lines current /\
    value_of (Part000.process_line current (fold_line opc rest))
    = run_lines Part000.process_line lines current.
Proof.
  intros libm current opc op rest Hop Hv lines. subst lines.
  assert (H0 : forall t, (char_at ([opc] ++ [" "%char] ++ t) 0 =? "(")%char
                         = false)
    by (intros t; fold_ops Hop; reflexivity).
  assert (Hp : forall t, parse_op_at ([opc] ++ [" "%char] ++ t) 0
                         = ((op, length [opc]), []))
    by (intros t; fold_ops Hop; reflexivity).
  assert (Ha : arity op = 2) by apply (fold_op_binary opc Hop).
  split.
  - rewrite (@run_plain_lines libm Calc.process_line opc op (words rest));
      [| |exact Hv | apply words_shape].
    + rewrite (Calc_process_fold_line opc rest current Hop).
      destruct (words rest) as [|t ts] eqn:Ew; [reflexivity|].
      rewrite Calc_fold_numbers_valid;
        [reflexivity | apply (Calc_is_fold_fold_line opc rest Hop)
        | apply (fold_op_binary opc Hop) | exact Hv].
    + intros a t Hl Hne Hok.
      pose proof (@Calc_process_plain_line libm a [opc] [" "%char] t op
                    (H0 t) (Hp t) Ha eq_refl Hl Hne) as E.
      rewrite Hok in E. exact E.
  - rewrite (@run_plain_lines libm Part000.process_line opc op (words rest));
      [| |exact Hv | apply words_shape].
    + rewrite (Part000_process_fold_line opc rest current Hop).
      destruct (words rest) as [|t ts] eqn:Ew; [reflexivity|].
      rewrite (left_fold_tokens_valid current Hv). reflexivity.
    + intros a t Hl Hne Hok.
      pose proof (@Part000_process_plain_line libm a [opc] [" "%char] t op
                    (H0 t) (Hp t) Ha eq_refl Hl Hne) as E.
      rewrite Hok in E. exact E.
Qed.

Lemma X15_witness :
  fold_op_of_char "*" = Some MUL /\
  Forall (valid_token MUL) (words (str " 2  .5 10")) /\
  value_of (@Calc.process_line sample_libm 3 (str "(*) 2  .5 10"))
  = run_lines (@Calc.process_line sample_libm)
              [str "* 2"; str "* .5"; str "* 10"] 3.
Proof.
  assert (Hop : fold_op_of_char "*" = Some MUL) by reflexivity.
  assert (Hv : Forall (valid_token MUL) (words (str " 2  .5 10"))).
  { vm_compute words.
    repeat constructor; vm_compute; auto; unfold Peano.lt; repeat constructor. }
  split; [exact Hop|]. split; [exact Hv|].
  exact (proj1 (@X15_fold_line_is_its_plain_lines sample_libm 3%float
                  "*"%char MUL (str " 2  .5 10") Hop Hv)).
Defined.

(** * More of the code: nothing after the operator *)

Lemma ws_prefix_only_ws ws :
  forallb isspace ws = true -> ws_prefix ws = length ws.
Proof.
  intros H. rewrite <- (app_nil_r ws) at 1.
  apply ws_prefix_all_ws; [exact H | exact I].
Qed.

Lemma words_only_ws ws : forallb isspace ws = true -> words ws = [].
Proof. intros H. apply words_nil_iff. apply ws_prefix_only_ws. exact H. Qed.

(** X16.  An operator with nothing but white space after it has no
    argument: the plain line [op] and the fold line [(op)], with any
    white space behind, give the accumulator back, the plain line with
    the "no argument for a binary operation" diagnostic in both
    variants, the fold line with the same diagnostic in [src/calc.cpp]
    and with "no arguments" in the second variant. *)
Theorem X16_no_argument :
  forall (libm : Libm) (current : float) (opc : ascii) (op : Op)
         (ws : list ascii),
    fold_op_of_char opc = Some op -> forallb isspace ws = true ->
    Calc.process_line current (opc :: ws)
    = Some (current, [NoArgumentBinary]) /\
    Part000.process_line current (opc :: ws)
    = Some (current, [NoArgumentBinary]) /\
    Calc.process_line current (fold_line opc ws)
    = Some (current, [NoArgumentBinary]) /\
    Part000.process_line current (fold_line opc ws)
    = Some (current, [NoArguments]).
Proof.
  intros libm current opc op ws Hop Hws.
  pose proof (words_only_ws ws Hws) as Hw.
  pose proof (ws_prefix_only_ws ws Hws) as Hp.
  assert (H0 : (char_at (opc :: ws) 0 =? "(")%char = false)
    by (fold_ops Hop; reflexivity).
  assert (Hpo : parse_op_at (opc :: ws) 0 = ((op, 1), []))
    by (fold_ops Hop; reflexivity).
  destruct (fold_op_binary opc Hop) as [Ha _].
  split; [|split; [|split]].
  - unfold Calc.process_line, Calc.parse_op.
    rewrite (Calc_delete_brackets_plain _ H0), Hpo, Ha.
    unfold Calc.skip_brackets. rewrite H0.
    rewrite Calc_parse_number_words. simpl skipn. rewrite Hw. reflexivity.
  - unfold Part000.process_line, Part000.fold_shape. rewrite H0. simpl andb.
    cbv iota. unfold Part000.plain_line, Part000.parse_op. rewrite Hpo, Ha.
    cbv beta iota zeta. rewrite skip_ws_eq. simpl skipn. rewrite Hp.
    unfold Part000.parse_arg.
    replace (skipn (1 + length ws) (opc :: ws)) with (@nil ascii)
      by (symmetry; apply skipn_all2; simpl; lia).
    cbn [parse_arg_loop a_good a_i a_res negb].
    unfold size. cbn [length].
    rewrite Nat.ltb_irrefl. cbn. rewrite Nat.eqb_refl. reflexivity.
  - rewrite (Calc_process_fold_line opc ws current Hop), Hw. reflexivity.
  - rewrite (Part000_process_fold_line opc ws current Hop), Hw. reflexivity.
Qed.

Lemma X16_witness :
  fold_op_of_char "-" = Some SUB /\
  forallb isspace (str "  ") = true /\
  @Calc.process_line sample_libm 3 (str "-  ")
  = Some (3%float, [NoArgumentBinary]) /\
  @Part000.process_line sample_libm 3 (str "(-)  ")
  = Some (3%float, [NoArguments]).
Proof.
  assert (Hop : fold_op_of_char "-" = Some SUB) by reflexivity.
  assert (Hws : forallb isspace (str "  ") = true) by reflexivity.
  split; [exact Hop|]. split; [exact Hws|].
  destruct (@X16_no_argument sample_libm 3%float "-"%char SUB (str "  ")
              Hop Hws) as (C & _ & _ & P).
  split; [exact C | exact P].
Defined.

(** * More of the code: what a bracket never does *)

Lemma parse_op_at_without_fold_op s op i d :
  parse_op_at s 0 = ((op, i), d) ->
  fold_op_of_char (char_at s 0) = None ->
  arity op <> 2 \/ op = SET.
Proof.
  unfold parse_op_at, fold_op_of_char, rollback.
  destruct (isdigit (char_at s 0));
    [intros E _; inversion E; auto|].
  repeat match goal with
         | |- context [(char_at s 0 =? ?x)%char] =>
             destruct (char_at s 0 =? x)%char
         end;
    intros E Hn; try discriminate; inversion E; subst;
    try (left; discriminate);
    repeat match goal with
           | H : context [if ?b then _ else _] |- _ => destruct b
           end;
    inversion E; subst; left; discriminate.
Qed.

Section BracketNever.
Context {libm : Libm}.

Lemma Calc_bracket_not_binary current inner rest op i d :
  forallb bracket_inner_char inner = true ->
  parse_op_at (inner ++ rest) 0 = ((op, i), d) ->
  arity op <> 2 \/ op = SET ->
  exists log,
    Calc.process_line current ("("%char :: inner ++ ")"%char :: rest)
    = Some (current, log) /\ log <> [].
Proof.
  intros Hin Hop Hnb.
  set (line := "("%char :: inner ++ ")"%char :: rest).
  assert (Hlen : length line = length (inner ++ rest) + 2).
  { unfold line. simpl. rewrite !length_app. simpl. lia. }
  unfold Calc.process_line, Calc.parse_op. fold line.
  unfold line at 1. rewrite (Calc_delete_brackets_pair inner rest Hin), Hop.
  fold line.
  destruct (parse_op_at_sound (inner ++ rest) 0 Hop) as (He & Hs & _).
  destruct op; simpl arity; cbv iota;
    try (exfalso; destruct Hnb as [Hnb | Hnb];
         [apply Hnb; reflexivity | discriminate]).
  - destruct (He eq_refl) as [_ ->].
    eexists. split; [reflexivity | discriminate].
  - rewrite Calc_parse_number_words.
    destruct (words (skipn (Calc.skip_brackets line i) line)) as [|t ts].
    + eexists. split; [reflexivity|]. cbn.
      intros E. apply app_eq_nil in E. destruct E; discriminate.
    + cbv beta iota zeta. cbn [Calc.fold_numbers].
      unfold line at 1. rewrite (Calc_is_fold_pair inner rest). cbn.
      eexists. split; [reflexivity|].
      intros E. apply app_eq_nil in E. destruct E; discriminate.
  - destruct Hs as (_ & _ & Hi & _); [discriminate|].
    replace (i <? size line) with true
      by (symmetry; apply Nat.ltb_lt; unfold size; lia).
    eexists. split; [reflexivity|].
    intros E. apply app_eq_nil in E. destruct E; discriminate.
  - destruct Hs as (_ & _ & Hi & _); [discriminate|].
    replace (i <? size line) with true
      by (symmetry; apply Nat.ltb_lt; unfold size; lia).
    eexists. split; [reflexivity|].
    intros E. apply app_eq_nil in E. destruct E; discriminate.
Qed.

Lemma Part000_bracket_not_binary current line :
  char_at line 0 = "("%char ->
  fold_op_of_char (char_at line 1) = None ->
  exists log,
    Part000.process_line current line = Some (current, log) /\ log <> [].
Proof.
  intros H0 Hnone. unfold Part000.process_line.
  destruct (Part000.fold_shape line) eqn:Hsh.
  - unfold Part000.fold_shape in Hsh. apply andb_true_iff in Hsh.
    pose proof (parse_op_at_no_fold_op line (proj2 Hsh) Hnone) as Hop.
    unfold Part000.left_fold, Part000.parse_op.
    destruct (parse_op_at line 1) as [[op i] d_op]. simpl in Hop.
    rewrite Hop. eexists. split; [reflexivity|].
    intros E. apply app_eq_nil in E. destruct E; discriminate.
  - unfold Part000.plain_line, Part000.parse_op, parse_op_at.
    rewrite H0. cbn. eexists. split; [reflexivity | discriminate].
Qed.

End BracketNever.

(** X17.  A bracket never carries Negate, SquareRoot or Set.  In
    [src/calc.cpp], when the text between the brackets (or, with empty
    brackets, the text after them) starts with anything but one of
    [+ - * / % ^], the line gives the accumulator back with a
    diagnostic; so [(_)] and [(SQRT)] never negate or take a root.  In
    the second variant every line that starts with the opening bracket
    and has none of the six operators as its second character gives the
    accumulator back with a diagnostic. *)
Theorem X17_brackets_only_fold :
  (forall (libm : Libm) (current : float) (inner rest : list ascii),
      forallb bracket_inner_char inner = true ->
      fold_op_of_char (char_at (inner ++ rest) 0) = None ->
      exists log,
        Calc.process_line current ("("%char :: inner ++ ")"%char :: rest)
        = Some (current, log) /\ log <> []) /\
  (forall (libm : Libm) (current : float) (line : list ascii),
      char_at line 0 = "("%char ->
      fold_op_of_char (char_at line 1) = None ->
      exists log,
        Part000.process_line current line = Some (current, log) /\
        log <> []).
Proof.
  split.
  - intros libm current inner rest Hin Hnone.
    destruct (parse_op_at (inner ++ rest) 0) as [[op i] d] eqn:Hop.
    apply (Calc_bracket_not_binary current inner rest Hin Hop).
    exact (parse_op_at_without_fold_op _ Hop Hnone).
  - intros libm current line. apply Part000_bracket_not_binary.
Qed.

Lemma X17_witness :
  forallb bracket_inner_char (str "SQRT") = true /\
  fold_op_of_char (char_at (str "SQRT" ++ []) 0) = None /\
  exists log,
    @Calc.process_line sample_libm 9 (str "(SQRT)") = Some (9%float, log) /\
    log <> [].
Proof.
  assert (Hin : forallb bracket_inner_char (str "SQRT") = true) by reflexivity.
  assert (Hn : fold_op_of_char (char_at (str "SQRT" ++ []) 0) = None)
    by reflexivity.
  split; [exact Hin|]. split; [exact Hn|].
  exact (proj1 X17_brackets_only_fold sample_libm 9%float (str "SQRT") []
               Hin Hn).
Defined.

(** * More of the code: negating twice *)

Lemma float_opp_involutive (x : float) : (- - x)%float = x.
Proof.
  apply FloatAxioms.Prim2SF_inj. rewrite !FloatAxioms.opp_spec.
  destruct (FloatOps.Prim2SF x) as [s | s | | s m e]; simpl;
    try rewrite negb_involutive; reflexivity.
Qed.

Lemma float_opp_differs (x : float) :
  PrimFloat.is_nan x = false -> (- x)%float <> x.
Proof.
  intros Hn E.
  apply (f_equal FloatOps.Prim2SF) in E. rewrite FloatAxioms.opp_spec in E.
  unfold PrimFloat.is_nan in Hn. rewrite FloatAxioms.eqb_spec in Hn.
  destruct (FloatOps.Prim2SF x) as [s | s | | s m e]; simpl in E, Hn;
    try discriminate; destruct s; discriminate.
Qed.

(** X18.  Negate is its own inverse: the line [_] evaluated twice gives
    back the accumulator it started from and logs nothing, the sign of a
    zero and of an infinity included.  Evaluated once it changes the
    accumulator unless that is a NaN.  The doubles of this model have a
    single NaN, so for a NaN this says no more than that a NaN comes
    back: the sign bit that the negation of the source flips on a NaN is
    not modelled. *)
Theorem X18_negate_twice :
  forall (libm : Libm) (current : float),
    (exists r,
        Calc.process_line current (str "_") = Some (r, []) /\
        Calc.process_line r (str "_") = Some (current, [])) /\
    (exists r,
        Part000.process_line current (str "_") = Some (r, []) /\
        Part000.process_line r (str "_") = Some (current, [])) /\
    (PrimFloat.is_nan current = false ->
     value_of (Calc.process_line current (str "_")) <> Some current /\
     value_of (Part000.process_line current (str "_")) <> Some current).
Proof.
  intros libm current. split; [|split].
  - exists (- current)%float. split; [reflexivity|].
    change (Calc.process_line (- current) (str "_"))
      with (Some ((- - current)%float, @nil diag)).
    rewrite float_opp_involutive. reflexivity.
  - exists (- current)%float. split; [reflexivity|].
    change (Part000.process_line (- current) (str "_"))
      with (Some ((- - current)%float, @nil diag)).
    rewrite float_opp_involutive. reflexivity.
  - intros Hn.
    change (value_of (Calc.process_line current (str "_")))
      with (Some (- current)%float).
    change (value_of (Part000.process_line current (str "_")))
      with (Some (- current)%float).
    split; intros E; inversion E as [E'];
      exact (float_opp_differs Hn E').
Qed.

Lemma X18_witness :
  PrimFloat.is_nan 0 = false /\
  value_of (@Calc.process_line sample_libm 0 (str "_")) <> Some 0%float /\
  value_of (@Part000.process_line sample_libm 0 (str "_")) <> Some 0%float.
Proof.
  assert (Hn : PrimFloat.is_nan 0 = false) by reflexivity.
  split; [exact Hn|].
  exact (proj2 (proj2 (X18_negate_twice sample_libm 0%float)) Hn).
Defined.

(** * More of the code: white space in fold lines and in plain lines *)

(** X19.  A fold line depends on its operator and its tokens only: two
    lines [(op) rest] whose tokens are the same give the same value and
    the same diagnostics, however much white space stands before,
    between or after the tokens.  A plain line is not so forgiving: white
    space after its argument makes it give the accumulator back. *)
Theorem X19_white_space_in_lines :
  (forall (libm : Libm) (current : float) (opc : ascii) (op : Op)
          (rest rest' : list ascii),
      fold_op_of_char opc = Some op ->
      words rest = words rest' ->
      Calc.process_line current (fold_line opc rest)
      = Calc.process_line current (fold_line opc rest') /\
      Part000.process_line current (fold_line opc rest)
      = Part000.process_line current (fold_line opc rest')) /\
  (forall (libm : Libm) (current : float) (opc : ascii) (op : Op)
          (ws lit : list ascii) (sp : ascii) (tail : list ascii),
      fold_op_of_char opc = Some op ->
      forallb isspace ws = true ->
      lit <> [] -> forallb (fun c => negb (isspace c)) lit = true ->
      isspace sp = true ->
      value_of (Calc.process_line current (opc :: ws ++ lit ++ sp :: tail))
      = Some current /\
      value_of (Part000.process_line current (opc :: ws ++ lit ++ sp :: tail))
      = Some current).
Proof.
  split.
  - intros libm current opc op rest rest' Hop Hw. split.
    + rewrite (Calc_process_fold_line opc rest current Hop).
      rewrite (Calc_process_fold_line opc rest' current Hop).
      rewrite <- Hw. destruct (words rest) as [|t ts]; [reflexivity|].
      rewrite (@Calc_fold_numbers_fold_branch libm op current
                 (fold_line opc rest) (fold_line opc rest') (t :: ts)
                 (Calc_is_fold_fold_line opc rest Hop)
                 (Calc_is_fold_fold_line opc rest' Hop) current 3 3 true).
      reflexivity.
    + rewrite (Part000_process_fold_line opc rest current Hop).
      rewrite (Part000_process_fold_line opc rest' current Hop).
      rewrite <- Hw. reflexivity.
  - intros libm current opc op ws lit sp tail Hop Hws Hne Hlit Hsp.
    set (line := opc :: ws ++ lit ++ sp :: tail).
    assert (H0 : (char_at line 0 =? "(")%char = false)
      by (unfold line; fold_ops Hop; reflexivity).
    assert (Hp : parse_op_at line 0 = ((op, 1), []))
      by (unfold line; fold_ops Hop; reflexivity).
    assert (Ha : arity op = 2) by apply (fold_op_binary opc Hop).
    assert (Hval : forall arg,
               In sp arg ->
               plain_binary_value op current arg = current).
    { intros arg Hin. unfold plain_binary_value.
      destruct arg as [|a arg']; [reflexivity|].
      destruct (reads_literal (a :: arg')) eqn:E; [|reflexivity].
      exfalso. apply reads_literal_iff in E. destruct E as [E _].
      rewrite forallb_forall in E. specialize (E sp Hin).
      apply literal_char_not_space in E. congruence. }
    assert (Hin : In sp (skipn (skip_ws line 1) line)).
    { rewrite skip_ws_eq, skipn_add. unfold line. simpl skipn.
      pose proof (ws_prefix_spaces (ws ++ lit ++ sp :: tail)) as Hpre.
      pose proof (firstn_skipn (ws_prefix (ws ++ lit ++ sp :: tail))
                    (ws ++ lit ++ sp :: tail)) as Hsplit.
      assert (Hall : In sp (ws ++ lit ++ sp :: tail)).
      { apply in_or_app. right. apply in_or_app. right. left. reflexivity. }
      assert (Hle : ws_prefix (ws ++ lit ++ sp :: tail)
                    <= length (ws ++ lit)).
      { clear - Hlit Hne. rewrite length_app.
        induction ws as [|c ws IH]; simpl.
        - destruct lit as [|c lit]; [congruence|]. simpl.
          simpl in Hlit. apply andb_true_iff in Hlit.
          destruct Hlit as [Hc _]. apply negb_true_iff in Hc.
          rewrite Hc. lia.
        - destruct (isspace c); lia. }
      rewrite app_assoc in *.
      rewrite skipn_app.
      apply in_or_app. right.
      replace (ws_prefix ((ws ++ lit) ++ sp :: tail) - length (ws ++ lit))
        with 0 by lia.
      left. reflexivity. }
    rewrite (Calc_plain_binary_value current line H0 Hp Ha).
    rewrite (Part000_plain_binary_value current line H0 Hp Ha).
    rewrite (Hval _ Hin). split; reflexivity.
Qed.

Lemma X19_witness :
  fold_op_of_char "+" = Some ADD /\
  words (str " 1 2") = words (str "   1    2  ") /\
  @Calc.process_line sample_libm 0 (str "(+) 1 2")
  = @Calc.process_line sample_libm 0 (str "(+)   1    2  ").
Proof.
  assert (Hop : fold_op_of_char "+" = Some ADD) by reflexivity.
  assert (Hw : words (str " 1 2") = words (str "   1    2  "))
    by reflexivity.
  split; [exact Hop|]. split; [exact Hw|].
  exact (proj1 (proj1 X19_white_space_in_lines sample_libm 0%float "+"%char
                  ADD (str " 1 2") (str "   1    2  ") Hop Hw)).
Defined.

(** X20.  In [src/calc.cpp] a line that starts with the opening bracket
    but has white space before its closing bracket, or no closing bracket
    after characters that are no white space, is an unknown operation:
    the accumulator comes back with that one diagnostic. *)
Theorem X20_calc_open_bracket_without_pair :
  forall (libm : Libm) (current : float) (inner tail : list ascii),
    forallb bracket_inner_char inner = true ->
    starts_with isspace tail ->
    Calc.process_line current ("("%char :: inner ++ tail)
    = Some (current, [UnknownOperation]).
Proof.
  intros libm current inner tail Hin Ht.
  unfold Calc.process_line, Calc.parse_op.
  rewrite (Calc_delete_brackets_unchanged inner tail Hin Ht). reflexivity.
Qed.

Lemma X20_witness :
  forallb bracket_inner_char (str "+") = true /\
  starts_with isspace (str " ) 1 2") /\
  @Calc.process_line sample_libm 5 (str "(+ ) 1 2")
  = Some (5%float, [UnknownOperation]).
Proof.
  assert (Hin : forallb bracket_inner_char (str "+") = true) by reflexivity.
  assert (Ht : starts_with isspace (str " ) 1 2")) by reflexivity.
  split; [exact Hin|]. split; [exact Ht|].
  exact (@X20_calc_open_bracket_without_pair sample_libm 5%float (str "+")
           (str " ) 1 2") Hin Ht).
Defined.

(** * Which lines are folded *)

Lemma parse_op_at_fold_op s op :
  fold_op_of_char (char_at s 0) = Some op -> parse_op_at s 0 = ((op, 1), []).
Proof.
  intros H. apply fold_op_cases in H. unfold parse_op_at.
  destruct H as [[E ->] | [[E ->] | [[E ->] | [[E ->] | [[E ->] | [E ->]]]]]];
    rewrite E; reflexivity.
Qed.

Lemma parse_op_at_digit_0 s :
  isdigit (char_at s 0) = true -> parse_op_at s 0 = ((SET, 0), []).
Proof. intros H. unfold parse_op_at. rewrite H. reflexivity. Qed.

Lemma parse_op_at_arity_2 s op i d :
  parse_op_at s 0 = ((op, i), d) ->
  arity op = 2 ->
  isdigit (char_at s 0) = true \/ fold_op_of_char (char_at s 0) <> None.
Proof.
  intros Hop Har.
  destruct (isdigit (char_at s 0)) eqn:Hd; [left; reflexivity|]. right.
  intros Hn.
  destruct (parse_op_at_without_fold_op _ Hop Hn) as [H | H]; [contradiction|].
  subst op. destruct (parse_op_at_sound s 0 Hop) as (_ & _ & Hs).
  rewrite (Hs eq_refl) in Hd. discriminate.
Qed.

(** The guard of the fold branch, read off the line. *)
Lemma calc_fold_guard_shape (line : list ascii) :
  calc_fold_guard line = true <->
  exists inner rest,
    line = "("%char :: inner ++ ")"%char :: rest /\
    forallb bracket_inner_char inner = true /\
    (isdigit (char_at (inner ++ rest) 0) = true \/
     fold_op_of_char (char_at (inner ++ rest) 0) <> None).
Proof.
  unfold calc_fold_guard. rewrite andb_true_iff, Nat.eqb_eq. split.
  - intros [Har Hf].
    assert (H0 : char_at line 0 = "("%char).
    { unfold Calc.is_fold in Hf.
      destruct (char_at line 0 =? "(")%char eqn:E; [|discriminate].
      apply Ascii.eqb_eq in E. exact E. }
    destruct (line_open_bracket line H0) as [l ->].
    destruct (bracket_split l) as (inner & tail & -> & Hin & [Ht | [rest ->]]).
    + exfalso. unfold Calc.parse_op in Har.
      rewrite (Calc_delete_brackets_unchanged inner tail Hin Ht) in Har.
      unfold parse_op_at in Har.
      change (char_at ("("%char :: inner ++ tail) 0) with "("%char in Har.
      simpl in Har. discriminate.
    + exists inner, rest. split; [reflexivity|]. split; [exact Hin|].
      unfold Calc.parse_op in Har.
      rewrite (Calc_delete_brackets_pair inner rest Hin) in Har.
      destruct (parse_op_at (inner ++ rest) 0) as [[op i] d] eqn:Hop.
      exact (parse_op_at_arity_2 _ Hop Har).
  - intros (inner & rest & -> & Hin & Hc).
    split; [|apply Calc_is_fold_pair].
    unfold Calc.parse_op. rewrite (Calc_delete_brackets_pair inner rest Hin).
    destruct Hc as [Hd | Hf].
    + rewrite (parse_op_at_digit_0 _ Hd). reflexivity.
    + destruct (fold_op_of_char (char_at (inner ++ rest) 0)) as [op|] eqn:E;
        [|congruence].
      rewrite (parse_op_at_fold_op _ E). apply (fold_op_binary _ E).
Qed.

Section WhichLines.
Context {libm : Libm}.

(** A line with a bracket pair whose text starts with one of the six
    operators: the tokens behind the closing bracket go through the fold
    branch. *)
Lemma Calc_process_bracket_line current inner rest op :
  forallb bracket_inner_char inner = true ->
  fold_op_of_char (char_at (inner ++ rest) 0) = Some op ->
  Calc.process_line current ("("%char :: inner ++ ")"%char :: rest) =
  match words rest with
  | [] => Some (current, [NoArgumentBinary])
  | tokens =>
      let (r, d) :=
        Calc.fold_numbers op current ("("%char :: inner ++ ")"%char :: rest)
                          tokens current (length inner + 2) true in
      Some (r, d)
  end.
Proof.
  intros Hin Hop.
  unfold Calc.process_line, Calc.parse_op.
  rewrite (Calc_delete_brackets_pair inner rest Hin).
  rewrite (parse_op_at_fold_op _ Hop).
  destruct (fold_op_binary _ Hop) as [-> _].
  pose proof (bracket_inner_no_close inner Hin) as Hnc.
  assert (Hi : 1 <= S (length inner)) by lia.
  rewrite (Calc_skip_brackets_pair inner rest Hnc Hi).
  rewrite Calc_parse_number_words.
  replace (skipn (length inner + 2) ("("%char :: inner ++ ")"%char :: rest))
    with rest.
  2:{ replace (length inner + 2)
        with (length (("("%char :: inner) ++ [")"%char]))
        by (rewrite length_app; simpl; lia).
      replace ("("%char :: inner ++ ")"%char :: rest)
        with ((("("%char :: inner) ++ [")"%char]) ++ rest)
        by (rewrite <- app_assoc; reflexivity).
      symmetry. apply skipn_app_exact. }
  destruct (words rest) as [|t ts]; [reflexivity|].
  cbv beta iota zeta. simpl app.
  destruct (Calc.fold_numbers op current
              ("("%char :: inner ++ ")"%char :: rest) (t :: ts) current
              (length inner + 2) true).
  reflexivity.
Qed.

End WhichLines.

(** C9, as amended.  The second variant hands a line to [left_fold] exactly
    when its characters at positions 0 and 2 are the two brackets; a
    character at position 1 that is none of [+ - * / % ^] makes the fold
    give the accumulator back.  In [src/calc.cpp] [is_fold] holds of
    every line that starts with the opening bracket and holds a closing
    bracket anywhere, but that alone folds nothing: the fold branch also
    needs an operation of two operands from [parse_op], which reads in
    the line without its bracket pair.  So its guard holds exactly of the
    lines [(inner)rest] with neither white space nor a closing bracket in
    [inner] and one of the six operators or a digit as the first
    character of [inner] followed by [rest].  With one of the six
    operators there, the tokens of [rest] are folded, all of them or
    none; with a digit (Set) the fold is refused.  Every other line that
    starts with the opening bracket gives the accumulator back with a
    diagnostic, [(+ 1) 2 3] and [(x) 2 3] among them.  A line that does
    not start with the opening bracket is never folded: after its
    operation it holds one argument, and [+ 1 2] gives the accumulator
    back.  A line [(op) rest] with one of the six operators is folded by
    both variants, and a line that starts with [(SQRT)] gives the
    accumulator back in both.  [(+1) 2 3] is folded by [src/calc.cpp], 0
    becoming 5, and is an unknown operation for the second variant. *)
Theorem C9_which_lines_are_folded :
  (forall line : list ascii,
      Part000.fold_shape line = true <->
      char_at line 0 = "("%char /\ char_at line 2 = ")"%char) /\
  (forall (libm : Libm) (current : float) (line : list ascii),
      Part000.process_line current line =
      if Part000.fold_shape line then Part000.left_fold current line
      else Some (Part000.plain_line current line)) /\
  (forall (libm : Libm) (current : float) (line : list ascii),
      Part000.fold_shape line = true ->
      fold_op_of_char (char_at line 1) = None ->
      exists d_op,
        Part000.process_line current line =
        Some (current, d_op ++ [LeftConvolutionBinaryOnly])) /\
  (forall line : list ascii,
      Calc.is_fold line = true <->
      char_at line 0 = "("%char /\ In ")"%char line) /\
  (forall (opc : ascii) (op : Op) (rest : list ascii),
      fold_op_of_char opc = Some op ->
      Calc.is_fold (fold_line opc rest) = true /\
      Part000.fold_shape (fold_line opc rest) = true) /\
  (forall (libm : Libm) (current : float) (rest : list ascii),
      Calc.process_line current (str "(SQRT)" ++ rest)
      = Some (current, [UnexpectedSuffixUnary]) /\
      Part000.process_line current (str "(SQRT)" ++ rest)
      = Some (current, [UnknownOperation])) /\
  (forall line : list ascii,
      calc_fold_guard line = true <->
      exists inner rest,
        line = "("%char :: inner ++ ")"%char :: rest /\
        forallb bracket_inner_char inner = true /\
        (isdigit (char_at (inner ++ rest) 0) = true \/
         fold_op_of_char (char_at (inner ++ rest) 0) <> None)) /\
  (forall (libm : Libm) (current : float) (inner rest : list ascii) (op : Op),
      forallb bracket_inner_char inner = true ->
      fold_op_of_char (char_at (inner ++ rest) 0) = Some op ->
      let line := "("%char :: inner ++ ")"%char :: rest in
      (words rest = [] ->
       Calc.process_line current line = Some (current, [NoArgumentBinary])) /\
      (words rest <> [] -> Forall (valid_token op) (words rest) ->
       Calc.process_line current line
       = Some (fold_left (fun acc t => binop op acc (literal_value t))
                         (words rest) current, [])) /\
      (Exists (fun t => ~ valid_token op t) (words rest) ->
       exists log,
         Calc.process_line current line = Some (current, log) /\ log <> [])) /\
  (forall (libm : Libm) (current : float) (line : list ascii),
      char_at line 0 = "("%char ->
      (forall inner rest : list ascii,
          line = "("%char :: inner ++ ")"%char :: rest ->
          forallb bracket_inner_char inner = true ->
          fold_op_of_char (char_at (inner ++ rest) 0) = None) ->
      exists log,
        Calc.process_line current line = Some (current, log) /\ log <> []) /\
  (forall (libm : Libm) (current : float) (line : list ascii),
      char_at line 0 <> "("%char ->
      calc_fold_guard line = false /\
      forall (op : Op) (i : nat) (d : list diag),
        Calc.parse_op line 0 = ((op, i), d) -> arity op = 2 ->
        value_of (Calc.process_line current line)
        = Some (plain_binary_value op current
                  (skipn (skip_ws line i) line))) /\
  (forall libm : Libm,
      Calc.is_fold (str "(+1) 2 3") = true /\
      Calc.process_line 0 (str "(+1) 2 3") = Some (5%float, []) /\
      Part000.fold_shape (str "(+1) 2 3") = false /\
      Part000.process_line 0 (str "(+1) 2 3")
      = Some (0%float, [UnknownOperation]) /\
      Calc.is_fold (str "(+ 1) 2 3") = true /\
      Calc.process_line 0 (str "(+ 1) 2 3")
      = Some (0%float, [UnknownOperation]) /\
      Calc.is_fold (str "(x) 2 3") = true /\
      Calc.process_line 0 (str "(x) 2 3")
      = Some (0%float, [UnknownOperation]) /\
      Calc.process_line 0 (str "+ 1 2")
      = Some (0%float, [ArgumentParsingError 3]) /\
      Part000.process_line 0 (str "+ 1 2")
      = Some (0%float, [ArgumentParsingError 3])).
Proof.
  split; [|split; [|split; [|split; [|split; [|split; [|split; [|split;
    [|split; [|split]]]]]]]]];
    [| | | | | | | | | |intros libm; repeat split; vm_compute; reflexivity].
  - intros line. unfold Part000.fold_shape.
    rewrite andb_true_iff, !Ascii.eqb_eq. reflexivity.
  - reflexivity.
  - intros libm current line Hsh Hnone.
    unfold Part000.process_line. rewrite Hsh.
    unfold Part000.fold_shape in Hsh. apply andb_true_iff in Hsh.
    pose proof (parse_op_at_no_fold_op line (proj2 Hsh) Hnone) as Hop.
    unfold Part000.left_fold, Part000.parse_op.
    destruct (parse_op_at line 1) as [[op i] d_op]. simpl in Hop.
    rewrite Hop. exists d_op. reflexivity.
  - intros line. unfold Calc.is_fold.
    destruct (char_at line 0 =? "(")%char eqn:E.
    + apply Ascii.eqb_eq in E. rewrite existsb_exists. split.
      * intros (c & Hin & Hc). apply Ascii.eqb_eq in Hc. subst c. auto.
      * intros [_ Hin]. exists ")"%char. split; [exact Hin | reflexivity].
    + split; [discriminate|]. intros [H _]. rewrite H in E. discriminate.
  - intros opc op rest Hop. split.
    + apply (Calc_is_fold_fold_line opc rest Hop).
    + reflexivity.
  - intros libm current rest. split; reflexivity.
  - apply calc_fold_guard_shape.
  - intros libm current inner rest op Hin Hop line.
    pose proof (Calc_process_bracket_line current inner rest Hin Hop) as E.
    fold line in E.
    assert (Hf : Calc.is_fold line = true) by apply Calc_is_fold_pair.
    split; [|split].
    + intros Hw. rewrite E, Hw. reflexivity.
    + intros Hne Hv. rewrite E.
      destruct (words rest) as [|t ts]; [congruence|].
      rewrite (@Calc_fold_numbers_valid libm op current line (t :: ts) Hf
                 (proj2 (fold_op_binary _ Hop)) Hv).
      reflexivity.
    + intros Hex. rewrite E.
      destruct (words rest) as [|t ts]; [inversion Hex|].
      destruct (@Calc_fold_numbers_invalid libm op current line (t :: ts)
                  Hf Hex current (length inner + 2)) as (log & El & Hl).
      rewrite El. exists log. split; [reflexivity | exact Hl].
  - intros libm current line H0 Hnone.
    destruct (line_open_bracket line H0) as [l ->].
    destruct (bracket_split l) as (inner & tail & -> & Hin & [Ht | [rest ->]]).
    + exists [UnknownOperation]. split; [|discriminate].
      unfold Calc.process_line, Calc.parse_op.
      rewrite (Calc_delete_brackets_unchanged inner tail Hin Ht). reflexivity.
    + specialize (Hnone inner rest eq_refl Hin).
      destruct (parse_op_at (inner ++ rest) 0) as [[op i] d] eqn:Hop.
      apply (Calc_bracket_not_binary current inner rest Hin Hop).
      exact (parse_op_at_without_fold_op _ Hop Hnone).
  - intros libm current line H0.
    assert (E : (char_at line 0 =? "(")%char = false).
    { destruct (char_at line 0 =? "(")%char eqn:E; [|reflexivity].
      apply Ascii.eqb_eq in E. contradiction. }
    split.
    + unfold calc_fold_guard, Calc.is_fold. rewrite E. apply andb_false_r.
    + intros op i d Hop Har. unfold Calc.parse_op in Hop.
      rewrite (Calc_delete_brackets_plain _ E) in Hop.
      exact (Calc_plain_binary_value current line E Hop Har).
Qed.


Lemma C9_witness :
  Part000.fold_shape (str "(x) 1 2") = true /\
  fold_op_of_char (char_at (str "(x) 1 2") 1) = None /\
  (exists d_op,
      @Part000.process_line sample_libm 3 (str "(x) 1 2") =
      Some (3%float, d_op ++ [LeftConvolutionBinaryOnly])) /\
  forallb bracket_inner_char (str "+1") = true /\
  fold_op_of_char (char_at (str "+1" ++ str " 2 3") 0) = Some ADD /\
  words (str " 2 3") <> [] /\
  @Calc.process_line sample_libm 0 (str "(+1) 2 3") = Some (5%float, []).
Proof.
  assert (Hsh : Part000.fold_shape (str "(x) 1 2") = true) by reflexivity.
  assert (Hn : fold_op_of_char (char_at (str "(x) 1 2") 1) = None)
    by reflexivity.
  assert (Hin : forallb bracket_inner_char (str "+1") = true) by reflexivity.
  assert (Hop : fold_op_of_char (char_at (str "+1" ++ str " 2 3") 0)
                = Some ADD) by reflexivity.
  assert (Hne : words (str " 2 3") <> []) by discriminate.
  assert (Hv : Forall (valid_token ADD) (words (str " 2 3"))).
  { repeat constructor; vm_compute; try reflexivity; left; lia. }
  split; [exact Hsh|]. split; [exact Hn|].
  split; [exact (proj1 (proj2 (proj2 C9_which_lines_are_folded))
                   sample_libm 3%float (str "(x) 1 2") Hsh Hn)|].
  split; [exact Hin|]. split; [exact Hop|]. split; [exact Hne|].
  refine (eq_trans
            (proj1 (proj2
               (proj1 (proj2 (proj2 (proj2 (proj2 (proj2 (proj2 (proj2
                   C9_which_lines_are_folded)))))))
                  sample_libm 0%float (str "+1") (str " 2 3") ADD Hin Hop))
               Hne Hv) _).
  vm_compute. reflexivity.
Defined.

(** C9, against the specification's wording for [src/calc.cpp]: the line
    [(+1) 2 3] has [1], not the closing bracket, at position 2, and is
    folded all the same, 0 becoming 2 + 3. *)
Lemma C9_calc_folds_other_shapes_counterexample :
  (forall libm : Libm,
      Calc.process_line 0 (str "(+1) 2 3") = Some (5%float, [])) /\
  Calc.is_fold (str "(+1) 2 3") = true /\
  char_at (str "(+1) 2 3") 2 = "1"%char /\
  (forall libm : Libm,
      Part000.process_line 0 (str "(+1) 2 3") = Some (0%float, [UnknownOperation])).
Proof.
  repeat split; intros; vm_compute; reflexivity.
Qed.

